(** * Configuration resolution of the packer builders

    A shallow embedding of the validation and derivation code of the
    Amazon, VMware and VirtualBox builders:

    - [BlockDev]: [BlockDevice], [buildBlockDevices], [BlockDevice.Prepare]
      and [BlockDevices.Prepare] (builder/amazon/common, block devices);
    - [Run]: [RunConfig.Prepare] (builder/amazon/common, run configuration);
    - [Shutdown]: [ShutdownConfig.Prepare] (builder/vmware/common);
    - [Ovf]: [NewConfig] of the VirtualBox OVF builder, with the shared
      [MultiError] accumulator kept in an explicit store.

    Go strings are byte strings ([string]); [int64] and [time.Duration]
    values are integers ([Z]); a Go pointer that may be nil is an [option];
    a Go [error] carries its message. *)

From Stdlib Require Import ZArith String Ascii List Lia DecimalString.
From stdpp Require Import base option list strings gmap.

Local Open Scope Z_scope.

(** An [error] is the message that [Error()] renders. *)
Definition error : Type := string.

(** Comparison of a Go string with the empty string. *)
Definition is_empty (s : string) : bool :=
  match s with
  | EmptyString => true
  | String _ _ => false
  end.

Definition non_empty (s : string) : bool := negb (is_empty s).

(** Number of errors of a list that carry the message [m]. *)
Definition count_msg (m : error) (errs : list error) : nat :=
  length (filter (fun e => e = m) errs).

(** ** Amazon EC2 request shapes (aws-sdk-go, service/ec2)

    Every field of the SDK's structures is a pointer; [None] is nil. *)
Module ec2.

Record EbsBlockDevice := {
  DeleteOnTermination : option bool;
  Encrypted : option bool;
  Iops : option Z;
  KmsKeyId : option string;
  SnapshotId : option string;
  VolumeSize : option Z;
  VolumeType : option string
}.

Record BlockDeviceMapping := {
  DeviceName : option string;
  Ebs : option EbsBlockDevice;
  NoDevice : option string;
  VirtualName : option string
}.

End ec2.

(** ** Block devices *)
Module BlockDev.

Record BlockDevice := {
  DeleteOnTermination : bool;
  DeviceName : string;
  Encrypted : option bool;
  IOPS : Z;
  NoDevice : bool;
  SnapshotId : string;
  VirtualName : string;
  VolumeType : string;
  VolumeSize : Z;
  KmsKeyId : string;
  OmitFromArtifact : bool
}.

Record BlockDevices := {
  AMIMappings : list BlockDevice;
  LaunchMappings : list BlockDevice
}.

(** The [ebsBlockDevice] built in the last branch of the loop body. *)
Definition ebsBlockDevice (blockDevice : BlockDevice) : ec2.EbsBlockDevice :=
  {| ec2.DeleteOnTermination := Some (DeleteOnTermination blockDevice);
     ec2.VolumeType :=
       if non_empty (VolumeType blockDevice)
       then Some (VolumeType blockDevice) else None;
     ec2.VolumeSize :=
       if 0 <? VolumeSize blockDevice
       then Some (VolumeSize blockDevice) else None;
     ec2.Iops :=
       if String.eqb (VolumeType blockDevice) "io1"
       then Some (IOPS blockDevice) else None;
     ec2.SnapshotId :=
       if non_empty (SnapshotId blockDevice)
       then Some (SnapshotId blockDevice) else None;
     ec2.Encrypted := Encrypted blockDevice;
     ec2.KmsKeyId :=
       if non_empty (KmsKeyId blockDevice)
       then Some (KmsKeyId blockDevice) else None |}.

(** The body of the loop of [buildBlockDevices]: the mapping of one
    block device. *)
Definition mapping (blockDevice : BlockDevice) : ec2.BlockDeviceMapping :=
  let m := {| ec2.DeviceName := Some (DeviceName blockDevice);
              ec2.Ebs := None;
              ec2.NoDevice := None;
              ec2.VirtualName := None |} in
  if NoDevice blockDevice then
    {| ec2.DeviceName := ec2.DeviceName m;
       ec2.Ebs := ec2.Ebs m;
       ec2.NoDevice := Some EmptyString;
       ec2.VirtualName := ec2.VirtualName m |}
  else if non_empty (VirtualName blockDevice) then
    if String.prefix "ephemeral" (VirtualName blockDevice) then
      {| ec2.DeviceName := ec2.DeviceName m;
         ec2.Ebs := ec2.Ebs m;
         ec2.NoDevice := ec2.NoDevice m;
         ec2.VirtualName := Some (VirtualName blockDevice) |}
    else m
  else
    {| ec2.DeviceName := ec2.DeviceName m;
       ec2.Ebs := Some (ebsBlockDevice blockDevice);
       ec2.NoDevice := ec2.NoDevice m;
       ec2.VirtualName := ec2.VirtualName m |}.

(** How many of the three kinds a mapping carries: suppressed
    ([NoDevice]), ephemeral ([VirtualName]), persistent ([Ebs]). *)
Definition kinds (m : ec2.BlockDeviceMapping) : nat :=
  ((if ec2.NoDevice m is Some _ then 1 else 0)
   + (if ec2.VirtualName m is Some _ then 1 else 0)
   + (if ec2.Ebs m is Some _ then 1 else 0))%nat.

(** [buildBlockDevices]: the loop appends one mapping per device. *)
Definition buildBlockDevices (b : list BlockDevice) : list ec2.BlockDeviceMapping :=
  fold_left (fun blockDevices blockDevice => blockDevices ++ [mapping blockDevice]) b [].

(** The messages of [BlockDevice.Prepare]. *)
Definition err_device_name : error :=
  "The `device_name` must be specified " +:+
  "for every device in the block device mapping.".

Definition err_kms_key (b : BlockDevice) : error :=
  "The device " +:+ DeviceName b +:+ ", must also have `encrypted: " +:+
  "true` when setting a kms_key_id.".

(** The condition of the second rule: a key with encryption switched off. *)
Definition kms_without_encryption (b : BlockDevice) : bool :=
  non_empty (KmsKeyId b)
  && match Encrypted b with Some false => true | _ => false end.

(** [BlockDevice.Prepare] returns nil or the first violation it meets. *)
Definition Prepare_device (b : BlockDevice) : option error :=
  if is_empty (DeviceName b) then Some err_device_name
  else if kms_without_encryption b then Some (err_kms_key b)
  else None.

(** The attributed messages of [BlockDevices.Prepare]. *)
Definition attributed (label : string) (err : error) : error :=
  label +:+ ": " +:+ err.

(** One of the two loops of [BlockDevices.Prepare], for the mappings
    [ds] and the attribution [label]. *)
Definition Prepare_mappings (label : string) (ds : list BlockDevice)
    (errs : list error) : list error :=
  fold_left
    (fun errs d =>
       match Prepare_device d with
       | Some err => errs ++ [attributed label err]
       | None => errs
       end)
    ds errs.

(** [BlockDevices.Prepare]. *)
Definition Prepare (b : BlockDevices) : list error :=
  let errs := Prepare_mappings "AMIMapping" (AMIMappings b) [] in
  Prepare_mappings "LaunchMapping" (LaunchMappings b) errs.

(** [AMIBlockDevices.BuildAMIDevices] and
    [LaunchBlockDevices.BuildLaunchDevices]. *)
Definition BuildAMIDevices (b : BlockDevices) : list ec2.BlockDeviceMapping :=
  buildBlockDevices (AMIMappings b).

Definition BuildLaunchDevices (b : BlockDevices) : list ec2.BlockDeviceMapping :=
  buildBlockDevices (LaunchMappings b).

(** [LaunchBlockDevices.GetOmissions]: the loop writes one entry per launch
    device, so a later device overwrites an earlier one of the same name. *)
Definition GetOmissions (b : BlockDevices) : gmap string bool :=
  fold_left
    (fun omitMap blockDevice =>
       <[DeviceName blockDevice := OmitFromArtifact blockDevice]> omitMap)
    (LaunchMappings b) ∅.

End BlockDev.

(** ** The communicator configuration (helper/communicator)

    [RunConfig.Prepare] reads and writes the fields below; the remaining
    fields of [communicator.Config] are kept in [Rest]. *)
Module communicator.

Record Config (Rest : Type) := {
  Type_ : string;
  SSHKeyPairName : string;
  SSHTemporaryKeyPairName : string;
  SSHPrivateKeyFile : string;
  SSHPassword : string;
  SSHInterface : string;
  SSHAgentAuth : bool;
  WinRMPassword : string;
  rest : Rest
}.

Arguments Type_ {Rest} _.
Arguments SSHKeyPairName {Rest} _.
Arguments SSHTemporaryKeyPairName {Rest} _.
Arguments SSHPrivateKeyFile {Rest} _.
Arguments SSHPassword {Rest} _.
Arguments SSHInterface {Rest} _.
Arguments SSHAgentAuth {Rest} _.
Arguments WinRMPassword {Rest} _.
Arguments rest {Rest} _.

Definition set_SSHTemporaryKeyPairName {Rest : Type} (v : string)
    (c : Config Rest) : Config Rest :=
  {| Type_ := Type_ c; SSHKeyPairName := SSHKeyPairName c;
     SSHTemporaryKeyPairName := v; SSHPrivateKeyFile := SSHPrivateKeyFile c;
     SSHPassword := SSHPassword c; SSHInterface := SSHInterface c;
     SSHAgentAuth := SSHAgentAuth c; WinRMPassword := WinRMPassword c;
     rest := rest c |}.

End communicator.

(** ** Filter options of the run configuration

    A [map[*string]*string] is keyed by pointers, so two entries may carry
    the same text: the entries are kept as a list. *)
Module AmiFilterOptions.

Record t := {
  Filters : list (string * string);
  Owners : list string;
  MostRecent : bool
}.

Definition Empty (d : t) : bool :=
  (length (Owners d) =? 0)%nat && (length (Filters d) =? 0)%nat.

Definition NoOwner (d : t) : bool := (length (Owners d) =? 0)%nat.

End AmiFilterOptions.

Module SubnetFilterOptions.

Record t := {
  Filters : list (string * string);
  MostFree : bool;
  Random : bool
}.

Definition Empty (d : t) : bool := (length (Filters d) =? 0)%nat.

End SubnetFilterOptions.

Module VpcFilterOptions.

Record t := { Filters : list (string * string) }.

Definition Empty (d : t) : bool := (length (Filters d) =? 0)%nat.

End VpcFilterOptions.

Module SecurityGroupFilterOptions.

Record t := { Filters : list (string * string) }.

Definition Empty (d : t) : bool := (length (Filters d) =? 0)%nat.

End SecurityGroupFilterOptions.

(** ** The run configuration *)
Module Run.

(** [time.Minute], in nanoseconds. *)
Definition Minute : Z := 60 * 1000000000.

Record RunConfig (Rest : Type) := {
  AssociatePublicIpAddress : bool;
  AvailabilityZone : string;
  BlockDurationMinutes : Z;
  DisableStopInstance : bool;
  EbsOptimized : bool;
  EnableT2Unlimited : bool;
  IamInstanceProfile : string;
  InstanceInitiatedShutdownBehavior : string;
  InstanceType : string;
  SecurityGroupFilter : SecurityGroupFilterOptions.t;
  RunTags : option (gmap string string);
  SecurityGroupId : string;
  SecurityGroupIds : list string;
  SourceAmi : string;
  SourceAmiFilter : AmiFilterOptions.t;
  SpotInstanceTypes : list string;
  SpotPrice : string;
  SpotPriceAutoProduct : string;
  SpotTags : option (gmap string string);
  SubnetFilter : SubnetFilterOptions.t;
  SubnetId : string;
  TemporaryKeyPairName : string;
  TemporarySGSourceCidrs : list string;
  UserData : string;
  UserDataFile : string;
  VpcFilter : VpcFilterOptions.t;
  VpcId : string;
  WindowsPasswordTimeout : Z;
  Comm : communicator.Config Rest
}.

Arguments AssociatePublicIpAddress {Rest} _.
Arguments AvailabilityZone {Rest} _.
Arguments BlockDurationMinutes {Rest} _.
Arguments DisableStopInstance {Rest} _.
Arguments EbsOptimized {Rest} _.
Arguments EnableT2Unlimited {Rest} _.
Arguments IamInstanceProfile {Rest} _.
Arguments InstanceInitiatedShutdownBehavior {Rest} _.
Arguments InstanceType {Rest} _.
Arguments SecurityGroupFilter {Rest} _.
Arguments RunTags {Rest} _.
Arguments SecurityGroupId {Rest} _.
Arguments SecurityGroupIds {Rest} _.
Arguments SourceAmi {Rest} _.
Arguments SourceAmiFilter {Rest} _.
Arguments SpotInstanceTypes {Rest} _.
Arguments SpotPrice {Rest} _.
Arguments SpotPriceAutoProduct {Rest} _.
Arguments SpotTags {Rest} _.
Arguments SubnetFilter {Rest} _.
Arguments SubnetId {Rest} _.
Arguments TemporaryKeyPairName {Rest} _.
Arguments TemporarySGSourceCidrs {Rest} _.
Arguments UserData {Rest} _.
Arguments UserDataFile {Rest} _.
Arguments VpcFilter {Rest} _.
Arguments VpcId {Rest} _.
Arguments WindowsPasswordTimeout {Rest} _.
Arguments Comm {Rest} _.

Section Setters.

Context {Rest : Type}.

Definition set_Comm (v : _) (c : RunConfig Rest) : RunConfig Rest :=
  {| AssociatePublicIpAddress := AssociatePublicIpAddress c;
   AvailabilityZone := AvailabilityZone c;
   BlockDurationMinutes := BlockDurationMinutes c;
   DisableStopInstance := DisableStopInstance c; EbsOptimized := EbsOptimized c;
   EnableT2Unlimited := EnableT2Unlimited c;
   IamInstanceProfile := IamInstanceProfile c;
   InstanceInitiatedShutdownBehavior := InstanceInitiatedShutdownBehavior c;
   InstanceType := InstanceType c; SecurityGroupFilter := SecurityGroupFilter c;
   RunTags := RunTags c; SecurityGroupId := SecurityGroupId c;
   SecurityGroupIds := SecurityGroupIds c; SourceAmi := SourceAmi c;
   SourceAmiFilter := SourceAmiFilter c; SpotInstanceTypes := SpotInstanceTypes c;
   SpotPrice := SpotPrice c; SpotPriceAutoProduct := SpotPriceAutoProduct c;
   SpotTags := SpotTags c; SubnetFilter := SubnetFilter c; SubnetId := SubnetId c;
   TemporaryKeyPairName := TemporaryKeyPairName c;
   TemporarySGSourceCidrs := TemporarySGSourceCidrs c; UserData := UserData c;
   UserDataFile := UserDataFile c; VpcFilter := VpcFilter c; VpcId := VpcId c;
   WindowsPasswordTimeout := WindowsPasswordTimeout c; Comm := v |}.

Definition set_WindowsPasswordTimeout (v : _) (c : RunConfig Rest) : RunConfig Rest :=
  {| AssociatePublicIpAddress := AssociatePublicIpAddress c;
   AvailabilityZone := AvailabilityZone c;
   BlockDurationMinutes := BlockDurationMinutes c;
   DisableStopInstance := DisableStopInstance c; EbsOptimized := EbsOptimized c;
   EnableT2Unlimited := EnableT2Unlimited c;
   IamInstanceProfile := IamInstanceProfile c;
   InstanceInitiatedShutdownBehavior := InstanceInitiatedShutdownBehavior c;
   InstanceType := InstanceType c; SecurityGroupFilter := SecurityGroupFilter c;
   RunTags := RunTags c; SecurityGroupId := SecurityGroupId c;
   SecurityGroupIds := SecurityGroupIds c; SourceAmi := SourceAmi c;
   SourceAmiFilter := SourceAmiFilter c; SpotInstanceTypes := SpotInstanceTypes c;
   SpotPrice := SpotPrice c; SpotPriceAutoProduct := SpotPriceAutoProduct c;
   SpotTags := SpotTags c; SubnetFilter := SubnetFilter c; SubnetId := SubnetId c;
   TemporaryKeyPairName := TemporaryKeyPairName c;
   TemporarySGSourceCidrs := TemporarySGSourceCidrs c; UserData := UserData c;
   UserDataFile := UserDataFile c; VpcFilter := VpcFilter c; VpcId := VpcId c;
   WindowsPasswordTimeout := v; Comm := Comm c |}.

Definition set_RunTags (v : _) (c : RunConfig Rest) : RunConfig Rest :=
  {| AssociatePublicIpAddress := AssociatePublicIpAddress c;
   AvailabilityZone := AvailabilityZone c;
   BlockDurationMinutes := BlockDurationMinutes c;
   DisableStopInstance := DisableStopInstance c; EbsOptimized := EbsOptimized c;
   EnableT2Unlimited := EnableT2Unlimited c;
   IamInstanceProfile := IamInstanceProfile c;
   InstanceInitiatedShutdownBehavior := InstanceInitiatedShutdownBehavior c;
   InstanceType := InstanceType c; SecurityGroupFilter := SecurityGroupFilter c;
   RunTags := v; SecurityGroupId := SecurityGroupId c;
   SecurityGroupIds := SecurityGroupIds c; SourceAmi := SourceAmi c;
   SourceAmiFilter := SourceAmiFilter c; SpotInstanceTypes := SpotInstanceTypes c;
   SpotPrice := SpotPrice c; SpotPriceAutoProduct := SpotPriceAutoProduct c;
   SpotTags := SpotTags c; SubnetFilter := SubnetFilter c; SubnetId := SubnetId c;
   TemporaryKeyPairName := TemporaryKeyPairName c;
   TemporarySGSourceCidrs := TemporarySGSourceCidrs c; UserData := UserData c;
   UserDataFile := UserDataFile c; VpcFilter := VpcFilter c; VpcId := VpcId c;
   WindowsPasswordTimeout := WindowsPasswordTimeout c; Comm := Comm c |}.

Definition set_SecurityGroupIds (v : _) (c : RunConfig Rest) : RunConfig Rest :=
  {| AssociatePublicIpAddress := AssociatePublicIpAddress c;
   AvailabilityZone := AvailabilityZone c;
   BlockDurationMinutes := BlockDurationMinutes c;
   DisableStopInstance := DisableStopInstance c; EbsOptimized := EbsOptimized c;
   EnableT2Unlimited := EnableT2Unlimited c;
   IamInstanceProfile := IamInstanceProfile c;
   InstanceInitiatedShutdownBehavior := InstanceInitiatedShutdownBehavior c;
   InstanceType := InstanceType c; SecurityGroupFilter := SecurityGroupFilter c;
   RunTags := RunTags c; SecurityGroupId := SecurityGroupId c;
   SecurityGroupIds := v; SourceAmi := SourceAmi c;
   SourceAmiFilter := SourceAmiFilter c; SpotInstanceTypes := SpotInstanceTypes c;
   SpotPrice := SpotPrice c; SpotPriceAutoProduct := SpotPriceAutoProduct c;
   SpotTags := SpotTags c; SubnetFilter := SubnetFilter c; SubnetId := SubnetId c;
   TemporaryKeyPairName := TemporaryKeyPairName c;
   TemporarySGSourceCidrs := TemporarySGSourceCidrs c; UserData := UserData c;
   UserDataFile := UserDataFile c; VpcFilter := VpcFilter c; VpcId := VpcId c;
   WindowsPasswordTimeout := WindowsPasswordTimeout c; Comm := Comm c |}.

Definition set_SecurityGroupId (v : _) (c : RunConfig Rest) : RunConfig Rest :=
  {| AssociatePublicIpAddress := AssociatePublicIpAddress c;
   AvailabilityZone := AvailabilityZone c;
   BlockDurationMinutes := BlockDurationMinutes c;
   DisableStopInstance := DisableStopInstance c; EbsOptimized := EbsOptimized c;
   EnableT2Unlimited := EnableT2Unlimited c;
   IamInstanceProfile := IamInstanceProfile c;
   InstanceInitiatedShutdownBehavior := InstanceInitiatedShutdownBehavior c;
   InstanceType := InstanceType c; SecurityGroupFilter := SecurityGroupFilter c;
   RunTags := RunTags c; SecurityGroupId := v;
   SecurityGroupIds := SecurityGroupIds c; SourceAmi := SourceAmi c;
   SourceAmiFilter := SourceAmiFilter c; SpotInstanceTypes := SpotInstanceTypes c;
   SpotPrice := SpotPrice c; SpotPriceAutoProduct := SpotPriceAutoProduct c;
   SpotTags := SpotTags c; SubnetFilter := SubnetFilter c; SubnetId := SubnetId c;
   TemporaryKeyPairName := TemporaryKeyPairName c;
   TemporarySGSourceCidrs := TemporarySGSourceCidrs c; UserData := UserData c;
   UserDataFile := UserDataFile c; VpcFilter := VpcFilter c; VpcId := VpcId c;
   WindowsPasswordTimeout := WindowsPasswordTimeout c; Comm := Comm c |}.

Definition set_TemporarySGSourceCidrs (v : _) (c : RunConfig Rest) : RunConfig Rest :=
  {| AssociatePublicIpAddress := AssociatePublicIpAddress c;
   AvailabilityZone := AvailabilityZone c;
   BlockDurationMinutes := BlockDurationMinutes c;
   DisableStopInstance := DisableStopInstance c; EbsOptimized := EbsOptimized c;
   EnableT2Unlimited := EnableT2Unlimited c;
   IamInstanceProfile := IamInstanceProfile c;
   InstanceInitiatedShutdownBehavior := InstanceInitiatedShutdownBehavior c;
   InstanceType := InstanceType c; SecurityGroupFilter := SecurityGroupFilter c;
   RunTags := RunTags c; SecurityGroupId := SecurityGroupId c;
   SecurityGroupIds := SecurityGroupIds c; SourceAmi := SourceAmi c;
   SourceAmiFilter := SourceAmiFilter c; SpotInstanceTypes := SpotInstanceTypes c;
   SpotPrice := SpotPrice c; SpotPriceAutoProduct := SpotPriceAutoProduct c;
   SpotTags := SpotTags c; SubnetFilter := SubnetFilter c; SubnetId := SubnetId c;
   TemporaryKeyPairName := TemporaryKeyPairName c; TemporarySGSourceCidrs := v;
   UserData := UserData c; UserDataFile := UserDataFile c;
   VpcFilter := VpcFilter c; VpcId := VpcId c;
   WindowsPasswordTimeout := WindowsPasswordTimeout c; Comm := Comm c |}.

Definition set_InstanceInitiatedShutdownBehavior (v : _) (c : RunConfig Rest) : RunConfig Rest :=
  {| AssociatePublicIpAddress := AssociatePublicIpAddress c;
   AvailabilityZone := AvailabilityZone c;
   BlockDurationMinutes := BlockDurationMinutes c;
   DisableStopInstance := DisableStopInstance c; EbsOptimized := EbsOptimized c;
   EnableT2Unlimited := EnableT2Unlimited c;
   IamInstanceProfile := IamInstanceProfile c;
   InstanceInitiatedShutdownBehavior := v; InstanceType := InstanceType c;
   SecurityGroupFilter := SecurityGroupFilter c; RunTags := RunTags c;
   SecurityGroupId := SecurityGroupId c; SecurityGroupIds := SecurityGroupIds c;
   SourceAmi := SourceAmi c; SourceAmiFilter := SourceAmiFilter c;
   SpotInstanceTypes := SpotInstanceTypes c; SpotPrice := SpotPrice c;
   SpotPriceAutoProduct := SpotPriceAutoProduct c; SpotTags := SpotTags c;
   SubnetFilter := SubnetFilter c; SubnetId := SubnetId c;
   TemporaryKeyPairName := TemporaryKeyPairName c;
   TemporarySGSourceCidrs := TemporarySGSourceCidrs c; UserData := UserData c;
   UserDataFile := UserDataFile c; VpcFilter := VpcFilter c; VpcId := VpcId c;
   WindowsPasswordTimeout := WindowsPasswordTimeout c; Comm := Comm c |}.

Definition set_SourceAmiFilter (v : _) (c : RunConfig Rest) : RunConfig Rest :=
  {| AssociatePublicIpAddress := AssociatePublicIpAddress c;
   AvailabilityZone := AvailabilityZone c;
   BlockDurationMinutes := BlockDurationMinutes c;
   DisableStopInstance := DisableStopInstance c; EbsOptimized := EbsOptimized c;
   EnableT2Unlimited := EnableT2Unlimited c;
   IamInstanceProfile := IamInstanceProfile c;
   InstanceInitiatedShutdownBehavior := InstanceInitiatedShutdownBehavior c;
   InstanceType := InstanceType c; SecurityGroupFilter := SecurityGroupFilter c;
   RunTags := RunTags c; SecurityGroupId := SecurityGroupId c;
   SecurityGroupIds := SecurityGroupIds c; SourceAmi := SourceAmi c;
   SourceAmiFilter := v; SpotInstanceTypes := SpotInstanceTypes c;
   SpotPrice := SpotPrice c; SpotPriceAutoProduct := SpotPriceAutoProduct c;
   SpotTags := SpotTags c; SubnetFilter := SubnetFilter c; SubnetId := SubnetId c;
   TemporaryKeyPairName := TemporaryKeyPairName c;
   TemporarySGSourceCidrs := TemporarySGSourceCidrs c; UserData := UserData c;
   UserDataFile := UserDataFile c; VpcFilter := VpcFilter c; VpcId := VpcId c;
   WindowsPasswordTimeout := WindowsPasswordTimeout c; Comm := Comm c |}.

Definition set_BlockDurationMinutes (v : _) (c : RunConfig Rest) : RunConfig Rest :=
  {| AssociatePublicIpAddress := AssociatePublicIpAddress c;
   AvailabilityZone := AvailabilityZone c; BlockDurationMinutes := v;
   DisableStopInstance := DisableStopInstance c; EbsOptimized := EbsOptimized c;
   EnableT2Unlimited := EnableT2Unlimited c;
   IamInstanceProfile := IamInstanceProfile c;
   InstanceInitiatedShutdownBehavior := InstanceInitiatedShutdownBehavior c;
   InstanceType := InstanceType c; SecurityGroupFilter := SecurityGroupFilter c;
   RunTags := RunTags c; SecurityGroupId := SecurityGroupId c;
   SecurityGroupIds := SecurityGroupIds c; SourceAmi := SourceAmi c;
   SourceAmiFilter := SourceAmiFilter c; SpotInstanceTypes := SpotInstanceTypes c;
   SpotPrice := SpotPrice c; SpotPriceAutoProduct := SpotPriceAutoProduct c;
   SpotTags := SpotTags c; SubnetFilter := SubnetFilter c; SubnetId := SubnetId c;
   TemporaryKeyPairName := TemporaryKeyPairName c;
   TemporarySGSourceCidrs := TemporarySGSourceCidrs c; UserData := UserData c;
   UserDataFile := UserDataFile c; VpcFilter := VpcFilter c; VpcId := VpcId c;
   WindowsPasswordTimeout := WindowsPasswordTimeout c; Comm := Comm c |}.

Definition set_SourceAmi (v : _) (c : RunConfig Rest) : RunConfig Rest :=
  {| AssociatePublicIpAddress := AssociatePublicIpAddress c;
   AvailabilityZone := AvailabilityZone c;
   BlockDurationMinutes := BlockDurationMinutes c;
   DisableStopInstance := DisableStopInstance c; EbsOptimized := EbsOptimized c;
   EnableT2Unlimited := EnableT2Unlimited c;
   IamInstanceProfile := IamInstanceProfile c;
   InstanceInitiatedShutdownBehavior := InstanceInitiatedShutdownBehavior c;
   InstanceType := InstanceType c; SecurityGroupFilter := SecurityGroupFilter c;
   RunTags := RunTags c; SecurityGroupId := SecurityGroupId c;
   SecurityGroupIds := SecurityGroupIds c; SourceAmi := v;
   SourceAmiFilter := SourceAmiFilter c; SpotInstanceTypes := SpotInstanceTypes c;
   SpotPrice := SpotPrice c; SpotPriceAutoProduct := SpotPriceAutoProduct c;
   SpotTags := SpotTags c; SubnetFilter := SubnetFilter c; SubnetId := SubnetId c;
   TemporaryKeyPairName := TemporaryKeyPairName c;
   TemporarySGSourceCidrs := TemporarySGSourceCidrs c; UserData := UserData c;
   UserDataFile := UserDataFile c; VpcFilter := VpcFilter c; VpcId := VpcId c;
   WindowsPasswordTimeout := WindowsPasswordTimeout c; Comm := Comm c |}.

Definition set_InstanceType (v : _) (c : RunConfig Rest) : RunConfig Rest :=
  {| AssociatePublicIpAddress := AssociatePublicIpAddress c;
   AvailabilityZone := AvailabilityZone c;
   BlockDurationMinutes := BlockDurationMinutes c;
   DisableStopInstance := DisableStopInstance c; EbsOptimized := EbsOptimized c;
   EnableT2Unlimited := EnableT2Unlimited c;
   IamInstanceProfile := IamInstanceProfile c;
   InstanceInitiatedShutdownBehavior := InstanceInitiatedShutdownBehavior c;
   InstanceType := v; SecurityGroupFilter := SecurityGroupFilter c;
   RunTags := RunTags c; SecurityGroupId := SecurityGroupId c;
   SecurityGroupIds := SecurityGroupIds c; SourceAmi := SourceAmi c;
   SourceAmiFilter := SourceAmiFilter c; SpotInstanceTypes := SpotInstanceTypes c;
   SpotPrice := SpotPrice c; SpotPriceAutoProduct := SpotPriceAutoProduct c;
   SpotTags := SpotTags c; SubnetFilter := SubnetFilter c; SubnetId := SubnetId c;
   TemporaryKeyPairName := TemporaryKeyPairName c;
   TemporarySGSourceCidrs := TemporarySGSourceCidrs c; UserData := UserData c;
   UserDataFile := UserDataFile c; VpcFilter := VpcFilter c; VpcId := VpcId c;
   WindowsPasswordTimeout := WindowsPasswordTimeout c; Comm := Comm c |}.

End Setters.

(** [reShutdownBehavior.MatchString]: the expression [^(stop|terminate)$]
    accepts exactly the two words. *)
Definition reShutdownBehavior_MatchString (s : string) : bool :=
  String.eqb s "stop" || String.eqb s "terminate".

(** The messages of the rules. *)
Definition err_unknown_interface (i : string) : error :=
  "Unknown interface type: " +:+ i.
Definition err_winrm_private_key : error :=
  "ssh_private_key_file must be provided to retrieve the winrm password when using ssh_keypair_name.".
Definition err_keypair_private_key : error :=
  "ssh_private_key_file must be provided or ssh_agent_auth enabled when ssh_keypair_name is specified.".
Definition err_source_ami_required : error :=
  "A source_ami or source_ami_filter must be specified".
Definition err_source_ami_owner : error :=
  "For security reasons, your source AMI filter must declare an owner.".
Definition err_instance_type_required : error :=
  "either instance_type or " +:+ "spot_instance_types must be specified".
Definition err_instance_type_both : error :=
  "either instance_type or " +:+ "spot_instance_types must be specified, not both".
Definition err_block_duration : error :=
  "block_duration_minutes must be multiple of 60".
Definition err_spot_auto_product : error :=
  "spot_price_auto_product must be specified when spot_price is auto".
Definition err_spot_price_auto : error :=
  "spot_price should be set to auto when spot_price_auto_product is specified".
Definition err_spot_tags : error :=
  "spot_tags should not be set when not requesting a spot instance".
Definition err_user_data_both : error :=
  "Only one of user_data or user_data_file can be specified.".
Definition err_user_data_file (file : string) : error :=
  "user_data_file not found: " +:+ file.
Definition err_security_group_both : error :=
  "Only one of security_group_id or security_group_ids can be specified.".
Definition err_cidr (err : error) : error :=
  "Error parsing CIDR in temporary_security_group_source_cidrs: " +:+ err.
Definition err_shutdown_behavior : error :=
  "shutdown_behavior only accepts 'stop' or 'terminate' values.".
Definition err_t2_spot : error :=
  "Error: T2 Unlimited cannot be used in conjuction with Spot Instances".
Definition err_t2_no_family (instanceType : string) : error :=
  "Error determining main Instance Type from: " +:+ instanceType.
Definition err_t2_family (instanceType : string) : error :=
  "Error: T2 Unlimited enabled with a non-T2 Instance Type: " +:+ instanceType.

Section Prepare.

Context {Rest : Type}.

(** The collaborators of [RunConfig.Prepare]: the communicator's own
    [Prepare], which updates the communicator configuration and returns
    its errors; [os.Stat], which returns an error for a path that is not
    there; [net.ParseCIDR], which returns an error for a literal that is
    not a network range. *)
Variable comm_Prepare :
  communicator.Config Rest -> communicator.Config Rest * list error.
Variable Stat : string -> option error.
Variable ParseCIDR : string -> option error.

(** The temporary key pair is named only when no key pair, private key
    or password is given; [uuid] is the result of [uuid.TimeOrderedUUID()]. *)
Definition needs_temporary_key_pair (comm : communicator.Config Rest) : bool :=
  is_empty (communicator.SSHKeyPairName comm)
  && is_empty (communicator.SSHTemporaryKeyPairName comm)
  && is_empty (communicator.SSHPrivateKeyFile comm)
  && is_empty (communicator.SSHPassword comm).

(** The defaults applied before validation starts. *)
Definition defaults (uuid : string) (c : RunConfig Rest) : RunConfig Rest :=
  let c :=
    if needs_temporary_key_pair (Comm c)
    then set_Comm
           (communicator.set_SSHTemporaryKeyPairName ("packer_" +:+ uuid) (Comm c)) c
    else c in
  let c :=
    if WindowsPasswordTimeout c =? 0
    then set_WindowsPasswordTimeout (20 * Minute) c else c in
  match RunTags c with
  | None => set_RunTags (Some ∅) c
  | Some _ => c
  end.

(** Validating ssh_interface. *)
Definition check_ssh_interface (c : RunConfig Rest) : list error :=
  let i := communicator.SSHInterface (Comm c) in
  if negb (String.eqb i "public_ip") && negb (String.eqb i "private_ip")
     && negb (String.eqb i "public_dns") && negb (String.eqb i "private_dns")
     && non_empty i
  then [err_unknown_interface i] else [].

Definition check_ssh_keypair (c : RunConfig Rest) : list error :=
  let comm := Comm c in
  if non_empty (communicator.SSHKeyPairName comm) then
    if String.eqb (communicator.Type_ comm) "winrm"
       && is_empty (communicator.WinRMPassword comm)
       && is_empty (communicator.SSHPrivateKeyFile comm)
    then [err_winrm_private_key]
    else if is_empty (communicator.SSHPrivateKeyFile comm)
            && negb (communicator.SSHAgentAuth comm)
    then [err_keypair_private_key]
    else []
  else [].

Definition check_source_ami (c : RunConfig Rest) : list error :=
  (if is_empty (SourceAmi c) && AmiFilterOptions.Empty (SourceAmiFilter c)
   then [err_source_ami_required] else [])
  ++ (if is_empty (SourceAmi c) && AmiFilterOptions.NoOwner (SourceAmiFilter c)
      then [err_source_ami_owner] else []).

Definition check_instance_type (c : RunConfig Rest) : list error :=
  (if is_empty (InstanceType c) && (length (SpotInstanceTypes c) =? 0)%nat
   then [err_instance_type_required] else [])
  ++ (if non_empty (InstanceType c) && (0 <? length (SpotInstanceTypes c))%nat
      then [err_instance_type_both] else []).

(** Go's [%] truncates towards zero: [Z.rem]. *)
Definition check_block_duration (c : RunConfig Rest) : list error :=
  if negb (Z.rem (BlockDurationMinutes c) 60 =? 0)
  then [err_block_duration] else [].

Definition check_spot (c : RunConfig Rest) : list error :=
  (if String.eqb (SpotPrice c) "auto" then
     if is_empty (SpotPriceAutoProduct c)
     then [err_spot_auto_product]
     else []
   else [])
  ++ (if non_empty (SpotPriceAutoProduct c) then
        if negb (String.eqb (SpotPrice c) "auto")
        then [err_spot_price_auto]
        else []
      else [])
  ++ (match SpotTags c with
      | Some _ =>
          if is_empty (SpotPrice c) || String.eqb (SpotPrice c) "0"
          then [err_spot_tags]
          else []
      | None => []
      end).

Definition check_user_data (c : RunConfig Rest) : list error :=
  if non_empty (UserData c) && non_empty (UserDataFile c) then
    [err_user_data_both]
  else if non_empty (UserDataFile c) then
    match Stat (UserDataFile c) with
    | Some _ => [err_user_data_file (UserDataFile c)]
    | None => []
    end
  else [].

(** The security group step either reports both fields being set or
    moves the single id into the list. *)
Definition security_groups (c : RunConfig Rest) : RunConfig Rest * list error :=
  if non_empty (SecurityGroupId c) then
    if (0 <? length (SecurityGroupIds c))%nat then
      (c, [err_security_group_both])
    else
      (set_SecurityGroupId EmptyString
         (set_SecurityGroupIds [SecurityGroupId c] c), [])
  else (c, []).

(** The loop over the given source ranges. *)
Definition check_cidrs (cidrs : list string) : list error :=
  fold_left
    (fun errs cidr =>
       match ParseCIDR cidr with
       | Some err =>
           errs ++ [err_cidr err]
       | None => errs
       end)
    cidrs [].

Definition source_cidrs (c : RunConfig Rest) : RunConfig Rest * list error :=
  if (length (TemporarySGSourceCidrs c) =? 0)%nat then
    (set_TemporarySGSourceCidrs ["0.0.0.0/0"] c, [])
  else (c, check_cidrs (TemporarySGSourceCidrs c)).

Definition shutdown_behavior (c : RunConfig Rest) : RunConfig Rest * list error :=
  if is_empty (InstanceInitiatedShutdownBehavior c) then
    (set_InstanceInitiatedShutdownBehavior "stop" c, [])
  else if negb (reShutdownBehavior_MatchString (InstanceInitiatedShutdownBehavior c)) then
    (c, [err_shutdown_behavior])
  else (c, []).

Definition check_t2_unlimited (c : RunConfig Rest) : list error :=
  if EnableT2Unlimited c then
    (if non_empty (SpotPrice c)
     then [err_t2_spot]
     else [])
    ++ (match String.index 0 "." (InstanceType c) with
        | None =>
            [err_t2_no_family (InstanceType c)]
        | Some firstDotIndex =>
            if negb (String.eqb (String.substring 0 firstDotIndex (InstanceType c)) "t2")
            then [err_t2_family (InstanceType c)]
            else []
        end)
  else [].

(** The rules between the communicator's validation and the security
    group step; none of them changes the configuration. *)
Definition checks_before (c : RunConfig Rest) : list error :=
  check_ssh_interface c ++ check_ssh_keypair c ++ check_source_ami c
  ++ check_instance_type c ++ check_block_duration c ++ check_spot c
  ++ check_user_data c.

(** [RunConfig.Prepare]: the configuration it leaves behind and the
    errors it returns. *)
Definition Prepare (uuid : string) (c : RunConfig Rest) : RunConfig Rest * list error :=
  let c := defaults uuid c in
  let (comm, errs) := comm_Prepare (Comm c) in
  let c := set_Comm comm c in
  let errs := errs ++ checks_before c in
  let (c, es) := security_groups c in
  let errs := errs ++ es in
  let (c, es) := source_cidrs c in
  let errs := errs ++ es in
  let (c, es) := shutdown_behavior c in
  let errs := errs ++ es in
  let errs := errs ++ check_t2_unlimited c in
  (c, errs).

(** The configuration on which the rules run (the defaults applied and
    the communicator prepared) and the configurations after the two
    steps that follow. *)
Definition validated (uuid : string) (c : RunConfig Rest) : RunConfig Rest :=
  set_Comm (comm_Prepare (Comm (defaults uuid c))).1 (defaults uuid c).

Definition after_security_groups (uuid : string) (c : RunConfig Rest)
    : RunConfig Rest :=
  (security_groups (validated uuid c)).1.

Definition after_source_cidrs (uuid : string) (c : RunConfig Rest)
    : RunConfig Rest :=
  (source_cidrs (after_security_groups uuid c)).1.

(** A configuration with the four fields that the steps after the
    communicator write blanked out. *)
Definition frame (c : RunConfig Rest) : RunConfig Rest :=
  set_SecurityGroupId EmptyString
    (set_SecurityGroupIds []
       (set_TemporarySGSourceCidrs []
          (set_InstanceInitiatedShutdownBehavior EmptyString c))).

(** [RunConfig.IsSpotInstance]. *)
Definition IsSpotInstance (c : RunConfig Rest) : bool :=
  non_empty (SpotPrice c) && negb (String.eqb (SpotPrice c) "0").

End Prepare.

End Run.

(** ** The shutdown configuration of the VMware builders *)
Module Shutdown.

Record ShutdownConfig := {
  ShutdownCommand : string;
  RawShutdownTimeout : string;
  ShutdownTimeout : Z
}.

Section Prepare.

(** [time.ParseDuration]: the duration and the error it returns. *)
Variable ParseDuration : string -> Z * option error.

(** [ShutdownConfig.Prepare]. *)
Definition Prepare (c : ShutdownConfig) : ShutdownConfig * list error :=
  let raw :=
    if is_empty (RawShutdownTimeout c) then "5m" else RawShutdownTimeout c in
  let (d, err) := ParseDuration raw in
  let c := {| ShutdownCommand := ShutdownCommand c;
              RawShutdownTimeout := raw;
              ShutdownTimeout := d |} in
  let errs :=
    match err with
    | Some e => ["Failed parsing shutdown_timeout: " +:+ e]
    | None => []
    end in
  (c, errs).

End Prepare.

End Shutdown.

(** ** The error accumulator (package packer)

    A [*MultiError] is an address in a store of [MultiError] objects, or
    nil; an object is its [Errors] slice. *)
Module packer.

Definition MultiError : Type := list error.
Definition store : Type := list MultiError.

(** Modelled from the spec: [packer.MultiErrorAppend] of
    packer/multi_error.go, which is not among the sources. The spec
    describes the accumulator as one mutable object reached through a
    pointer that many functions share: appending to a nil pointer
    allocates a new object, appending to an existing object extends its
    [Errors] in place, and the pointer to the object is returned. *)
Definition MultiErrorAppend (h : store) (err : option nat) (errs : list error)
    : store * option nat :=
  match err with
  | None => (h ++ [errs], Some (length h))
  | Some a => (alter (fun e => e ++ errs) a h, Some a)
  end.

(** The [Errors] behind a pointer; nil has none. *)
Definition Errors (h : store) (err : option nat) : list error :=
  match err with
  | Some a => default [] (h !! a)
  | None => []
  end.

(** [if cond { errs = packer.MultiErrorAppend(errs, err) }], on the store
    and the pointer [errs]. *)
Definition append_when (cond : bool) (err : error) (st : store * option nat)
    : store * option nat :=
  if cond then MultiErrorAppend st.1 st.2 [err] else st.

(** A run of such statements, one per rule, in the order of the source. *)
Definition append_rules (rules : list (bool * error)) (st : store * option nat)
    : store * option nat :=
  fold_left (fun st rule => append_when rule.1 rule.2 st) rules st.

(** [errs != nil && len(errs.Errors) > 0]. *)
Definition failed (h : store) (errs : option nat) : bool :=
  match errs with
  | Some _ => (0 <? length (Errors h errs))%nat
  | None => false
  end.

(** The rules as the specification describes them: every rule returns
    its list of errors and the lists are concatenated. *)
Definition violations (rules : list (bool * error)) : list error :=
  flat_map (fun rule : bool * error => if rule.1 then [rule.2] else []) rules.

End packer.

(** ** The VirtualBox OVF builder *)
Module Ovf.

(** The leaf fields of [Config]; the embedded configurations and the
    interpolation context are kept in [embedded]. *)
Record Config (Embedded : Type) := {
  embedded : Embedded;
  Checksum : string;
  ChecksumType : string;
  GuestAdditionsMode : string;
  GuestAdditionsPath : string;
  GuestAdditionsInterface : string;
  GuestAdditionsSHA256 : string;
  GuestAdditionsURL : string;
  ImportFlags : list string;
  ImportOpts : string;
  SourcePath : string;
  TargetPath : string;
  VMName : string;
  KeepRegistered : bool;
  SkipExport : bool
}.

Arguments embedded {Embedded} _.
Arguments Checksum {Embedded} _.
Arguments ChecksumType {Embedded} _.
Arguments GuestAdditionsMode {Embedded} _.
Arguments GuestAdditionsPath {Embedded} _.
Arguments GuestAdditionsInterface {Embedded} _.
Arguments GuestAdditionsSHA256 {Embedded} _.
Arguments GuestAdditionsURL {Embedded} _.
Arguments ImportFlags {Embedded} _.
Arguments ImportOpts {Embedded} _.
Arguments SourcePath {Embedded} _.
Arguments TargetPath {Embedded} _.
Arguments VMName {Embedded} _.
Arguments KeepRegistered {Embedded} _.
Arguments SkipExport {Embedded} _.

(** What [NewConfig] calls outside this file: the decoder, the [Prepare]
    of every embedded configuration, the two embedded fields it reads,
    the valid guest additions modes, and the library functions. *)
Record Collaborators (Raw Embedded : Type) := {
  Decode : list Raw -> Config Embedded * option error;
  PackerBuildName : Embedded -> string;
  ShutdownCommand : Embedded -> string;
  InitTime_Unix : Z;
  ExportConfig_Prepare : Embedded -> Embedded * list error;
  ExportOpts_Prepare : Embedded -> Embedded * list error;
  FloppyConfig_Prepare : Embedded -> Embedded * list error;
  HTTPConfig_Prepare : Embedded -> Embedded * list error;
  OutputConfig_Prepare : Embedded -> Embedded * list error;
  RunConfig_Prepare : Embedded -> Embedded * list error;
  ShutdownConfig_Prepare : Embedded -> Embedded * list error;
  SSHConfig_Prepare : Embedded -> Embedded * list error;
  VBoxManageConfig_Prepare : Embedded -> Embedded * list error;
  VBoxManagePostConfig_Prepare : Embedded -> Embedded * list error;
  VBoxVersionConfig_Prepare : Embedded -> Embedded * list error;
  BootConfig_Prepare : Embedded -> Embedded * list error;
  GuestAdditionsConfig_Prepare : Embedded -> Embedded * list error;
  GuestAdditionsModeDisable : string;
  GuestAdditionsModeAttach : string;
  GuestAdditionsModeUpload : string;
  ToLower : string -> string;
  Stat : string -> option error
}.

Arguments Decode {Raw Embedded} _.
Arguments PackerBuildName {Raw Embedded} _.
Arguments ShutdownCommand {Raw Embedded} _.
Arguments InitTime_Unix {Raw Embedded} _.
Arguments ExportConfig_Prepare {Raw Embedded} _.
Arguments ExportOpts_Prepare {Raw Embedded} _.
Arguments FloppyConfig_Prepare {Raw Embedded} _.
Arguments HTTPConfig_Prepare {Raw Embedded} _.
Arguments OutputConfig_Prepare {Raw Embedded} _.
Arguments RunConfig_Prepare {Raw Embedded} _.
Arguments ShutdownConfig_Prepare {Raw Embedded} _.
Arguments SSHConfig_Prepare {Raw Embedded} _.
Arguments VBoxManageConfig_Prepare {Raw Embedded} _.
Arguments VBoxManagePostConfig_Prepare {Raw Embedded} _.
Arguments VBoxVersionConfig_Prepare {Raw Embedded} _.
Arguments BootConfig_Prepare {Raw Embedded} _.
Arguments GuestAdditionsConfig_Prepare {Raw Embedded} _.
Arguments GuestAdditionsModeDisable {Raw Embedded} _.
Arguments GuestAdditionsModeAttach {Raw Embedded} _.
Arguments GuestAdditionsModeUpload {Raw Embedded} _.
Arguments ToLower {Raw Embedded} _.
Arguments Stat {Raw Embedded} _.

(** The error [NewConfig] returns: nil, the decoder's error, or the
    pointer to the accumulated [MultiError]. *)
Inductive returned_error :=
| Nil
| DecodeError (err : error)
| Accumulated (errs : nat).

(** [%d] of an [int64] and [%v] of a [[]string]. *)
Definition format_int (n : Z) : string :=
  DecimalString.NilZero.string_of_int (Z.to_int n).

Definition format_strings (l : list string) : string :=
  "[" +:+ String.concat " " l +:+ "]".

(** The message for a source file that [os.Stat] does not find; [err] is
    the error of [os.Stat]. *)
Definition err_source_file (path : string) (err : error) : error :=
  "Source file '" +:+ path
  +:+ "' needs to exist at time of config validation! " +:+ err.

Section NewConfig.

Context {Raw Embedded : Type}.
Variable env : Collaborators Raw Embedded.

(** The [Prepare] calls of the embedded configurations, in the order of
    the source. *)
Definition prepares : list (Embedded -> Embedded * list error) :=
  [ ExportConfig_Prepare env; ExportOpts_Prepare env; FloppyConfig_Prepare env;
    HTTPConfig_Prepare env; OutputConfig_Prepare env; RunConfig_Prepare env;
    ShutdownConfig_Prepare env; SSHConfig_Prepare env;
    VBoxManageConfig_Prepare env; VBoxManagePostConfig_Prepare env;
    VBoxVersionConfig_Prepare env; BootConfig_Prepare env;
    GuestAdditionsConfig_Prepare env ].

(** [errs = packer.MultiErrorAppend(errs, c.X.Prepare(&c.ctx)...)]. *)
Definition prepare_embedded
    (st : Embedded * packer.store * option nat)
    (prepare : Embedded -> Embedded * list error)
    : Embedded * packer.store * option nat :=
  let '(e, h, errs) := st in
  let (e, es) := prepare e in
  let (h, errs) := packer.MultiErrorAppend h errs es in
  (e, h, errs).

Definition validModes : list string :=
  [ GuestAdditionsModeDisable env; GuestAdditionsModeAttach env;
    GuestAdditionsModeUpload env ].

(** The loop that looks the mode up among the valid ones. *)
Definition validMode (mode : string) : bool :=
  existsb (String.eqb mode) validModes.

(** [NewConfig], from the store [h] of the objects allocated so far: the
    store it leaves, the configuration, the warnings and the error. *)
Definition NewConfig (h : packer.store) (raws : list Raw)
    : packer.store * (option (Config Embedded) * list string * returned_error) :=
  let (c, err) := Decode env raws in
  match err with
  | Some err => (h, (None, [], DecodeError err))
  | None =>
      (* Defaults *)
      let mode :=
        if is_empty (GuestAdditionsMode c) then "upload" else GuestAdditionsMode c in
      let path :=
        if is_empty (GuestAdditionsPath c)
        then "VBoxGuestAdditions.iso" else GuestAdditionsPath c in
      let interface :=
        if is_empty (GuestAdditionsInterface c)
        then "ide" else GuestAdditionsInterface c in
      let name :=
        if is_empty (VMName c)
        then "packer-" +:+ PackerBuildName env (embedded c) +:+ "-"
             +:+ format_int (InitTime_Unix env)
        else VMName c in
      (* Prepare the errors *)
      let '(e, h, errs) := fold_left prepare_embedded prepares (embedded c, h, None) in
      let checksumType := ToLower env (ChecksumType c) in
      let checksum := ToLower env (Checksum c) in
      let (h, errs) :=
        if is_empty (SourcePath c)
        then packer.MultiErrorAppend h errs ["source_path is required"]
        else (h, errs) in
      (* the pointer returned by this call is dropped *)
      let h :=
        match Stat env (SourcePath c) with
        | Some err =>
            fst (packer.MultiErrorAppend h errs
                   [err_source_file (SourcePath c) err])
        | None => h
        end in
      let (h, errs) :=
        if negb (validMode mode)
        then packer.MultiErrorAppend h errs
               ["guest_additions_mode is invalid. Must be one of: "
                +:+ format_strings validModes]
        else (h, errs) in
      let sha256 :=
        if non_empty (GuestAdditionsSHA256 c)
        then ToLower env (GuestAdditionsSHA256 c) else GuestAdditionsSHA256 c in
      (* Warnings *)
      let warnings :=
        if is_empty (ShutdownCommand env e)
        then ["A shutdown_command was not specified. Without a shutdown command, Packer" +:+ String (ascii_of_nat 10) EmptyString +:+
              "will forcibly halt the virtual machine, which may result in data loss."]
        else [] in
      (* Check for any errors. *)
      match errs with
      | Some a =>
          if (0 <? length (packer.Errors h errs))%nat
          then (h, (None, warnings, Accumulated a))
          else
            (h, (Some {| embedded := e; Checksum := checksum;
                         ChecksumType := checksumType;
                         GuestAdditionsMode := mode;
                         GuestAdditionsPath := path;
                         GuestAdditionsInterface := interface;
                         GuestAdditionsSHA256 := sha256;
                         GuestAdditionsURL := GuestAdditionsURL c;
                         ImportFlags :=
                           if non_empty (ImportOpts c)
                           then ImportFlags c ++ ["--options"; ImportOpts c]
                           else ImportFlags c;
                         ImportOpts := ImportOpts c;
                         SourcePath := SourcePath c;
                         TargetPath := TargetPath c;
                         VMName := name;
                         KeepRegistered := KeepRegistered c;
                         SkipExport := SkipExport c |},
                 warnings, Nil))
      | None =>
          (h, (Some {| embedded := e; Checksum := checksum;
                       ChecksumType := checksumType;
                       GuestAdditionsMode := mode;
                       GuestAdditionsPath := path;
                       GuestAdditionsInterface := interface;
                       GuestAdditionsSHA256 := sha256;
                       GuestAdditionsURL := GuestAdditionsURL c;
                       ImportFlags :=
                         if non_empty (ImportOpts c)
                         then ImportFlags c ++ ["--options"; ImportOpts c]
                         else ImportFlags c;
                       ImportOpts := ImportOpts c;
                       SourcePath := SourcePath c;
                       TargetPath := TargetPath c;
                       VMName := name;
                       KeepRegistered := KeepRegistered c;
                       SkipExport := SkipExport c |},
               warnings, Nil))
      end
  end.

(** The error set as the specification describes it: every component
    returns its list of errors and the caller concatenates the lists. The
    embedded configurations come first, in the order of their [Prepare]
    calls, each prepared on the state the previous one left. *)
Definition embedded_errors (ps : list (Embedded -> Embedded * list error))
    (e : Embedded) : Embedded * list error :=
  fold_left
    (fun (st : Embedded * list error)
         (prepare : Embedded -> Embedded * list error) =>
       let (e', es) := prepare st.1 in (e', st.2 ++ es))
    ps (e, []).

(** The errors of the rules of [NewConfig] itself, in the order of the
    source, on the decoded configuration [c]. *)
Definition own_errors (c : Config Embedded) : list error :=
  (if is_empty (SourcePath c) then ["source_path is required"] else [])
  ++ (match Stat env (SourcePath c) with
      | Some err => [err_source_file (SourcePath c) err]
      | None => []
      end)
  ++ (if negb (validMode (if is_empty (GuestAdditionsMode c)
                          then "upload" else GuestAdditionsMode c))
      then ["guest_additions_mode is invalid. Must be one of: "
            +:+ format_strings validModes]
      else []).

Definition flattened_errors (c : Config Embedded) : list error :=
  (embedded_errors prepares (embedded c)).2 ++ own_errors c.

End NewConfig.

End Ovf.

(** ** The Triton builder: source machine and target image *)
Module Triton.

Record MachineImageFilter := {
  MostRecent : bool;
  Name : string;
  OS : string;
  Version : string;
  Public : bool;
  State : string;
  Owner : string;
  Type_ : string
}.

Definition MachineImageFilter_Empty (m : MachineImageFilter) : bool :=
  is_empty (Name m) && is_empty (OS m) && is_empty (Version m)
  && is_empty (State m) && is_empty (Owner m) && is_empty (Type_ m).

(** A slice or a map that may be nil is an [option]. *)
Record SourceMachineConfig := {
  MachineName : string;
  MachinePackage : string;
  MachineImage : string;
  MachineNetworks : option (list string);
  MachineMetadata : option (gmap string string);
  MachineTags : option (gmap string string);
  MachineFirewallEnabled : bool;
  MachineImageFilters : MachineImageFilter
}.

Definition err_package : error := "A source_machine_package must be specified".
Definition err_image_and_name : error :=
  "You cannot specify a Machine Image and also Machine Name filter".

(** [SourceMachineConfig.Prepare]. *)
Definition SourceMachineConfig_Prepare (c : SourceMachineConfig)
    : SourceMachineConfig * list error :=
  let errs : list error := [] in
  let errs := if is_empty (MachinePackage c) then errs ++ [err_package] else errs in
  let errs :=
    if non_empty (MachineImage c) && non_empty (Name (MachineImageFilters c))
    then errs ++ [err_image_and_name] else errs in
  let c :=
    {| MachineName := MachineName c;
       MachinePackage := MachinePackage c;
       MachineImage := MachineImage c;
       MachineNetworks :=
         match MachineNetworks c with None => Some [] | Some l => Some l end;
       MachineMetadata :=
         match MachineMetadata c with None => Some ∅ | Some m => Some m end;
       MachineTags :=
         match MachineTags c with None => Some ∅ | Some m => Some m end;
       MachineFirewallEnabled := MachineFirewallEnabled c;
       MachineImageFilters := MachineImageFilters c |} in
  if (0 <? length errs)%nat then (c, errs) else (c, []).

Record TargetImageConfig := {
  ImageName : string;
  ImageVersion : string;
  ImageDescription : string;
  ImageHomepage : string;
  ImageEULA : string;
  ImageACL : list string;
  ImageTags : option (gmap string string)
}.

Definition err_image_name : error := "An image_name must be specified".
Definition err_image_version : error := "An image_version must be specified".

(** [TargetImageConfig.Prepare]. *)
Definition TargetImageConfig_Prepare (c : TargetImageConfig) : list error :=
  let errs : list error := [] in
  let errs := if is_empty (ImageName c) then errs ++ [err_image_name] else errs in
  let errs := if is_empty (ImageVersion c) then errs ++ [err_image_version] else errs in
  if (0 <? length errs)%nat then errs else [].

End Triton.

(** ** The Alicloud image configuration *)
Module Alicloud.

Record AlicloudDiskDevice := {
  DiskName : string;
  DiskCategory : string;
  DiskSize : Z;
  SnapshotId : string;
  Description : string;
  DeleteWithInstance : bool;
  Device : string;
  Encrypted : option bool
}.

Record AlicloudImageConfig := {
  AlicloudImageName : string;
  AlicloudImageVersion : string;
  AlicloudImageDescription : string;
  AlicloudImageShareAccounts : list string;
  AlicloudImageUNShareAccounts : list string;
  AlicloudImageDestinationRegions : list string;
  AlicloudImageDestinationNames : list string;
  ImageEncrypted : option bool;
  AlicloudImageForceDelete : bool;
  AlicloudImageForceDeleteSnapshots : bool;
  AlicloudImageForceDeleteInstances : bool;
  AlicloudImageIgnoreDataDisks : bool;
  AlicloudImageSkipRegionValidation : bool;
  AlicloudImageTags : option (gmap string string);
  ECSSystemDiskMapping : AlicloudDiskDevice;
  ECSImagesDiskMappings : list AlicloudDiskDevice
}.

(** The class [\s] of the regular expression: tab, line feed, form feed,
    carriage return and space. *)
Definition is_space (a : ascii) : bool :=
  existsb (Ascii.eqb a)
    [ascii_of_nat 9; ascii_of_nat 10; ascii_of_nat 12; ascii_of_nat 13;
     ascii_of_nat 32].

(** The longest run of spaces at the start of a string. *)
Fixpoint leading_spaces (s : string) : string :=
  match s with
  | EmptyString => EmptyString
  | String a s' => if is_space a then String a (leading_spaces s') else EmptyString
  end.

(** [reg.FindString] for the expression [\s+]: the leftmost run of
    spaces, or the empty string when there is none. *)
Fixpoint FindString_spaces (s : string) : string :=
  match s with
  | EmptyString => EmptyString
  | String a s' =>
      if is_space a then String a (leading_spaces s') else FindString_spaces s'
  end.

(** The loop over the destination regions: a region seen before is
    skipped, a new one is marked and appended. *)
Definition unique_regions (regions : list string) : list string :=
  (fold_left
     (fun (st : gset string * list string) region =>
        if decide (region ∈ st.1) then st
        else ({[region]} ∪ st.1, st.2 ++ [region]))
     regions (∅, [])).2.

Definition err_name_required : error := "image_name must be specified".
Definition err_name_length : error :=
  "image_name must less than 128 letters and more than 1 letters".
Definition err_name_http : error :=
  "image_name can't start with 'http://' or 'https://'".
Definition err_name_spaces : error := "image_name can't include spaces".

Definition set_AlicloudImageDestinationRegions (v : list string)
    (c : AlicloudImageConfig) : AlicloudImageConfig :=
  {| AlicloudImageName := AlicloudImageName c;
     AlicloudImageVersion := AlicloudImageVersion c;
     AlicloudImageDescription := AlicloudImageDescription c;
     AlicloudImageShareAccounts := AlicloudImageShareAccounts c;
     AlicloudImageUNShareAccounts := AlicloudImageUNShareAccounts c;
     AlicloudImageDestinationRegions := v;
     AlicloudImageDestinationNames := AlicloudImageDestinationNames c;
     ImageEncrypted := ImageEncrypted c;
     AlicloudImageForceDelete := AlicloudImageForceDelete c;
     AlicloudImageForceDeleteSnapshots := AlicloudImageForceDeleteSnapshots c;
     AlicloudImageForceDeleteInstances := AlicloudImageForceDeleteInstances c;
     AlicloudImageIgnoreDataDisks := AlicloudImageIgnoreDataDisks c;
     AlicloudImageSkipRegionValidation := AlicloudImageSkipRegionValidation c;
     AlicloudImageTags := AlicloudImageTags c;
     ECSSystemDiskMapping := ECSSystemDiskMapping c;
     ECSImagesDiskMappings := ECSImagesDiskMappings c |}.

(** [AlicloudImageConfig.Prepare]; [len] counts bytes. *)
Definition Prepare (c : AlicloudImageConfig) : AlicloudImageConfig * list error :=
  let name := AlicloudImageName c in
  let errs : list error := [] in
  let errs :=
    if is_empty name then errs ++ [err_name_required]
    else if (String.length name <? 2)%nat || (128 <? String.length name)%nat
    then errs ++ [err_name_length]
    else if String.prefix "http://" name || String.prefix "https://" name
    then errs ++ [err_name_http]
    else errs in
  let errs :=
    if non_empty (FindString_spaces name) then errs ++ [err_name_spaces] else errs in
  let c :=
    if (0 <? length (AlicloudImageDestinationRegions c))%nat
    then set_AlicloudImageDestinationRegions
           (unique_regions (AlicloudImageDestinationRegions c)) c
    else c in
  if (0 <? length errs)%nat then (c, errs) else (c, []).

End Alicloud.

(** ** The LXD builder *)
Module Lxd.

(** [PackerConfig] is the embedded common configuration, decoded with
    the rest. *)
Record Config (Embedded : Type) := {
  PackerConfig : Embedded;
  OutputImage : string;
  ContainerName : string;
  CommandWrapper : string;
  Image : string;
  Profile : string;
  InitSleep : string;
  PublishProperties : option (gmap string string);
  LaunchConfig : option (gmap string string)
}.

Arguments PackerConfig {Embedded} _.
Arguments OutputImage {Embedded} _.
Arguments ContainerName {Embedded} _.
Arguments CommandWrapper {Embedded} _.
Arguments Image {Embedded} _.
Arguments Profile {Embedded} _.
Arguments InitSleep {Embedded} _.
Arguments PublishProperties {Embedded} _.
Arguments LaunchConfig {Embedded} _.

Definition err_image : error :=
  "`image` is a required parameter for LXD. Please specify an image by alias or fingerprint. e.g. `ubuntu-daily:x`".

Section NewConfig.

Context {Raw Embedded : Type}.

(** The decoder and the build name of the embedded configuration. *)
Variable Decode : list Raw -> Config Embedded * option error.
Variable PackerBuildName : Embedded -> string.

(** [NewConfig], from the store [h]. *)
Definition NewConfig (h : packer.store) (raws : list Raw)
    : packer.store * (option (Config Embedded) * Ovf.returned_error) :=
  let (c, err) := Decode raws in
  match err with
  | Some err => (h, (None, Ovf.DecodeError err))
  | None =>
      let containerName :=
        if is_empty (ContainerName c)
        then "packer-" +:+ PackerBuildName (PackerConfig c)
        else ContainerName c in
      let outputImage :=
        if is_empty (OutputImage c) then containerName else OutputImage c in
      let commandWrapper :=
        if is_empty (CommandWrapper c) then "{{.Command}}" else CommandWrapper c in
      let (h, errs) := packer.append_when (is_empty (Image c)) err_image (h, None) in
      let profile := if is_empty (Profile c) then "default" else Profile c in
      let initSleep := if is_empty (InitSleep c) then "3" else InitSleep c in
      if packer.failed h errs then
        (h, (None, match errs with
                   | Some a => Ovf.Accumulated a
                   | None => Ovf.Nil
                   end))
      else
        (h, (Some {| PackerConfig := PackerConfig c;
                     OutputImage := outputImage;
                     ContainerName := containerName;
                     CommandWrapper := commandWrapper;
                     Image := Image c;
                     Profile := profile;
                     InitSleep := initSleep;
                     PublishProperties := PublishProperties c;
                     LaunchConfig := LaunchConfig c |},
             Ovf.Nil))
  end.

End NewConfig.

End Lxd.

(** ** The LXC builder *)
Module Lxc.

Record Config (Embedded : Type) := {
  PackerConfig : Embedded;
  ConfigFile : string;
  OutputDir : string;
  ContainerName : string;
  CommandWrapper : string;
  RawInitTimeout : string;
  CreateOptions : list string;
  StartOptions : list string;
  AttachOptions : list string;
  Name : string;
  Parameters : list string;
  EnvVars : list string;
  TargetRunlevel : Z;
  InitTimeout : Z
}.

Arguments PackerConfig {Embedded} _.
Arguments ConfigFile {Embedded} _.
Arguments OutputDir {Embedded} _.
Arguments ContainerName {Embedded} _.
Arguments CommandWrapper {Embedded} _.
Arguments RawInitTimeout {Embedded} _.
Arguments CreateOptions {Embedded} _.
Arguments StartOptions {Embedded} _.
Arguments AttachOptions {Embedded} _.
Arguments Name {Embedded} _.
Arguments Parameters {Embedded} _.
Arguments EnvVars {Embedded} _.
Arguments TargetRunlevel {Embedded} _.
Arguments InitTimeout {Embedded} _.

(** What [os.Stat] can fail with, as far as [os.IsNotExist] tells. *)
Inductive stat_error :=
| ErrNotExist
| ErrOther.

Definition IsNotExist (err : option stat_error) : bool :=
  match err with
  | Some ErrNotExist => true
  | _ => false
  end.

Definition err_init_timeout (err : error) : error :=
  "Failed parsing init_timeout: " +:+ err.
Definition err_config_file (path : string) : error :=
  "LXC Config file appears to be missing: " +:+ path.

Section NewConfig.

Context {Raw Embedded : Type}.

Variable Decode : list Raw -> Config Embedded * option error.
Variable PackerBuildName : Embedded -> string.
Variable ParseDuration : string -> Z * option error.
Variable Stat : string -> option stat_error.

(** [NewConfig], from the store [h]. *)
Definition NewConfig (h : packer.store) (raws : list Raw)
    : packer.store * (option (Config Embedded) * Ovf.returned_error) :=
  let (c, err) := Decode raws in
  match err with
  | Some err => (h, (None, Ovf.DecodeError err))
  | None =>
      let outputDir :=
        if is_empty (OutputDir c)
        then "output-" +:+ PackerBuildName (PackerConfig c) else OutputDir c in
      let containerName :=
        if is_empty (ContainerName c)
        then "packer-" +:+ PackerBuildName (PackerConfig c)
        else ContainerName c in
      let targetRunlevel :=
        if TargetRunlevel c =? 0 then 3 else TargetRunlevel c in
      let commandWrapper :=
        if is_empty (CommandWrapper c) then "{{.Command}}" else CommandWrapper c in
      let rawInitTimeout :=
        if is_empty (RawInitTimeout c) then "20s" else RawInitTimeout c in
      let (initTimeout, err) := ParseDuration rawInitTimeout in
      let st :=
        match err with
        | Some err => packer.MultiErrorAppend h None [err_init_timeout err]
        | None => (h, None)
        end in
      let (h, errs) :=
        packer.append_when (IsNotExist (Stat (ConfigFile c)))
          (err_config_file (ConfigFile c)) st in
      if packer.failed h errs then
        (h, (None, match errs with
                   | Some a => Ovf.Accumulated a
                   | None => Ovf.Nil
                   end))
      else
        (h, (Some {| PackerConfig := PackerConfig c;
                     ConfigFile := ConfigFile c;
                     OutputDir := outputDir;
                     ContainerName := containerName;
                     CommandWrapper := commandWrapper;
                     RawInitTimeout := rawInitTimeout;
                     CreateOptions := CreateOptions c;
                     StartOptions := StartOptions c;
                     AttachOptions := AttachOptions c;
                     Name := Name c;
                     Parameters := Parameters c;
                     EnvVars := EnvVars c;
                     TargetRunlevel := targetRunlevel;
                     InitTimeout := initTimeout |},
             Ovf.Nil))
  end.

End NewConfig.

End Lxc.

(** ** The CloudStack builder *)
Module Cloudstack.

(** The embedded common configurations and the interpolation context are
    kept in [embedded]. *)
Record Config (Embedded Rest : Type) := {
  embedded : Embedded;
  Comm : communicator.Config Rest;
  APIURL : string;
  APIKey : string;
  SecretKey : string;
  AsyncTimeout : Z;
  HTTPGetOnly : bool;
  SSLNoVerify : bool;
  CIDRList : list string;
  CreateSecurityGroup : bool;
  DiskOffering : string;
  DiskSize : Z;
  Expunge : bool;
  Hypervisor : string;
  InstanceName : string;
  Network : string;
  Project : string;
  PublicIPAddress : string;
  PublicPort : Z;
  SecurityGroups : list string;
  ServiceOffering : string;
  PreventFirewallChanges : bool;
  SourceISO : string;
  SourceTemplate : string;
  TemporaryKeypairName : string;
  UseLocalIPAddress : bool;
  UserData : string;
  UserDataFile : string;
  Zone : string;
  TemplateName : string;
  TemplateDisplayText : string;
  TemplateOS : string;
  TemplateFeatured : bool;
  TemplatePublic : bool;
  TemplatePasswordEnabled : bool;
  TemplateRequiresHVM : bool;
  TemplateScalable : bool;
  TemplateTag : string
}.

Arguments embedded {Embedded Rest} _.
Arguments Comm {Embedded Rest} _.
Arguments APIURL {Embedded Rest} _.
Arguments APIKey {Embedded Rest} _.
Arguments SecretKey {Embedded Rest} _.
Arguments AsyncTimeout {Embedded Rest} _.
Arguments HTTPGetOnly {Embedded Rest} _.
Arguments SSLNoVerify {Embedded Rest} _.
Arguments CIDRList {Embedded Rest} _.
Arguments CreateSecurityGroup {Embedded Rest} _.
Arguments DiskOffering {Embedded Rest} _.
Arguments DiskSize {Embedded Rest} _.
Arguments Expunge {Embedded Rest} _.
Arguments Hypervisor {Embedded Rest} _.
Arguments InstanceName {Embedded Rest} _.
Arguments Network {Embedded Rest} _.
Arguments Project {Embedded Rest} _.
Arguments PublicIPAddress {Embedded Rest} _.
Arguments PublicPort {Embedded Rest} _.
Arguments SecurityGroups {Embedded Rest} _.
Arguments ServiceOffering {Embedded Rest} _.
Arguments PreventFirewallChanges {Embedded Rest} _.
Arguments SourceISO {Embedded Rest} _.
Arguments SourceTemplate {Embedded Rest} _.
Arguments TemporaryKeypairName {Embedded Rest} _.
Arguments UseLocalIPAddress {Embedded Rest} _.
Arguments UserData {Embedded Rest} _.
Arguments UserDataFile {Embedded Rest} _.
Arguments Zone {Embedded Rest} _.
Arguments TemplateName {Embedded Rest} _.
Arguments TemplateDisplayText {Embedded Rest} _.
Arguments TemplateOS {Embedded Rest} _.
Arguments TemplateFeatured {Embedded Rest} _.
Arguments TemplatePublic {Embedded Rest} _.
Arguments TemplatePasswordEnabled {Embedded Rest} _.
Arguments TemplateRequiresHVM {Embedded Rest} _.
Arguments TemplateScalable {Embedded Rest} _.
Arguments TemplateTag {Embedded Rest} _.

Definition err_template_name (err : error) : error :=
  "Unable to parse template name: " +:+ err +:+ " ".

Section NewConfig.

Context {Raw Embedded Rest : Type}.

(** What [NewConfig] calls: the decoder, [os.Getenv], the two results of
    [uuid.TimeOrderedUUID] (for the instance name and for the key pair),
    [interpolate.Render] of the template name, [os.Stat] and the
    communicator's [Prepare]. *)
Variable Decode : list Raw -> Config Embedded Rest * option error.
Variable Getenv : string -> string.
Variable uuid_instance : string.
Variable uuid_keypair : string.
Variable Render : string -> string * option error.
Variable Stat : string -> option error.
Variable comm_Prepare :
  communicator.Config Rest -> communicator.Config Rest * list error.

(** The defaults, in the order of the source. *)
Definition apiURL (c : Config Embedded Rest) : string :=
  if is_empty (APIURL c) then Getenv "CLOUDSTACK_API_URL" else APIURL c.

Definition apiKey (c : Config Embedded Rest) : string :=
  if is_empty (APIKey c) then Getenv "CLOUDSTACK_API_KEY" else APIKey c.

Definition secretKey (c : Config Embedded Rest) : string :=
  if is_empty (SecretKey c) then Getenv "CLOUDSTACK_SECRET_KEY" else SecretKey c.

Definition templateName (c : Config Embedded Rest) : string :=
  if is_empty (TemplateName c)
  then (Render "packer-{{timestamp}}").1 else TemplateName c.

Definition keyed (c : Config Embedded Rest) : communicator.Config Rest :=
  if is_empty (communicator.SSHKeyPairName (Comm c))
     && is_empty (communicator.SSHTemporaryKeyPairName (Comm c))
     && is_empty (communicator.SSHPrivateKeyFile (Comm c))
     && is_empty (communicator.SSHPassword (Comm c))
  then communicator.set_SSHTemporaryKeyPairName ("packer_" +:+ uuid_keypair) (Comm c)
  else Comm c.

(** The error of rendering the template name, when the name is left out. *)
Definition render_rule (c : Config Embedded Rest) : list (bool * error) :=
  if is_empty (TemplateName c) then
    match (Render "packer-{{timestamp}}").2 with
    | Some err => [(true, err_template_name err)]
    | None => []
    end
  else [].

(** The rules on the defaulted configuration, in the order of the
    source. *)
Definition rules (c : Config Embedded Rest) : list (bool * error) :=
  [ (is_empty (apiURL c), "a api_url must be specified");
    (is_empty (apiKey c), "a api_key must be specified");
    (is_empty (secretKey c), "a secret_key must be specified");
    (is_empty (Network c), "a network must be specified");
    (CreateSecurityGroup c && negb (Expunge c),
     "auto creating a temporary security group requires expunge");
    (is_empty (ServiceOffering c), "a service_offering must be specified");
    (is_empty (SourceISO c) && is_empty (SourceTemplate c),
     "either source_iso or source_template must be specified");
    (non_empty (SourceISO c) && non_empty (SourceTemplate c),
     "only one of source_iso or source_template can be specified");
    (non_empty (SourceISO c) && is_empty (DiskOffering c),
     "a disk_offering must be specified when using source_iso");
    (non_empty (SourceISO c) && is_empty (Hypervisor c),
     "a hypervisor must be specified when using source_iso");
    (is_empty (TemplateOS c), "a template_os must be specified");
    (non_empty (UserData c) && non_empty (UserDataFile c),
     "only one of user_data or user_data_file can be specified");
    (non_empty (UserDataFile c)
     && match Stat (UserDataFile c) with Some _ => true | None => false end,
     "user_data_file not found: " +:+ UserDataFile c);
    (is_empty (Zone c), "a zone must be specified") ].

Definition asyncTimeout (c : Config Embedded Rest) : Z :=
  if AsyncTimeout c =? 0 then 30 * Run.Minute else AsyncTimeout c.

Definition cidrList (c : Config Embedded Rest) : list string :=
  if (length (CIDRList c) =? 0)%nat then ["0.0.0.0/0"] else CIDRList c.

Definition instanceName (c : Config Embedded Rest) : string :=
  if is_empty (InstanceName c) then "packer-" +:+ uuid_instance else InstanceName c.

Definition templateDisplayText (c : Config Embedded Rest) : string :=
  if is_empty (TemplateDisplayText c) then templateName c else TemplateDisplayText c.

(** The configuration after the defaults, with the communicator as its
    [Prepare] left it. *)
Definition defaulted (c : Config Embedded Rest) (comm : communicator.Config Rest)
    : Config Embedded Rest :=
  {| embedded := embedded c;
     Comm := comm;
     APIURL := apiURL c;
     APIKey := apiKey c;
     SecretKey := secretKey c;
     AsyncTimeout := asyncTimeout c;
     HTTPGetOnly := HTTPGetOnly c;
     SSLNoVerify := SSLNoVerify c;
     CIDRList := cidrList c;
     CreateSecurityGroup := CreateSecurityGroup c;
     DiskOffering := DiskOffering c;
     DiskSize := DiskSize c;
     Expunge := Expunge c;
     Hypervisor := Hypervisor c;
     InstanceName := instanceName c;
     Network := Network c;
     Project := Project c;
     PublicIPAddress := PublicIPAddress c;
     PublicPort := PublicPort c;
     SecurityGroups := SecurityGroups c;
     ServiceOffering := ServiceOffering c;
     PreventFirewallChanges := PreventFirewallChanges c;
     SourceISO := SourceISO c;
     SourceTemplate := SourceTemplate c;
     TemporaryKeypairName := TemporaryKeypairName c;
     UseLocalIPAddress := UseLocalIPAddress c;
     UserData := UserData c;
     UserDataFile := UserDataFile c;
     Zone := Zone c;
     TemplateName := templateName c;
     TemplateDisplayText := templateDisplayText c;
     TemplateOS := TemplateOS c;
     TemplateFeatured := TemplateFeatured c;
     TemplatePublic := TemplatePublic c;
     TemplatePasswordEnabled := TemplatePasswordEnabled c;
     TemplateRequiresHVM := TemplateRequiresHVM c;
     TemplateScalable := TemplateScalable c;
     TemplateTag := TemplateTag c |}.

(** [NewConfig], from the store [h]. *)
Definition NewConfig (h : packer.store) (raws : list Raw)
    : packer.store * (option (Config Embedded Rest) * Ovf.returned_error) :=
  let (c, err) := Decode raws in
  match err with
  | Some err => (h, (None, Ovf.DecodeError err))
  | None =>
      let st := packer.append_rules (render_rule c) (h, None) in
      let st := packer.append_rules (rules c) st in
      let (comm, es) := comm_Prepare (keyed c) in
      let (h, errs) :=
        if (0 <? length es)%nat
        then packer.MultiErrorAppend st.1 st.2 es else st in
      if packer.failed h errs then
        (h, (None, match errs with
                   | Some a => Ovf.Accumulated a
                   | None => Ovf.Nil
                   end))
      else (h, (Some (defaulted c comm), Ovf.Nil))
  end.

(** The errors as the specification describes them: the lists of all
    rules and of the communicator, concatenated in that order. *)
Definition flattened_errors (c : Config Embedded Rest) : list error :=
  packer.violations (render_rule c) ++ packer.violations (rules c)
  ++ (comm_Prepare (keyed c)).2.

End NewConfig.

End Cloudstack.

(** * Example inputs *)
Module Examples.

(** A persistent volume with a size, a snapshot and a key. *)
Definition data_volume : BlockDev.BlockDevice :=
  {| BlockDev.DeleteOnTermination := true;
     BlockDev.DeviceName := "/dev/sdf";
     BlockDev.Encrypted := Some true;
     BlockDev.IOPS := 3000;
     BlockDev.NoDevice := false;
     BlockDev.SnapshotId := "snap-1";
     BlockDev.VirtualName := EmptyString;
     BlockDev.VolumeType := "io1";
     BlockDev.VolumeSize := 100;
     BlockDev.KmsKeyId := "key-1";
     BlockDev.OmitFromArtifact := false |}.

(** A device whose virtual name lacks the ephemeral prefix. *)
Definition swap_device : BlockDev.BlockDevice :=
  {| BlockDev.DeleteOnTermination := false;
     BlockDev.DeviceName := "/dev/sdb";
     BlockDev.Encrypted := None;
     BlockDev.IOPS := 0;
     BlockDev.NoDevice := false;
     BlockDev.SnapshotId := EmptyString;
     BlockDev.VirtualName := "swap";
     BlockDev.VolumeType := EmptyString;
     BlockDev.VolumeSize := 0;
     BlockDev.KmsKeyId := EmptyString;
     BlockDev.OmitFromArtifact := false |}.

(** A device with a key, encryption switched off, and a name. *)
Definition unencrypted_keyed_device : BlockDev.BlockDevice :=
  {| BlockDev.DeleteOnTermination := false;
     BlockDev.DeviceName := "/dev/sdg";
     BlockDev.Encrypted := Some false;
     BlockDev.IOPS := 0;
     BlockDev.NoDevice := false;
     BlockDev.SnapshotId := EmptyString;
     BlockDev.VirtualName := EmptyString;
     BlockDev.VolumeType := EmptyString;
     BlockDev.VolumeSize := 8;
     BlockDev.KmsKeyId := "key-1";
     BlockDev.OmitFromArtifact := false |}.

(** The same device without its name: it breaks both rules of
    [BlockDevice.Prepare]. *)
Definition unnamed_keyed_device : BlockDev.BlockDevice :=
  {| BlockDev.DeleteOnTermination := false;
     BlockDev.DeviceName := EmptyString;
     BlockDev.Encrypted := Some false;
     BlockDev.IOPS := 0;
     BlockDev.NoDevice := false;
     BlockDev.SnapshotId := EmptyString;
     BlockDev.VirtualName := EmptyString;
     BlockDev.VolumeType := EmptyString;
     BlockDev.VolumeSize := 8;
     BlockDev.KmsKeyId := "key-1";
     BlockDev.OmitFromArtifact := false |}.

(** A communicator whose remaining field is the user name: its [Prepare]
    defaults the type and requires the user name. *)
Definition comm_Prepare (k : communicator.Config string)
    : communicator.Config string * list error :=
  let k :=
    if is_empty (communicator.Type_ k)
    then {| communicator.Type_ := "ssh";
            communicator.SSHKeyPairName := communicator.SSHKeyPairName k;
            communicator.SSHTemporaryKeyPairName :=
              communicator.SSHTemporaryKeyPairName k;
            communicator.SSHPrivateKeyFile := communicator.SSHPrivateKeyFile k;
            communicator.SSHPassword := communicator.SSHPassword k;
            communicator.SSHInterface := communicator.SSHInterface k;
            communicator.SSHAgentAuth := communicator.SSHAgentAuth k;
            communicator.WinRMPassword := communicator.WinRMPassword k;
            communicator.rest := communicator.rest k |}
    else k in
  (k, if is_empty (communicator.rest k)
      then ["An ssh_username must be specified"] else []).

(** A file system with one file, and a parser that knows two ranges. *)
Definition Stat (path : string) : option error :=
  if String.eqb path "/tmp/user-data" then None
  else Some ("stat " +:+ path +:+ ": no such file or directory").

Definition ParseCIDR (s : string) : option error :=
  if String.eqb s "0.0.0.0/0" || String.eqb s "10.0.0.0/8" then None
  else Some ("invalid CIDR address: " +:+ s).

Definition comm : communicator.Config string :=
  {| communicator.Type_ := EmptyString;
     communicator.SSHKeyPairName := EmptyString;
     communicator.SSHTemporaryKeyPairName := EmptyString;
     communicator.SSHPrivateKeyFile := EmptyString;
     communicator.SSHPassword := EmptyString;
     communicator.SSHInterface := EmptyString;
     communicator.SSHAgentAuth := false;
     communicator.WinRMPassword := EmptyString;
     communicator.rest := "ec2-user" |}.

Definition owned_filter : AmiFilterOptions.t :=
  {| AmiFilterOptions.Filters := [("name", "ubuntu-*")];
     AmiFilterOptions.Owners := ["self"];
     AmiFilterOptions.MostRecent := true |}.

Definition no_filter : AmiFilterOptions.t :=
  {| AmiFilterOptions.Filters := [];
     AmiFilterOptions.Owners := [];
     AmiFilterOptions.MostRecent := false |}.

(** A run configuration with a source image and one security group;
    everything that has a default is left out. *)
Definition run : Run.RunConfig string :=
  {| Run.AssociatePublicIpAddress := false;
     Run.AvailabilityZone := EmptyString;
     Run.BlockDurationMinutes := 120;
     Run.DisableStopInstance := false;
     Run.EbsOptimized := false;
     Run.EnableT2Unlimited := true;
     Run.IamInstanceProfile := EmptyString;
     Run.InstanceInitiatedShutdownBehavior := EmptyString;
     Run.InstanceType := "t2.micro";
     Run.SecurityGroupFilter := {| SecurityGroupFilterOptions.Filters := [] |};
     Run.RunTags := None;
     Run.SecurityGroupId := "sg-1";
     Run.SecurityGroupIds := [];
     Run.SourceAmi := "ami-1";
     Run.SourceAmiFilter := no_filter;
     Run.SpotInstanceTypes := [];
     Run.SpotPrice := EmptyString;
     Run.SpotPriceAutoProduct := EmptyString;
     Run.SpotTags := None;
     Run.SubnetFilter :=
       {| SubnetFilterOptions.Filters := [];
          SubnetFilterOptions.MostFree := false;
          SubnetFilterOptions.Random := false |};
     Run.SubnetId := EmptyString;
     Run.TemporaryKeyPairName := EmptyString;
     Run.TemporarySGSourceCidrs := [];
     Run.UserData := EmptyString;
     Run.UserDataFile := "/tmp/user-data";
     Run.VpcFilter := {| VpcFilterOptions.Filters := [] |};
     Run.VpcId := EmptyString;
     Run.WindowsPasswordTimeout := 0;
     Run.Comm := comm |}.

(** The same with both the source image and a filter. *)
Definition run_with_both : Run.RunConfig string :=
  Run.set_SourceAmiFilter owned_filter run.

(** The same with a block duration of an hour and a half, and with
    neither an instance type nor a spot instance type. *)
Definition run_90 : Run.RunConfig string := Run.set_BlockDurationMinutes 90 run.

Definition run_two_violations : Run.RunConfig string :=
  Run.set_InstanceType EmptyString run_90.

(** A duration parser that knows minutes and seconds of one digit. *)
Definition ParseDuration (s : string) : Z * option error :=
  if String.eqb s "5m" then (5 * Run.Minute, None)
  else if String.eqb s "20s" then (20 * 1000000000, None)
  else (0, Some ("time: invalid duration " +:+ s)).

Definition shutdown : Shutdown.ShutdownConfig :=
  {| Shutdown.ShutdownCommand := "shutdown -P now";
     Shutdown.RawShutdownTimeout := EmptyString;
     Shutdown.ShutdownTimeout := 0 |}.

(** The OVF builder with embedded configurations that never fail; the
    raw input is the source path. *)
Definition ovf_config (path : string) : Ovf.Config unit :=
  {| Ovf.embedded := tt;
     Ovf.Checksum := "ABCDEF";
     Ovf.ChecksumType := "SHA256";
     Ovf.GuestAdditionsMode := EmptyString;
     Ovf.GuestAdditionsPath := EmptyString;
     Ovf.GuestAdditionsInterface := EmptyString;
     Ovf.GuestAdditionsSHA256 := EmptyString;
     Ovf.GuestAdditionsURL := EmptyString;
     Ovf.ImportFlags := [];
     Ovf.ImportOpts := EmptyString;
     Ovf.SourcePath := path;
     Ovf.TargetPath := EmptyString;
     Ovf.VMName := EmptyString;
     Ovf.KeepRegistered := false;
     Ovf.SkipExport := false |}.

Definition ovf_collaborators : Ovf.Collaborators string unit :=
  {| Ovf.Decode := fun raws => (ovf_config (String.concat EmptyString raws), None);
     Ovf.PackerBuildName := fun _ => "vbox";
     Ovf.ShutdownCommand := fun _ => "shutdown -P now";
     Ovf.InitTime_Unix := 1546300800;
     Ovf.ExportConfig_Prepare := fun e => (e, []);
     Ovf.ExportOpts_Prepare := fun e => (e, []);
     Ovf.FloppyConfig_Prepare := fun e => (e, []);
     Ovf.HTTPConfig_Prepare := fun e => (e, []);
     Ovf.OutputConfig_Prepare := fun e => (e, []);
     Ovf.RunConfig_Prepare := fun e => (e, []);
     Ovf.ShutdownConfig_Prepare := fun e => (e, []);
     Ovf.SSHConfig_Prepare := fun e => (e, []);
     Ovf.VBoxManageConfig_Prepare := fun e => (e, []);
     Ovf.VBoxManagePostConfig_Prepare := fun e => (e, []);
     Ovf.VBoxVersionConfig_Prepare := fun e => (e, []);
     Ovf.BootConfig_Prepare := fun e => (e, []);
     Ovf.GuestAdditionsConfig_Prepare := fun e => (e, []);
     Ovf.GuestAdditionsModeDisable := "disable";
     Ovf.GuestAdditionsModeAttach := "attach";
     Ovf.GuestAdditionsModeUpload := "upload";
     Ovf.ToLower := fun s => s;
     Ovf.Stat := Stat |}.

(** A suppressed device that also asks for a volume, an ephemeral device,
    and two launch devices of one name. *)
Definition suppressed_volume : BlockDev.BlockDevice :=
  {| BlockDev.DeleteOnTermination := true;
     BlockDev.DeviceName := "/dev/sdc";
     BlockDev.Encrypted := Some true;
     BlockDev.IOPS := 100;
     BlockDev.NoDevice := true;
     BlockDev.SnapshotId := "snap-2";
     BlockDev.VirtualName := "ephemeral1";
     BlockDev.VolumeType := "gp2";
     BlockDev.VolumeSize := 20;
     BlockDev.KmsKeyId := "key-2";
     BlockDev.OmitFromArtifact := true |}.

Definition ephemeral_volume : BlockDev.BlockDevice :=
  {| BlockDev.DeleteOnTermination := false;
     BlockDev.DeviceName := "/dev/sdd";
     BlockDev.Encrypted := None;
     BlockDev.IOPS := 0;
     BlockDev.NoDevice := false;
     BlockDev.SnapshotId := "snap-3";
     BlockDev.VirtualName := "ephemeral0";
     BlockDev.VolumeType := "gp2";
     BlockDev.VolumeSize := 30;
     BlockDev.KmsKeyId := EmptyString;
     BlockDev.OmitFromArtifact := false |}.

(** A filter with entries and no owner, and a spot instance with tags. *)
Definition unowned_filter : AmiFilterOptions.t :=
  {| AmiFilterOptions.Filters := [("name", "ubuntu-*")];
     AmiFilterOptions.Owners := [];
     AmiFilterOptions.MostRecent := true |}.

Definition run_spot : Run.RunConfig string :=
  {| Run.AssociatePublicIpAddress := false;
     Run.AvailabilityZone := EmptyString;
     Run.BlockDurationMinutes := 60;
     Run.DisableStopInstance := false;
     Run.EbsOptimized := false;
     Run.EnableT2Unlimited := false;
     Run.IamInstanceProfile := EmptyString;
     Run.InstanceInitiatedShutdownBehavior := "terminate";
     Run.InstanceType := "m5.large";
     Run.SecurityGroupFilter := {| SecurityGroupFilterOptions.Filters := [] |};
     Run.RunTags := None;
     Run.SecurityGroupId := EmptyString;
     Run.SecurityGroupIds := ["sg-1"; "sg-2"];
     Run.SourceAmi := EmptyString;
     Run.SourceAmiFilter := owned_filter;
     Run.SpotInstanceTypes := [];
     Run.SpotPrice := "auto";
     Run.SpotPriceAutoProduct := "Linux/UNIX";
     Run.SpotTags := Some {[ "team" := "build" ]};
     Run.SubnetFilter :=
       {| SubnetFilterOptions.Filters := [];
          SubnetFilterOptions.MostFree := false;
          SubnetFilterOptions.Random := false |};
     Run.SubnetId := EmptyString;
     Run.TemporaryKeyPairName := EmptyString;
     Run.TemporarySGSourceCidrs := ["10.0.0.0/8"];
     Run.UserData := "#!/bin/sh";
     Run.UserDataFile := EmptyString;
     Run.VpcFilter := {| VpcFilterOptions.Filters := [] |};
     Run.VpcId := EmptyString;
     Run.WindowsPasswordTimeout := 0;
     Run.Comm := comm |}.

(** The LXD and LXC builders: the raw input is the image, or the path of
    the configuration file. One path cannot be read, all the others but
    one do not exist. *)
Definition lxd_Decode (raws : list string) : Lxd.Config string * option error :=
  ({| Lxd.PackerConfig := "web";
      Lxd.OutputImage := EmptyString;
      Lxd.ContainerName := EmptyString;
      Lxd.CommandWrapper := EmptyString;
      Lxd.Image := String.concat EmptyString raws;
      Lxd.Profile := EmptyString;
      Lxd.InitSleep := "5";
      Lxd.PublishProperties := None;
      Lxd.LaunchConfig := None |}, None).

Definition lxc_Decode (raws : list string) : Lxc.Config string * option error :=
  ({| Lxc.PackerConfig := "web";
      Lxc.ConfigFile := String.concat EmptyString raws;
      Lxc.OutputDir := EmptyString;
      Lxc.ContainerName := EmptyString;
      Lxc.CommandWrapper := EmptyString;
      Lxc.RawInitTimeout := EmptyString;
      Lxc.CreateOptions := [];
      Lxc.StartOptions := [];
      Lxc.AttachOptions := [];
      Lxc.Name := "ubuntu";
      Lxc.Parameters := [];
      Lxc.EnvVars := [];
      Lxc.TargetRunlevel := 0;
      Lxc.InitTimeout := 0 |}, None).

Definition lxc_Stat (path : string) : option Lxc.stat_error :=
  if String.eqb path "/etc/lxc/default.conf" then None
  else if String.eqb path "/root/lxc.conf" then Some Lxc.ErrOther
  else Some Lxc.ErrNotExist.

(** A CloudStack template: the credentials come from the environment,
    the zone from the raw input; the key pair is left to the builder. *)
Definition cloudstack_Decode (raws : list string)
    : Cloudstack.Config unit string * option error :=
  ({| Cloudstack.embedded := tt;
      Cloudstack.Comm :=
        {| communicator.Type_ := EmptyString;
           communicator.SSHKeyPairName := EmptyString;
           communicator.SSHTemporaryKeyPairName := EmptyString;
           communicator.SSHPrivateKeyFile := EmptyString;
           communicator.SSHPassword := EmptyString;
           communicator.SSHInterface := EmptyString;
           communicator.SSHAgentAuth := false;
           communicator.WinRMPassword := EmptyString;
           communicator.rest := "root" |};
      Cloudstack.APIURL := EmptyString;
      Cloudstack.APIKey := "key";
      Cloudstack.SecretKey := EmptyString;
      Cloudstack.AsyncTimeout := 0;
      Cloudstack.HTTPGetOnly := false;
      Cloudstack.SSLNoVerify := false;
      Cloudstack.CIDRList := [];
      Cloudstack.CreateSecurityGroup := true;
      Cloudstack.DiskOffering := EmptyString;
      Cloudstack.DiskSize := 0;
      Cloudstack.Expunge := true;
      Cloudstack.Hypervisor := EmptyString;
      Cloudstack.InstanceName := EmptyString;
      Cloudstack.Network := "default";
      Cloudstack.Project := EmptyString;
      Cloudstack.PublicIPAddress := EmptyString;
      Cloudstack.PublicPort := 0;
      Cloudstack.SecurityGroups := [];
      Cloudstack.ServiceOffering := "small";
      Cloudstack.PreventFirewallChanges := false;
      Cloudstack.SourceISO := EmptyString;
      Cloudstack.SourceTemplate := "debian";
      Cloudstack.TemporaryKeypairName := EmptyString;
      Cloudstack.UseLocalIPAddress := false;
      Cloudstack.UserData := EmptyString;
      Cloudstack.UserDataFile := EmptyString;
      Cloudstack.Zone := String.concat EmptyString raws;
      Cloudstack.TemplateName := EmptyString;
      Cloudstack.TemplateDisplayText := EmptyString;
      Cloudstack.TemplateOS := "Debian";
      Cloudstack.TemplateFeatured := false;
      Cloudstack.TemplatePublic := false;
      Cloudstack.TemplatePasswordEnabled := false;
      Cloudstack.TemplateRequiresHVM := false;
      Cloudstack.TemplateScalable := false;
      Cloudstack.TemplateTag := EmptyString |}, None).

(** An environment with the URL and the secret, and a renderer that
    replaces the time stamp. *)
Definition cloudstack_Getenv (name : string) : string :=
  if String.eqb name "CLOUDSTACK_API_URL" then "https://cloud.example/api"
  else if String.eqb name "CLOUDSTACK_SECRET_KEY" then "secret"
  else EmptyString.

Definition cloudstack_Render (template : string) : string * option error :=
  ("packer-1572480000", None).

End Examples.

(** * Properties *)

(** ** Strings and error lists *)

Lemma is_empty_true (s : string) : is_empty s = true <-> s = EmptyString.
Proof. destruct s; simpl; split; intros H; congruence. Qed.

Lemma is_empty_false (s : string) : is_empty s = false <-> s <> EmptyString.
Proof. destruct s; simpl; split; intros H; congruence. Qed.

Lemma non_empty_true (s : string) : non_empty s = true <-> s <> EmptyString.
Proof. unfold non_empty. destruct s; simpl; split; intros H; congruence. Qed.

Lemma count_msg_app (m : error) (l1 l2 : list error) :
  count_msg m (l1 ++ l2) = (count_msg m l1 + count_msg m l2)%nat.
Proof. unfold count_msg. rewrite filter_app, length_app. reflexivity. Qed.

Lemma count_msg_nil (m : error) : count_msg m [] = 0%nat.
Proof. reflexivity. Qed.

Lemma count_msg_zero (m : error) (errs : list error) :
  count_msg m errs = 0%nat <-> m ∉ errs.
Proof.
  unfold count_msg. induction errs as [|e errs IH]; simpl.
  - split; [intros _; apply not_elem_of_nil | reflexivity].
  - rewrite filter_cons. destruct (decide (e = m)) as [->|Hne]; simpl.
    + split; [discriminate | intros H; exfalso; apply H; left].
    + rewrite IH, not_elem_of_cons. split; [intros H; split; congruence | tauto].
Qed.


(** ** Block devices *)
Module BlockDevFacts.

Import BlockDev.

Lemma append_loop {A B : Type} (f : A -> B) (l : list A) (acc : list B) :
  fold_left (fun acc x => acc ++ [f x]) l acc = acc ++ (f <$> l).
Proof.
  revert acc. induction l as [|x l IH]; intros acc; simpl.
  - symmetry. apply app_nil_r.
  - rewrite IH, <- app_assoc. reflexivity.
Qed.

Lemma buildBlockDevices_map (b : list BlockDevice) :
  buildBlockDevices b = mapping <$> b.
Proof. unfold buildBlockDevices. rewrite append_loop. reflexivity. Qed.

Lemma buildBlockDevices_lookup (b : list BlockDevice) (i : nat) :
  buildBlockDevices b !! i = mapping <$> (b !! i).
Proof. rewrite buildBlockDevices_map. apply list_lookup_fmap. Qed.

(** The errors of one loop of [BlockDevices.Prepare]: the errors so far,
    then one attributed error per device that fails its own [Prepare]. *)
Lemma Prepare_mappings_omap (label : string) (ds : list BlockDevice)
    (errs : list error) :
  Prepare_mappings label ds errs
  = errs ++ omap (fun d => attributed label <$> Prepare_device d) ds.
Proof.
  unfold Prepare_mappings. revert errs.
  induction ds as [|d ds IH]; intros errs; simpl.
  - symmetry. apply app_nil_r.
  - rewrite IH. destruct (Prepare_device d) as [err|]; simpl.
    + rewrite <- app_assoc. reflexivity.
    + reflexivity.
Qed.

Lemma kms_without_encryption_true (d : BlockDevice) :
  KmsKeyId d <> EmptyString -> Encrypted d = Some false ->
  kms_without_encryption d = true.
Proof.
  intros Hk He. unfold kms_without_encryption.
  rewrite He. apply non_empty_true in Hk. rewrite Hk. reflexivity.
Qed.

Lemma Prepare_device_keyed (d : BlockDevice) :
  kms_without_encryption d = true -> is_Some (Prepare_device d).
Proof.
  intros H. unfold Prepare_device. rewrite H.
  destruct (is_empty (DeviceName d)); eauto.
Qed.

Lemma omap_failing_device (label : string) (ds : list BlockDevice) (d : BlockDevice) :
  d ∈ ds -> is_Some (Prepare_device d) ->
  (0 < length (omap (fun d => attributed label <$> Prepare_device d) ds))%nat.
Proof.
  intros Hin [err Herr].
  assert (attributed label err
          ∈ omap (fun d => attributed label <$> Prepare_device d) ds) as Hmem.
  { apply list_elem_of_omap. exists d. split; [exact Hin|]. rewrite Herr. reflexivity. }
  destruct (omap _ ds); [inversion Hmem | simpl; lia].
Qed.

(** C3, as amended. Every mapping that [buildBlockDevices] emits carries at
    most one of the three kinds (suppressed, ephemeral, persistent). It
    carries exactly one unless the device is not suppressed and has a
    virtual name without the ephemeral prefix; such a device gets a mapping
    of no kind at all. *)
Theorem buildBlockDevices_at_most_one_kind (b : list BlockDevice) :
  Forall2
    (fun d m =>
       (kinds m <= 1)%nat
       /\ (kinds m = 0%nat <->
           NoDevice d = false /\ VirtualName d <> EmptyString
           /\ String.prefix "ephemeral" (VirtualName d) = false))
    b (buildBlockDevices b).
Proof.
  rewrite buildBlockDevices_map.
  apply Forall2_fmap_r, Forall_Forall2_diag, Forall_forall.
  intros d _. unfold compose. cbv beta. unfold mapping, kinds.
  destruct (NoDevice d) eqn:Hn; cbn [ec2.NoDevice ec2.VirtualName ec2.Ebs].
  { split; [lia|]. split; [discriminate | intros [H _]; discriminate]. }
  destruct (non_empty (VirtualName d)) eqn:Hv;
    cbn [ec2.NoDevice ec2.VirtualName ec2.Ebs].
  2:{ split; [lia|]. split; [discriminate|]. intros (_ & H & _).
      apply non_empty_true in H. congruence. }
  apply non_empty_true in Hv.
  destruct (String.prefix "ephemeral" (VirtualName d)) eqn:Hp;
    cbn [ec2.NoDevice ec2.VirtualName ec2.Ebs].
  - split; [lia|]. split; [discriminate | intros (_ & _ & H); discriminate].
  - split; [lia|]. split; [|reflexivity]. intros _. repeat split; assumption.
Qed.

(** C3, as stated, fails: the mapping of a device whose virtual name is
    [swap] is of none of the three kinds. *)
Lemma buildBlockDevices_kindless_mapping :
  ~ Forall (fun m => kinds m = 1%nat) (buildBlockDevices [Examples.swap_device]).
Proof.
  intros H. apply Forall_cons_1 in H as [H _]. vm_compute in H. discriminate.
Qed.

(** C5. A device that is neither suppressed nor virtual gets a persistent
    mapping: the size is populated exactly when it is positive, the I/O
    rate exactly when the type is io1, the snapshot exactly when one is
    given, the encryption flag is handed over as it is, and the key is
    handed over when one is given. *)
Theorem buildBlockDevices_persistent (b : list BlockDevice) (i : nat)
    (d : BlockDevice) :
  b !! i = Some d -> NoDevice d = false -> VirtualName d = EmptyString ->
  exists m ebs,
    buildBlockDevices b !! i = Some m
    /\ ec2.Ebs m = Some ebs
    /\ ec2.NoDevice m = None /\ ec2.VirtualName m = None
    /\ (0 < VolumeSize d -> ec2.VolumeSize ebs = Some (VolumeSize d))
    /\ (VolumeSize d <= 0 -> ec2.VolumeSize ebs = None)
    /\ (VolumeType d = "io1" -> ec2.Iops ebs = Some (IOPS d))
    /\ (VolumeType d <> "io1" -> ec2.Iops ebs = None)
    /\ (SnapshotId d <> EmptyString -> ec2.SnapshotId ebs = Some (SnapshotId d))
    /\ (SnapshotId d = EmptyString -> ec2.SnapshotId ebs = None)
    /\ ec2.Encrypted ebs = Encrypted d
    /\ (KmsKeyId d <> EmptyString -> ec2.KmsKeyId ebs = Some (KmsKeyId d))
    /\ (KmsKeyId d = EmptyString -> ec2.KmsKeyId ebs = None).
Proof.
  intros Hi Hn Hv.
  exists (mapping d), (ebsBlockDevice d).
  rewrite buildBlockDevices_lookup, Hi. cbn [fmap option_fmap option_map].
  unfold mapping. rewrite Hn, Hv. simpl.
  split_and!; try reflexivity.
  - intros H. apply Z.ltb_lt in H. rewrite H. reflexivity.
  - intros H. destruct (0 <? VolumeSize d) eqn:E; [apply Z.ltb_lt in E; lia | reflexivity].
  - intros H. rewrite H. reflexivity.
  - intros H. apply String.eqb_neq in H. rewrite H. reflexivity.
  - intros H. apply non_empty_true in H. rewrite H. reflexivity.
  - intros H. rewrite H. reflexivity.
  - intros H. apply non_empty_true in H. rewrite H. reflexivity.
  - intros H. rewrite H. reflexivity.
Qed.

Lemma buildBlockDevices_persistent_witness :
  exists m ebs,
    buildBlockDevices [Examples.swap_device; Examples.data_volume] !! 1%nat = Some m
    /\ ec2.Ebs m = Some ebs
    /\ ec2.VolumeSize ebs = Some 100
    /\ ec2.Iops ebs = Some 3000
    /\ ec2.SnapshotId ebs = Some "snap-1"
    /\ ec2.Encrypted ebs = Some true
    /\ ec2.KmsKeyId ebs = Some "key-1".
Proof.
  destruct (buildBlockDevices_persistent
              [Examples.swap_device; Examples.data_volume] 1 Examples.data_volume
              eq_refl eq_refl eq_refl)
    as (m & ebs & Hm & He & _ & _ & Hs & _ & Hi & _ & Hsn & _ & Hen & Hk & _).
  exists m, ebs. split_and!.
  - exact Hm.
  - exact He.
  - apply Hs. simpl. lia.
  - apply Hi. reflexivity.
  - apply Hsn. discriminate.
  - exact Hen.
  - apply Hk. discriminate.
Defined.

(** C6. A device with a key and encryption explicitly switched off fails
    [BlockDevice.Prepare], and a [BlockDevices] that holds it in either
    list gets at least one error from [BlockDevices.Prepare]. *)
Theorem Prepare_rejects_key_without_encryption (b : BlockDevices) (d : BlockDevice) :
  KmsKeyId d <> EmptyString -> Encrypted d = Some false ->
  d ∈ AMIMappings b \/ d ∈ LaunchMappings b ->
  is_Some (Prepare_device d) /\ (0 < length (Prepare b))%nat.
Proof.
  intros Hk He Hin.
  assert (is_Some (Prepare_device d)) as Hd.
  { apply Prepare_device_keyed, kms_without_encryption_true; assumption. }
  split; [exact Hd|].
  unfold Prepare. rewrite !Prepare_mappings_omap. simpl. rewrite length_app.
  destruct Hin as [Hin|Hin].
  - pose proof (omap_failing_device "AMIMapping" _ d Hin Hd). lia.
  - pose proof (omap_failing_device "LaunchMapping" _ d Hin Hd). lia.
Qed.

Lemma Prepare_rejects_key_without_encryption_witness :
  is_Some (Prepare_device Examples.unencrypted_keyed_device)
  /\ (0 < length (Prepare {| AMIMappings := [Examples.data_volume];
                             LaunchMappings := [Examples.unencrypted_keyed_device] |}))%nat.
Proof.
  apply Prepare_rejects_key_without_encryption.
  - discriminate.
  - reflexivity.
  - right. simpl. left.
Defined.

(** C9. [buildBlockDevices] returns one mapping per device, in the order
    of the devices, and each mapping carries the name of its device,
    whatever the kind of the device. *)
Theorem buildBlockDevices_device_names (b : list BlockDevice) :
  length (buildBlockDevices b) = length b
  /\ forall i : nat,
       ec2.DeviceName <$> (buildBlockDevices b !! i)
       = (fun d => Some (DeviceName d)) <$> (b !! i).
Proof.
  split.
  - rewrite buildBlockDevices_map. apply length_fmap.
  - intros i. rewrite buildBlockDevices_lookup.
    destruct (b !! i) as [d|]; simpl; [|reflexivity].
    unfold mapping.
    destruct (NoDevice d); [reflexivity|].
    destruct (non_empty (VirtualName d)); [|reflexivity].
    destruct (String.prefix "ephemeral" (VirtualName d)); reflexivity.
Qed.

End BlockDevFacts.

(** ** The run configuration *)
Module RunFacts.

Import Run.

(** A message is told apart from the messages of the other rules by
    computing both. *)
Ltac absent H :=
  repeat first
    [ apply elem_of_app in H as [H|H]
    | apply elem_of_cons in H as [H|H]
    | apply elem_of_nil in H; contradiction ];
  try (cbv in H; discriminate H).

(** Reading a field of an updated configuration. *)
Ltac fields :=
  cbn [
    AssociatePublicIpAddress AvailabilityZone BlockDurationMinutes
    DisableStopInstance EbsOptimized EnableT2Unlimited IamInstanceProfile
    InstanceInitiatedShutdownBehavior InstanceType SecurityGroupFilter
    RunTags SecurityGroupId SecurityGroupIds SourceAmi SourceAmiFilter
    SpotInstanceTypes SpotPrice SpotPriceAutoProduct SpotTags SubnetFilter
    SubnetId TemporaryKeyPairName TemporarySGSourceCidrs UserData
    UserDataFile VpcFilter VpcId WindowsPasswordTimeout Comm set_Comm
    set_WindowsPasswordTimeout set_RunTags set_SecurityGroupIds
    set_SecurityGroupId set_TemporarySGSourceCidrs
    set_InstanceInitiatedShutdownBehavior set_SourceAmiFilter
    set_BlockDurationMinutes set_SourceAmi set_InstanceType fst snd ].

(** Case analysis on the innermost condition of the goal. *)
Ltac split_inner :=
  match goal with
  | |- context [if ?b then _ else _] =>
      lazymatch b with
      | context [if _ then _ else _] => fail
      | _ => destruct b
      end
  end.

Ltac steps := fields; repeat (split_inner; fields).

Ltac split_rule :=
  repeat match goal with
    | |- context [if ?b then _ else _] => destruct b
    | |- context [match ?x with Some _ => _ | None => _ end] => destruct x
    end.

Section Facts.

Context {Rest : Type}.
Variable comm_Prepare :
  communicator.Config Rest -> communicator.Config Rest * list error.
Variable Stat : string -> option error.
Variable ParseCIDR : string -> option error.

Local Notation "'PrepareRun'" := (Run.Prepare comm_Prepare Stat ParseCIDR).
Local Notation "'validatedRun'" := (Run.validated comm_Prepare).
Local Notation "'securedRun'" := (Run.after_security_groups comm_Prepare).
Local Notation "'rangedRun'" := (Run.after_source_cidrs comm_Prepare ParseCIDR).

(** The errors of [Prepare], part by part, and the configuration it
    leaves. *)
Lemma Prepare_parts (uuid : string) (c : RunConfig Rest) :
  PrepareRun uuid c
  = ((shutdown_behavior (rangedRun uuid c)).1,
     (comm_Prepare (Comm (defaults uuid c))).2
     ++ checks_before Stat (validatedRun uuid c)
     ++ (security_groups (validatedRun uuid c)).2
     ++ (source_cidrs ParseCIDR (securedRun uuid c)).2
     ++ (shutdown_behavior (rangedRun uuid c)).2
     ++ check_t2_unlimited (shutdown_behavior (rangedRun uuid c)).1).
Proof.
  unfold Run.Prepare, after_source_cidrs, after_security_groups, validated.
  destruct (comm_Prepare (Comm (defaults uuid c))) as [comm errs]; cbn [fst snd].
  destruct (security_groups _) as [c1 es1]; cbn [fst snd].
  destruct (source_cidrs _ c1) as [c2 es2]; cbn [fst snd].
  destruct (shutdown_behavior c2) as [c3 es3]; cbn [fst snd].
  rewrite <- !app_assoc. reflexivity.
Qed.

(** The loop over the source ranges yields one error per range that does
    not parse. *)
Lemma check_cidrs_omap (cidrs : list string) :
  check_cidrs ParseCIDR cidrs = omap (fun cidr => err_cidr <$> ParseCIDR cidr) cidrs.
Proof.
  unfold check_cidrs.
  enough (forall errs,
    fold_left
      (fun errs cidr =>
         match ParseCIDR cidr with
         | Some err => errs ++ [err_cidr err]
         | None => errs
         end) cidrs errs
    = errs ++ omap (fun cidr => err_cidr <$> ParseCIDR cidr) cidrs) as H
    by apply (H []).
  induction cidrs as [|cidr cidrs IH]; intros errs; simpl.
  - symmetry. apply app_nil_r.
  - rewrite IH. destruct (ParseCIDR cidr); simpl; [|reflexivity].
    rewrite <- app_assoc. reflexivity.
Qed.

Lemma elem_of_check_cidrs (e : error) (cidrs : list string) :
  e ∈ check_cidrs ParseCIDR cidrs
  <-> exists cidr err, cidr ∈ cidrs /\ ParseCIDR cidr = Some err /\ e = err_cidr err.
Proof.
  rewrite check_cidrs_omap, list_elem_of_omap. split.
  - intros (cidr & Hin & H). destruct (ParseCIDR cidr) as [err|] eqn:E; [|discriminate].
    exists cidr, err. simpl in H. split_and!; congruence.
  - intros (cidr & err & Hin & HP & ->). exists cidr. rewrite HP. split; [assumption|reflexivity].
Qed.

(** The steps before and between the rules leave alone what the rules
    read. *)
Ltac untouched :=
  unfold after_source_cidrs, after_security_groups, security_groups,
    source_cidrs, shutdown_behavior, validated, defaults;
  split_rule; reflexivity.

Lemma validated_block_duration (uuid : string) (c : RunConfig Rest) :
  BlockDurationMinutes (validatedRun uuid c) = BlockDurationMinutes c.
Proof. untouched. Qed.

Lemma validated_source_ami (uuid : string) (c : RunConfig Rest) :
  check_source_ami (validatedRun uuid c) = check_source_ami c.
Proof. untouched. Qed.

Lemma validated_security_group (uuid : string) (c : RunConfig Rest) :
  SecurityGroupId (validatedRun uuid c) = SecurityGroupId c
  /\ SecurityGroupIds (validatedRun uuid c) = SecurityGroupIds c.
Proof. split; untouched. Qed.

Lemma later_steps_security_group (c : RunConfig Rest) :
  let c' := (shutdown_behavior (source_cidrs ParseCIDR c).1).1 in
  SecurityGroupId c' = SecurityGroupId c /\ SecurityGroupIds c' = SecurityGroupIds c.
Proof. split; untouched. Qed.


(** A message that differs from every message a list can hold is not in
    the list: the rule is unfolded, its cases are split, and the messages
    are compared. *)
Ltac not_reported :=
  let H := fresh "H" in
  unfold check_ssh_interface, check_ssh_keypair, check_source_ami,
    check_instance_type, check_block_duration, check_spot, check_user_data,
    security_groups, shutdown_behavior, check_t2_unlimited;
  split_rule; simpl; intros H; absent H.

Lemma not_in_source_cidrs (m : error) (c : RunConfig Rest) :
  (forall err, m <> err_cidr err) -> m ∉ (source_cidrs ParseCIDR c).2.
Proof.
  intros Hm. unfold source_cidrs.
  destruct (length (TemporarySGSourceCidrs c) =? 0)%nat; simpl.
  - apply not_elem_of_nil.
  - intros H. apply elem_of_check_cidrs in H as (cidr & err & _ & _ & H).
    exact (Hm err H).
Qed.

(** *** The block duration rule *)

Lemma block_duration_other_rules (c : RunConfig Rest) :
  (err_block_duration ∉ check_ssh_interface c)
  /\ (err_block_duration ∉ check_ssh_keypair c)
  /\ (err_block_duration ∉ check_source_ami c)
  /\ (err_block_duration ∉ check_instance_type c)
  /\ (err_block_duration ∉ check_spot c)
  /\ (err_block_duration ∉ check_user_data Stat c)
  /\ (err_block_duration ∉ (security_groups c).2)
  /\ (err_block_duration ∉ (source_cidrs ParseCIDR c).2)
  /\ (err_block_duration ∉ (shutdown_behavior c).2)
  /\ (err_block_duration ∉ check_t2_unlimited c).
Proof.
  split_and!;
    first [ apply not_in_source_cidrs; intros err Hc; cbv in Hc; discriminate Hc
          | not_reported ].
Qed.

Lemma block_duration_elsewhere (uuid : string) (c : RunConfig Rest) :
  count_msg err_block_duration (PrepareRun uuid c).2
  = (count_msg err_block_duration (comm_Prepare (Comm (defaults uuid c))).2
     + count_msg err_block_duration (check_block_duration c))%nat.
Proof.
  rewrite Prepare_parts. cbn [snd]. unfold checks_before.
  rewrite !count_msg_app.
  assert (check_block_duration (validatedRun uuid c) = check_block_duration c) as ->.
  { unfold check_block_duration. rewrite validated_block_duration. reflexivity. }
  destruct (block_duration_other_rules (validatedRun uuid c))
    as (H1 & H2 & H3 & H4 & H5 & H6 & H7 & _).
  destruct (block_duration_other_rules (securedRun uuid c))
    as (_ & _ & _ & _ & _ & _ & _ & H8 & _).
  destruct (block_duration_other_rules (rangedRun uuid c))
    as (_ & _ & _ & _ & _ & _ & _ & _ & H9 & _).
  destruct (block_duration_other_rules (shutdown_behavior (rangedRun uuid c)).1)
    as (_ & _ & _ & _ & _ & _ & _ & _ & _ & H10).
  apply count_msg_zero in H1, H2, H3, H4, H5, H6, H7, H8, H9, H10.
  unfold after_source_cidrs, after_security_groups in *.
  lia.
Qed.

(** C7. With a block duration of 90 minutes, [RunConfig.Prepare] returns
    the multiple-of-60 error exactly once; with 120 minutes, not at all.
    The communicator's own [Prepare] is taken not to use that message. *)
Theorem Prepare_block_duration (uuid : string) (c : RunConfig Rest) :
  (forall k, count_msg err_block_duration (comm_Prepare k).2 = 0%nat) ->
  (BlockDurationMinutes c = 90 ->
   count_msg err_block_duration (PrepareRun uuid c).2 = 1%nat)
  /\ (BlockDurationMinutes c = 120 ->
      count_msg err_block_duration (PrepareRun uuid c).2 = 0%nat).
Proof.
  intros Hcomm. rewrite block_duration_elsewhere, Hcomm.
  unfold check_block_duration.
  split; intros ->; reflexivity.
Qed.

(** *** The source image rules *)

Lemma source_ami_required_other_rules (c : RunConfig Rest) :
  (err_source_ami_required ∉ check_ssh_interface c)
  /\ (err_source_ami_required ∉ check_ssh_keypair c)
  /\ (err_source_ami_required ∉ check_instance_type c)
  /\ (err_source_ami_required ∉ check_block_duration c)
  /\ (err_source_ami_required ∉ check_spot c)
  /\ (err_source_ami_required ∉ check_user_data Stat c)
  /\ (err_source_ami_required ∉ (security_groups c).2)
  /\ (err_source_ami_required ∉ (source_cidrs ParseCIDR c).2)
  /\ (err_source_ami_required ∉ (shutdown_behavior c).2)
  /\ (err_source_ami_required ∉ check_t2_unlimited c).
Proof.
  split_and!;
    first [ apply not_in_source_cidrs; intros err Hc; cbv in Hc; discriminate Hc
          | not_reported ].
Qed.

Lemma source_ami_required_own_rule (c : RunConfig Rest) :
  err_source_ami_required ∈ check_source_ami c
  <-> is_empty (SourceAmi c) && AmiFilterOptions.Empty (SourceAmiFilter c) = true.
Proof.
  unfold check_source_ami.
  destruct (is_empty (SourceAmi c) && AmiFilterOptions.Empty (SourceAmiFilter c));
    destruct (is_empty (SourceAmi c) && AmiFilterOptions.NoOwner (SourceAmiFilter c));
    simpl; split; intros H; try reflexivity; try discriminate H;
    try (left; fail); absent H.
Qed.

Lemma source_ami_required_reported (uuid : string) (c : RunConfig Rest) :
  err_source_ami_required ∈ (PrepareRun uuid c).2
  <-> err_source_ami_required ∈ (comm_Prepare (Comm (defaults uuid c))).2
      \/ is_empty (SourceAmi c) && AmiFilterOptions.Empty (SourceAmiFilter c) = true.
Proof.
  rewrite Prepare_parts. cbn [snd]. unfold checks_before.
  rewrite !elem_of_app, validated_source_ami, source_ami_required_own_rule.
  destruct (source_ami_required_other_rules (validatedRun uuid c))
    as (H1 & H2 & H3 & H4 & H5 & H6 & H7 & _).
  destruct (source_ami_required_other_rules (securedRun uuid c))
    as (_ & _ & _ & _ & _ & _ & _ & H8 & _).
  destruct (source_ami_required_other_rules (rangedRun uuid c))
    as (_ & _ & _ & _ & _ & _ & _ & _ & H9 & _).
  destruct (source_ami_required_other_rules (shutdown_behavior (rangedRun uuid c)).1)
    as (_ & _ & _ & _ & _ & _ & _ & _ & _ & H10).
  unfold after_source_cidrs, after_security_groups in *.
  tauto.
Qed.

(** Replacing the filter commutes with every step of [Prepare]. *)
Lemma defaults_set_filter (f : AmiFilterOptions.t) (uuid : string)
    (c : RunConfig Rest) :
  defaults uuid (set_SourceAmiFilter f c) = set_SourceAmiFilter f (defaults uuid c).
Proof. unfold defaults. steps; reflexivity. Qed.


Lemma validated_set_filter (f : AmiFilterOptions.t) (uuid : string)
    (c : RunConfig Rest) :
  validatedRun uuid (set_SourceAmiFilter f c)
  = set_SourceAmiFilter f (validatedRun uuid c).
Proof. unfold validated. rewrite defaults_set_filter. reflexivity. Qed.

Lemma security_groups_set_filter (f : AmiFilterOptions.t) (c : RunConfig Rest) :
  security_groups (set_SourceAmiFilter f c)
  = (set_SourceAmiFilter f (security_groups c).1, (security_groups c).2).
Proof. unfold security_groups. steps; reflexivity. Qed.

Lemma source_cidrs_set_filter (f : AmiFilterOptions.t) (c : RunConfig Rest) :
  source_cidrs ParseCIDR (set_SourceAmiFilter f c)
  = (set_SourceAmiFilter f (source_cidrs ParseCIDR c).1,
     (source_cidrs ParseCIDR c).2).
Proof. unfold source_cidrs. steps; reflexivity. Qed.

Lemma shutdown_behavior_set_filter (f : AmiFilterOptions.t) (c : RunConfig Rest) :
  shutdown_behavior (set_SourceAmiFilter f c)
  = (set_SourceAmiFilter f (shutdown_behavior c).1, (shutdown_behavior c).2).
Proof. unfold shutdown_behavior. steps; reflexivity. Qed.

Lemma check_source_ami_given (c : RunConfig Rest) :
  SourceAmi c <> EmptyString -> check_source_ami c = [].
Proof.
  intros H. apply is_empty_false in H. unfold check_source_ami.
  rewrite H. reflexivity.
Qed.

Lemma rules_set_filter (f : AmiFilterOptions.t) (c : RunConfig Rest) :
  SourceAmi c <> EmptyString ->
  checks_before Stat (set_SourceAmiFilter f c) = checks_before Stat c
  /\ check_t2_unlimited (set_SourceAmiFilter f c) = check_t2_unlimited c.
Proof.
  intros Hami. split; [|reflexivity].
  unfold checks_before.
  rewrite (check_source_ami_given c) by exact Hami.
  rewrite (check_source_ami_given (set_SourceAmiFilter f c)) by exact Hami.
  reflexivity.
Qed.

(** With a source image given, the filter reaches no rule. *)
Lemma Prepare_set_filter (f : AmiFilterOptions.t) (uuid : string)
    (c : RunConfig Rest) :
  SourceAmi c <> EmptyString ->
  PrepareRun uuid (set_SourceAmiFilter f c)
  = (set_SourceAmiFilter f (PrepareRun uuid c).1, (PrepareRun uuid c).2).
Proof.
  intros Hami. rewrite !Prepare_parts.
  unfold after_source_cidrs, after_security_groups.
  rewrite validated_set_filter, defaults_set_filter.
  rewrite security_groups_set_filter. cbn [fst snd].
  rewrite source_cidrs_set_filter. cbn [fst snd].
  rewrite shutdown_behavior_set_filter. cbn [fst snd].
  assert (SourceAmi (validatedRun uuid c) = SourceAmi c) as Hsame by untouched.
  destruct (rules_set_filter f (validatedRun uuid c)) as [-> _].
  { rewrite Hsame. exact Hami. }
  destruct (rules_set_filter f
              (shutdown_behavior
                 (source_cidrs ParseCIDR
                    (security_groups (validatedRun uuid c)).1).1).1) as [_ ->].
  { assert (forall x : RunConfig Rest,
              SourceAmi
                (shutdown_behavior
                   (source_cidrs ParseCIDR (security_groups x).1).1).1
              = SourceAmi x) as Hlater by (intros x; untouched).
    rewrite Hlater, Hsame. exact Hami. }
  reflexivity.
Qed.

(** C1, as amended. When the source image and the filter are both empty,
    [RunConfig.Prepare] returns the must-be-specified error; when one of
    them is given it does not (the communicator's own [Prepare] is taken
    not to use that message). There is no rule against giving both: once
    the source image is given, the errors do not depend on the filter. *)
Theorem Prepare_source_ami (uuid : string) (c : RunConfig Rest) :
  (forall k, err_source_ami_required ∉ (comm_Prepare k).2) ->
  (SourceAmi c = EmptyString ->
   AmiFilterOptions.Empty (SourceAmiFilter c) = true ->
   err_source_ami_required ∈ (PrepareRun uuid c).2)
  /\ (SourceAmi c <> EmptyString
      \/ AmiFilterOptions.Empty (SourceAmiFilter c) = false ->
      err_source_ami_required ∉ (PrepareRun uuid c).2)
  /\ (SourceAmi c <> EmptyString ->
      forall f : AmiFilterOptions.t,
        (PrepareRun uuid (set_SourceAmiFilter f c)).2 = (PrepareRun uuid c).2).
Proof.
  intros Hcomm. split_and!.
  - intros Hami Hfilter. apply source_ami_required_reported. right.
    rewrite Hami, Hfilter. reflexivity.
  - intros Hgiven Hin. apply source_ami_required_reported in Hin as [Hin|Hin].
    + exact (Hcomm _ Hin).
    + apply andb_true_iff in Hin as [Hami Hfilter].
      destruct Hgiven as [Hgiven|Hgiven].
      * apply is_empty_true in Hami. contradiction.
      * congruence.
  - intros Hami f. rewrite Prepare_set_filter by exact Hami. reflexivity.
Qed.

(** *** The security group rule *)

Lemma security_group_both_other_rules (c : RunConfig Rest) :
  (err_security_group_both ∉ check_ssh_interface c)
  /\ (err_security_group_both ∉ check_ssh_keypair c)
  /\ (err_security_group_both ∉ check_source_ami c)
  /\ (err_security_group_both ∉ check_instance_type c)
  /\ (err_security_group_both ∉ check_block_duration c)
  /\ (err_security_group_both ∉ check_spot c)
  /\ (err_security_group_both ∉ check_user_data Stat c)
  /\ (err_security_group_both ∉ (source_cidrs ParseCIDR c).2)
  /\ (err_security_group_both ∉ (shutdown_behavior c).2)
  /\ (err_security_group_both ∉ check_t2_unlimited c).
Proof.
  split_and!;
    first [ apply not_in_source_cidrs; intros err Hc; cbv in Hc; discriminate Hc
          | not_reported ].
Qed.

Lemma security_group_both_own_rule (c : RunConfig Rest) :
  err_security_group_both ∈ (security_groups c).2
  <-> SecurityGroupId c <> EmptyString /\ SecurityGroupIds c <> [].
Proof.
  unfold security_groups.
  destruct (SecurityGroupId c) as [|a s]; simpl.
  { split; [intros H; absent H | intros [H _]; congruence]. }
  destruct (SecurityGroupIds c) as [|g gs]; simpl.
  - split; [intros H; absent H | intros [_ H]; congruence].
  - split; [intros _; split; discriminate | intros _; left].
Qed.

Lemma security_group_both_reported (uuid : string) (c : RunConfig Rest) :
  err_security_group_both ∈ (PrepareRun uuid c).2
  <-> err_security_group_both ∈ (comm_Prepare (Comm (defaults uuid c))).2
      \/ (SecurityGroupId c <> EmptyString /\ SecurityGroupIds c <> []).
Proof.
  rewrite Prepare_parts. cbn [snd]. unfold checks_before.
  rewrite !elem_of_app, security_group_both_own_rule.
  destruct (validated_security_group uuid c) as [-> ->].
  destruct (security_group_both_other_rules (validatedRun uuid c))
    as (H1 & H2 & H3 & H4 & H5 & H6 & H7 & _).
  destruct (security_group_both_other_rules (securedRun uuid c))
    as (_ & _ & _ & _ & _ & _ & _ & H8 & _).
  destruct (security_group_both_other_rules (rangedRun uuid c))
    as (_ & _ & _ & _ & _ & _ & _ & _ & H9 & _).
  destruct (security_group_both_other_rules (shutdown_behavior (rangedRun uuid c)).1)
    as (_ & _ & _ & _ & _ & _ & _ & _ & _ & H10).
  unfold after_source_cidrs, after_security_groups in *.
  tauto.
Qed.

(** C10. A single security group id, with no list of ids, is moved into
    the list: after [Prepare] the list holds that id alone, the single id
    is cleared, and the only-one-of error is not returned. That error is
    returned only when both the id and the list were given. The
    communicator's own [Prepare] is taken not to use that message. *)
Theorem Prepare_security_group (uuid : string) (c : RunConfig Rest) :
  (forall k, err_security_group_both ∉ (comm_Prepare k).2) ->
  (SecurityGroupId c <> EmptyString -> SecurityGroupIds c = [] ->
   SecurityGroupIds (PrepareRun uuid c).1 = [SecurityGroupId c]
   /\ SecurityGroupId (PrepareRun uuid c).1 = EmptyString
   /\ (err_security_group_both ∉ (PrepareRun uuid c).2))
  /\ (err_security_group_both ∈ (PrepareRun uuid c).2 <->
      SecurityGroupId c <> EmptyString /\ SecurityGroupIds c <> []).
Proof.
  intros Hcomm. split.
  - intros Hid Hids. split_and!.
    + rewrite Prepare_parts. cbn [fst].
      unfold after_source_cidrs, after_security_groups.
      rewrite (proj2 (later_steps_security_group _)).
      unfold security_groups. destruct (validated_security_group uuid c) as [-> ->].
      apply non_empty_true in Hid. rewrite Hid, Hids. reflexivity.
    + rewrite Prepare_parts. cbn [fst].
      unfold after_source_cidrs, after_security_groups.
      rewrite (proj1 (later_steps_security_group _)).
      unfold security_groups. destruct (validated_security_group uuid c) as [-> ->].
      apply non_empty_true in Hid. rewrite Hid, Hids. reflexivity.
    + intros Hin. apply security_group_both_reported in Hin as [Hin|[_ Hin]].
      * exact (Hcomm _ Hin).
      * contradiction.
  - rewrite security_group_both_reported. split.
    + intros [Hin|Hin]; [destruct (Hcomm _ Hin) | exact Hin].
    + intros Hin. right. exact Hin.
Qed.


(** *** Every rule is evaluated *)

(** The rules that follow the communicator read the configuration as it
    was given. *)
Lemma rules_after_validation (uuid : string) (c : RunConfig Rest) :
  check_source_ami (validatedRun uuid c) = check_source_ami c
  /\ check_instance_type (validatedRun uuid c) = check_instance_type c
  /\ check_block_duration (validatedRun uuid c) = check_block_duration c
  /\ check_spot (validatedRun uuid c) = check_spot c
  /\ check_user_data Stat (validatedRun uuid c) = check_user_data Stat c
  /\ (security_groups (validatedRun uuid c)).2 = (security_groups c).2
  /\ (source_cidrs ParseCIDR (validatedRun uuid c)).2 = (source_cidrs ParseCIDR c).2
  /\ (shutdown_behavior (validatedRun uuid c)).2 = (shutdown_behavior c).2
  /\ check_t2_unlimited (validatedRun uuid c) = check_t2_unlimited c.
Proof.
  split_and!;
    unfold check_source_ami, check_instance_type, check_block_duration,
      check_spot, check_user_data, check_t2_unlimited, security_groups,
      source_cidrs, shutdown_behavior, validated, defaults;
    steps; reflexivity.
Qed.

Lemma rules_after_steps (c : RunConfig Rest) :
  (source_cidrs ParseCIDR (security_groups c).1).2 = (source_cidrs ParseCIDR c).2
  /\ (shutdown_behavior (source_cidrs ParseCIDR (security_groups c).1).1).2
     = (shutdown_behavior c).2
  /\ check_t2_unlimited
       (shutdown_behavior (source_cidrs ParseCIDR (security_groups c).1).1).1
     = check_t2_unlimited c.
Proof.
  split_and!;
    unfold check_t2_unlimited, security_groups, source_cidrs, shutdown_behavior;
    steps; reflexivity.
Qed.

Lemma rules_on_input (uuid : string) (c : RunConfig Rest) :
  check_source_ami (validatedRun uuid c) = check_source_ami c
  /\ check_instance_type (validatedRun uuid c) = check_instance_type c
  /\ check_block_duration (validatedRun uuid c) = check_block_duration c
  /\ check_spot (validatedRun uuid c) = check_spot c
  /\ check_user_data Stat (validatedRun uuid c) = check_user_data Stat c
  /\ (security_groups (validatedRun uuid c)).2 = (security_groups c).2
  /\ (source_cidrs ParseCIDR (securedRun uuid c)).2 = (source_cidrs ParseCIDR c).2
  /\ (shutdown_behavior (rangedRun uuid c)).2 = (shutdown_behavior c).2
  /\ check_t2_unlimited (shutdown_behavior (rangedRun uuid c)).1
     = check_t2_unlimited c.
Proof.
  unfold after_source_cidrs, after_security_groups.
  destruct (rules_after_steps (validatedRun uuid c)) as (-> & -> & ->).
  apply rules_after_validation.
Qed.

(** The errors of [Prepare] in terms of the configuration as given. *)
Lemma Prepare_errors (uuid : string) (c : RunConfig Rest) :
  (PrepareRun uuid c).2
  = (comm_Prepare (Comm (defaults uuid c))).2
    ++ check_ssh_interface (validatedRun uuid c)
    ++ check_ssh_keypair (validatedRun uuid c)
    ++ check_source_ami c ++ check_instance_type c ++ check_block_duration c
    ++ check_spot c ++ check_user_data Stat c
    ++ (security_groups c).2 ++ (source_cidrs ParseCIDR c).2
    ++ (shutdown_behavior c).2 ++ check_t2_unlimited c.
Proof.
  rewrite Prepare_parts. cbn [snd]. unfold checks_before.
  destruct (rules_on_input uuid c)
    as (-> & -> & -> & -> & -> & -> & -> & -> & ->).
  rewrite <- !app_assoc. reflexivity.
Qed.


(** *** Every rule, each once *)

(** The communicator that [Prepare] hands to the communicator's own
    [Prepare]: the given one, with a temporary key pair named when none
    of the key material is given. *)
Lemma defaults_Comm (uuid : string) (c : RunConfig Rest) :
  Comm (defaults uuid c)
  = if needs_temporary_key_pair (Comm c)
    then communicator.set_SSHTemporaryKeyPairName ("packer_" +:+ uuid) (Comm c)
    else Comm c.
Proof.
  unfold defaults.
  destruct (needs_temporary_key_pair (Comm c)); fields;
    destruct (WindowsPasswordTimeout c =? 0); fields;
    destruct (RunTags c); reflexivity.
Qed.

Lemma validated_Comm (uuid : string) (c : RunConfig Rest) :
  Comm (validatedRun uuid c) = (comm_Prepare (Comm (defaults uuid c))).1.
Proof. unfold validated. fields. reflexivity. Qed.

Lemma check_ssh_interface_rules (c : RunConfig Rest) :
  check_ssh_interface c
  = packer.violations
      [ (negb (String.eqb (communicator.SSHInterface (Comm c)) "public_ip")
         && negb (String.eqb (communicator.SSHInterface (Comm c)) "private_ip")
         && negb (String.eqb (communicator.SSHInterface (Comm c)) "public_dns")
         && negb (String.eqb (communicator.SSHInterface (Comm c)) "private_dns")
         && non_empty (communicator.SSHInterface (Comm c)),
         err_unknown_interface (communicator.SSHInterface (Comm c))) ].
Proof.
  unfold check_ssh_interface, packer.violations. cbn [flat_map fst snd].
  rewrite app_nil_r. reflexivity.
Qed.

Lemma check_ssh_keypair_rules (c : RunConfig Rest) :
  check_ssh_keypair c
  = packer.violations
      [ (non_empty (communicator.SSHKeyPairName (Comm c))
         && (String.eqb (communicator.Type_ (Comm c)) "winrm"
             && is_empty (communicator.WinRMPassword (Comm c))
             && is_empty (communicator.SSHPrivateKeyFile (Comm c))),
         err_winrm_private_key);
        (non_empty (communicator.SSHKeyPairName (Comm c))
         && negb (String.eqb (communicator.Type_ (Comm c)) "winrm"
                  && is_empty (communicator.WinRMPassword (Comm c))
                  && is_empty (communicator.SSHPrivateKeyFile (Comm c)))
         && (is_empty (communicator.SSHPrivateKeyFile (Comm c))
             && negb (communicator.SSHAgentAuth (Comm c))),
         err_keypair_private_key) ].
Proof.
  unfold check_ssh_keypair, packer.violations. cbn [flat_map fst snd].
  destruct (non_empty (communicator.SSHKeyPairName (Comm c)));
    cbn [andb app]; [|reflexivity].
  destruct (String.eqb (communicator.Type_ (Comm c)) "winrm"
            && is_empty (communicator.WinRMPassword (Comm c))
            && is_empty (communicator.SSHPrivateKeyFile (Comm c)));
    cbn [negb andb app]; [reflexivity|].
  rewrite app_nil_r. reflexivity.
Qed.

Lemma check_source_ami_rules (c : RunConfig Rest) :
  check_source_ami c
  = packer.violations
      [ (is_empty (SourceAmi c) && AmiFilterOptions.Empty (SourceAmiFilter c),
         err_source_ami_required);
        (is_empty (SourceAmi c) && AmiFilterOptions.NoOwner (SourceAmiFilter c),
         err_source_ami_owner) ].
Proof.
  unfold check_source_ami, packer.violations. cbn [flat_map fst snd].
  rewrite app_nil_r. reflexivity.
Qed.

Lemma check_instance_type_rules (c : RunConfig Rest) :
  check_instance_type c
  = packer.violations
      [ (is_empty (InstanceType c) && (length (SpotInstanceTypes c) =? 0)%nat,
         err_instance_type_required);
        (non_empty (InstanceType c) && (0 <? length (SpotInstanceTypes c))%nat,
         err_instance_type_both) ].
Proof.
  unfold check_instance_type, packer.violations. cbn [flat_map fst snd].
  rewrite app_nil_r. reflexivity.
Qed.

Lemma check_block_duration_rules (c : RunConfig Rest) :
  check_block_duration c
  = packer.violations
      [ (negb (Z.rem (BlockDurationMinutes c) 60 =? 0), err_block_duration) ].
Proof.
  unfold check_block_duration, packer.violations. cbn [flat_map fst snd].
  rewrite app_nil_r. reflexivity.
Qed.

Lemma check_spot_rules (c : RunConfig Rest) :
  check_spot c
  = packer.violations
      [ (String.eqb (SpotPrice c) "auto" && is_empty (SpotPriceAutoProduct c),
         err_spot_auto_product);
        (non_empty (SpotPriceAutoProduct c)
         && negb (String.eqb (SpotPrice c) "auto"),
         err_spot_price_auto);
        (bool_decide (SpotTags c <> None)
         && (is_empty (SpotPrice c) || String.eqb (SpotPrice c) "0"),
         err_spot_tags) ].
Proof.
  unfold check_spot, packer.violations. cbn [flat_map fst snd].
  rewrite app_nil_r.
  destruct (String.eqb (SpotPrice c) "auto"),
    (non_empty (SpotPriceAutoProduct c)), (SpotTags c);
    case_bool_decide; try congruence; cbn [andb negb]; reflexivity.
Qed.

Lemma check_user_data_rules (c : RunConfig Rest) :
  check_user_data Stat c
  = packer.violations
      [ (non_empty (UserData c) && non_empty (UserDataFile c),
         err_user_data_both);
        (negb (non_empty (UserData c) && non_empty (UserDataFile c))
         && non_empty (UserDataFile c)
         && bool_decide (Stat (UserDataFile c) <> None),
         err_user_data_file (UserDataFile c)) ].
Proof.
  unfold check_user_data, packer.violations. cbn [flat_map fst snd].
  rewrite app_nil_r.
  destruct (non_empty (UserData c) && non_empty (UserDataFile c));
    cbn [negb andb app]; [reflexivity|].
  destruct (non_empty (UserDataFile c)); cbn [andb]; [|reflexivity].
  destruct (Stat (UserDataFile c)); case_bool_decide; congruence.
Qed.

Lemma security_groups_rules (c : RunConfig Rest) :
  (security_groups c).2
  = packer.violations
      [ (non_empty (SecurityGroupId c) && (0 <? length (SecurityGroupIds c))%nat,
         err_security_group_both) ].
Proof.
  unfold security_groups, packer.violations. cbn [flat_map fst snd].
  destruct (non_empty (SecurityGroupId c)); cbn [andb snd]; [|reflexivity].
  destruct (0 <? length (SecurityGroupIds c))%nat; reflexivity.
Qed.

Lemma source_cidrs_rules (c : RunConfig Rest) :
  (source_cidrs ParseCIDR c).2
  = omap (fun cidr => err_cidr <$> ParseCIDR cidr) (TemporarySGSourceCidrs c).
Proof.
  unfold source_cidrs.
  destruct (TemporarySGSourceCidrs c) as [|cidr cidrs] eqn:Hcidrs;
    cbn [length Nat.eqb snd]; [reflexivity|].
  apply check_cidrs_omap.
Qed.

Lemma shutdown_behavior_rules (c : RunConfig Rest) :
  (shutdown_behavior c).2
  = packer.violations
      [ (negb (is_empty (InstanceInitiatedShutdownBehavior c))
         && negb (reShutdownBehavior_MatchString
                    (InstanceInitiatedShutdownBehavior c)),
         err_shutdown_behavior) ].
Proof.
  unfold shutdown_behavior, packer.violations. cbn [flat_map fst snd].
  destruct (is_empty (InstanceInitiatedShutdownBehavior c));
    cbn [negb andb snd]; [reflexivity|].
  destruct (reShutdownBehavior_MatchString (InstanceInitiatedShutdownBehavior c));
    reflexivity.
Qed.

Lemma check_t2_unlimited_rules (c : RunConfig Rest) :
  check_t2_unlimited c
  = packer.violations
      [ (EnableT2Unlimited c && non_empty (SpotPrice c), err_t2_spot);
        (EnableT2Unlimited c
         && bool_decide (String.index 0 "." (InstanceType c) = None),
         err_t2_no_family (InstanceType c));
        (EnableT2Unlimited c
         && match String.index 0 "." (InstanceType c) with
            | Some firstDotIndex =>
                negb (String.eqb
                        (String.substring 0 firstDotIndex (InstanceType c)) "t2")
            | None => false
            end,
         err_t2_family (InstanceType c)) ].
Proof.
  unfold check_t2_unlimited, packer.violations. cbn [flat_map fst snd].
  destruct (EnableT2Unlimited c); cbn [andb app]; [|reflexivity].
  destruct (String.index 0 "." (InstanceType c)) as [firstDotIndex|];
    case_bool_decide; try congruence; cbn [app].
  - rewrite app_nil_r. reflexivity.
  - reflexivity.
Qed.

Lemma invalid_devices (label : string) (ds : list BlockDev.BlockDevice) :
  length (omap (fun d => BlockDev.attributed label <$> BlockDev.Prepare_device d) ds)
  = length (filter (fun d => is_Some (BlockDev.Prepare_device d)) ds).
Proof.
  induction ds as [|d ds IH]; [reflexivity|].
  rewrite filter_cons. simpl.
  destruct (BlockDev.Prepare_device d); simpl.
  - destruct (decide (is_Some (Some e))) as [_|H]; [simpl; f_equal; exact IH | destruct H; eauto].
  - destruct (decide (is_Some (@None error))) as [[x H]|_]; [discriminate | exact IH].
Qed.


(** C2, as amended. [RunConfig.Prepare] returns exactly the errors of
    the communicator followed by one error for each of its nineteen rules
    whose condition holds, in the order of the source and each once: no
    rule is left out because another one fired. The conditions are read
    on the configuration as given, and on the communicator as its own
    [Prepare] left it. Three rules sit in an else branch and are
    evaluated only when the rule in front of them did not fire: the key
    pair rule behind the winrm rule, the user data file rule behind the
    rule on both user data fields, and the T2 family rule behind the rule
    on a type without a family. The rule on the source ranges gives one
    error for every range that does not parse. [BlockDevices.Prepare]
    visits every device of both lists and returns, in order, one
    attributed error for each device that fails. [BlockDevice.Prepare],
    which returns a single error, reports the first rule a device breaks:
    the name rule, and the key rule only for a named device. *)
Theorem Prepare_evaluates_every_rule (uuid : string) (c : RunConfig Rest)
    (b : BlockDev.BlockDevices) (d : BlockDev.BlockDevice) :
  let given :=
    if needs_temporary_key_pair (Comm c)
    then communicator.set_SSHTemporaryKeyPairName ("packer_" +:+ uuid) (Comm c)
    else Comm c in
  let k := (comm_Prepare given).1 in
  let winrm :=
    String.eqb (communicator.Type_ k) "winrm"
    && is_empty (communicator.WinRMPassword k)
    && is_empty (communicator.SSHPrivateKeyFile k) in
  let both_user_data := non_empty (UserData c) && non_empty (UserDataFile c) in
  (PrepareRun uuid c).2
  = (comm_Prepare given).2
    ++ packer.violations
         [ (negb (String.eqb (communicator.SSHInterface k) "public_ip")
            && negb (String.eqb (communicator.SSHInterface k) "private_ip")
            && negb (String.eqb (communicator.SSHInterface k) "public_dns")
            && negb (String.eqb (communicator.SSHInterface k) "private_dns")
            && non_empty (communicator.SSHInterface k),
            err_unknown_interface (communicator.SSHInterface k));
           (non_empty (communicator.SSHKeyPairName k) && winrm,
            err_winrm_private_key);
           (non_empty (communicator.SSHKeyPairName k) && negb winrm
            && (is_empty (communicator.SSHPrivateKeyFile k)
                && negb (communicator.SSHAgentAuth k)),
            err_keypair_private_key);
           (is_empty (SourceAmi c) && AmiFilterOptions.Empty (SourceAmiFilter c),
            err_source_ami_required);
           (is_empty (SourceAmi c) && AmiFilterOptions.NoOwner (SourceAmiFilter c),
            err_source_ami_owner);
           (is_empty (InstanceType c) && (length (SpotInstanceTypes c) =? 0)%nat,
            err_instance_type_required);
           (non_empty (InstanceType c) && (0 <? length (SpotInstanceTypes c))%nat,
            err_instance_type_both);
           (negb (Z.rem (BlockDurationMinutes c) 60 =? 0), err_block_duration);
           (String.eqb (SpotPrice c) "auto" && is_empty (SpotPriceAutoProduct c),
            err_spot_auto_product);
           (non_empty (SpotPriceAutoProduct c)
            && negb (String.eqb (SpotPrice c) "auto"),
            err_spot_price_auto);
           (bool_decide (SpotTags c <> None)
            && (is_empty (SpotPrice c) || String.eqb (SpotPrice c) "0"),
            err_spot_tags);
           (both_user_data, err_user_data_both);
           (negb both_user_data && non_empty (UserDataFile c)
            && bool_decide (Stat (UserDataFile c) <> None),
            err_user_data_file (UserDataFile c));
           (non_empty (SecurityGroupId c)
            && (0 <? length (SecurityGroupIds c))%nat,
            err_security_group_both) ]
    ++ omap (fun cidr => err_cidr <$> ParseCIDR cidr) (TemporarySGSourceCidrs c)
    ++ packer.violations
         [ (negb (is_empty (InstanceInitiatedShutdownBehavior c))
            && negb (reShutdownBehavior_MatchString
                       (InstanceInitiatedShutdownBehavior c)),
            err_shutdown_behavior);
           (EnableT2Unlimited c && non_empty (SpotPrice c), err_t2_spot);
           (EnableT2Unlimited c
            && bool_decide (String.index 0 "." (InstanceType c) = None),
            err_t2_no_family (InstanceType c));
           (EnableT2Unlimited c
            && match String.index 0 "." (InstanceType c) with
               | Some firstDotIndex =>
                   negb (String.eqb
                           (String.substring 0 firstDotIndex (InstanceType c))
                           "t2")
               | None => false
               end,
            err_t2_family (InstanceType c)) ]
  /\ BlockDev.Prepare b
     = omap (fun d => BlockDev.attributed "AMIMapping"
                        <$> BlockDev.Prepare_device d)
         (BlockDev.AMIMappings b)
       ++ omap (fun d => BlockDev.attributed "LaunchMapping"
                           <$> BlockDev.Prepare_device d)
            (BlockDev.LaunchMappings b)
  /\ length (BlockDev.Prepare b)
     = length (filter (fun d => is_Some (BlockDev.Prepare_device d))
                 (BlockDev.AMIMappings b ++ BlockDev.LaunchMappings b))
  /\ (BlockDev.DeviceName d = EmptyString ->
      BlockDev.Prepare_device d = Some BlockDev.err_device_name)
  /\ (BlockDev.DeviceName d <> EmptyString ->
      BlockDev.kms_without_encryption d = true ->
      BlockDev.Prepare_device d = Some (BlockDev.err_kms_key d))
  /\ (BlockDev.DeviceName d <> EmptyString ->
      BlockDev.kms_without_encryption d = false ->
      BlockDev.Prepare_device d = None).
Proof.
  cbv zeta. rewrite <- (defaults_Comm uuid c), <- (validated_Comm uuid c).
  assert (BlockDev.Prepare b
          = omap (fun d => BlockDev.attributed "AMIMapping"
                             <$> BlockDev.Prepare_device d)
              (BlockDev.AMIMappings b)
            ++ omap (fun d => BlockDev.attributed "LaunchMapping"
                                <$> BlockDev.Prepare_device d)
                 (BlockDev.LaunchMappings b)) as Hdevices.
  { unfold BlockDev.Prepare. rewrite !BlockDevFacts.Prepare_mappings_omap.
    reflexivity. }
  split_and!.
  - rewrite Prepare_errors.
    rewrite check_ssh_interface_rules, check_ssh_keypair_rules,
      check_source_ami_rules, check_instance_type_rules,
      check_block_duration_rules, check_spot_rules, check_user_data_rules,
      security_groups_rules, source_cidrs_rules, shutdown_behavior_rules,
      check_t2_unlimited_rules.
    unfold packer.violations. cbn [flat_map fst snd].
    rewrite <- !app_assoc. cbn [app]. reflexivity.
  - exact Hdevices.
  - rewrite Hdevices, length_app, !invalid_devices, filter_app, length_app.
    reflexivity.
  - intros H. unfold BlockDev.Prepare_device. rewrite H. reflexivity.
  - intros H1 H2. apply is_empty_false in H1. unfold BlockDev.Prepare_device.
    rewrite H1, H2. reflexivity.
  - intros H1 H2. apply is_empty_false in H1. unfold BlockDev.Prepare_device.
    rewrite H1, H2. reflexivity.
Qed.

(** *** A second run *)

Lemma set_Comm_same (c : RunConfig Rest) : set_Comm (Comm c) c = c.
Proof. destruct c. reflexivity. Qed.

(** A configuration that needs no default and breaks no rule is left as
    it is, without an error. *)
Lemma Prepare_fixed_point (uuid : string) (c : RunConfig Rest) :
  needs_temporary_key_pair (Comm c) = false ->
  (WindowsPasswordTimeout c =? 0) = false ->
  RunTags c <> None ->
  comm_Prepare (Comm c) = (Comm c, []) ->
  checks_before Stat c = [] ->
  SecurityGroupId c = EmptyString ->
  (length (TemporarySGSourceCidrs c) =? 0)%nat = false ->
  check_cidrs ParseCIDR (TemporarySGSourceCidrs c) = [] ->
  is_empty (InstanceInitiatedShutdownBehavior c) = false ->
  reShutdownBehavior_MatchString (InstanceInitiatedShutdownBehavior c) = true ->
  check_t2_unlimited c = [] ->
  PrepareRun uuid c = (c, []).
Proof.
  intros Hkey Htimeout Htags Hcomm Hchecks Hsg Hlen Hcidrs Hempty Hmatch Ht2.
  assert (defaults uuid c = c) as Hdefaults.
  { unfold defaults. rewrite Hkey, Htimeout. destruct (RunTags c); congruence. }
  assert (security_groups c = (c, [])) as Hgroups.
  { unfold security_groups. rewrite Hsg. reflexivity. }
  assert (source_cidrs ParseCIDR c = (c, [])) as Hranges.
  { unfold source_cidrs. rewrite Hlen, Hcidrs. reflexivity. }
  assert (shutdown_behavior c = (c, [])) as Hshutdown.
  { unfold shutdown_behavior. rewrite Hempty, Hmatch. reflexivity. }
  rewrite Prepare_parts.
  unfold after_source_cidrs, after_security_groups, validated.
  rewrite Hdefaults, Hcomm. cbn [fst snd]. rewrite set_Comm_same.
  rewrite Hgroups. cbn [fst snd]. rewrite Hranges. cbn [fst snd].
  rewrite Hshutdown. cbn [fst snd]. rewrite Hchecks, Ht2. reflexivity.
Qed.

Lemma defaults_done (uuid : string) (c : RunConfig Rest) :
  needs_temporary_key_pair (Comm (defaults uuid c)) = false
  /\ (WindowsPasswordTimeout (defaults uuid c) =? 0) = false
  /\ RunTags (defaults uuid c) <> None.
Proof.
  unfold defaults. split_and!.
  - destruct (needs_temporary_key_pair (Comm c)) eqn:Hkey; fields;
      destruct (WindowsPasswordTimeout c =? 0); fields;
      destruct (RunTags c); fields; try exact Hkey;
      unfold needs_temporary_key_pair; cbn;
      destruct (is_empty (communicator.SSHKeyPairName (Comm c))); reflexivity.
  - destruct (needs_temporary_key_pair (Comm c)); fields;
      destruct (WindowsPasswordTimeout c =? 0) eqn:Htimeout; fields;
      destruct (RunTags c); fields; first [exact Htimeout | reflexivity].
  - destruct (needs_temporary_key_pair (Comm c)); fields;
      destruct (WindowsPasswordTimeout c =? 0); fields;
      destruct (RunTags c) eqn:Htags; fields; rewrite ?Htags; discriminate.
Qed.

(** The three steps after the rules keep the frame of the configuration. *)
Lemma steps_frame (c : RunConfig Rest) :
  frame (shutdown_behavior (source_cidrs ParseCIDR (security_groups c).1).1).1
  = frame c.
Proof.
  unfold frame, security_groups, source_cidrs, shutdown_behavior.
  steps; reflexivity.
Qed.

Lemma frame_reads (c : RunConfig Rest) :
  Comm (frame c) = Comm c
  /\ WindowsPasswordTimeout (frame c) = WindowsPasswordTimeout c
  /\ RunTags (frame c) = RunTags c
  /\ checks_before Stat (frame c) = checks_before Stat c
  /\ check_t2_unlimited (frame c) = check_t2_unlimited c.
Proof. split_and!; reflexivity. Qed.

Lemma security_groups_done (c : RunConfig Rest) :
  (security_groups c).2 = [] ->
  SecurityGroupId (security_groups c).1 = EmptyString.
Proof.
  unfold security_groups.
  destruct (SecurityGroupId c) as [|a s] eqn:Hid; cbn [non_empty is_empty negb].
  - intros _. exact Hid.
  - destruct (0 <? length (SecurityGroupIds c))%nat; [discriminate | reflexivity].
Qed.

Lemma source_cidrs_done (c : RunConfig Rest) :
  ParseCIDR "0.0.0.0/0" = None ->
  (source_cidrs ParseCIDR c).2 = [] ->
  (length (TemporarySGSourceCidrs (source_cidrs ParseCIDR c).1) =? 0)%nat = false
  /\ check_cidrs ParseCIDR (TemporarySGSourceCidrs (source_cidrs ParseCIDR c).1) = [].
Proof.
  intros Hany. unfold source_cidrs.
  destruct (length (TemporarySGSourceCidrs c) =? 0)%nat eqn:Hlen; cbn [fst snd].
  - intros _. fields. split; [reflexivity|].
    unfold check_cidrs. cbn [fold_left]. rewrite Hany. reflexivity.
  - intros Herrs. split; assumption.
Qed.

Lemma shutdown_behavior_done (c : RunConfig Rest) :
  (shutdown_behavior c).2 = [] ->
  is_empty (InstanceInitiatedShutdownBehavior (shutdown_behavior c).1) = false
  /\ reShutdownBehavior_MatchString
       (InstanceInitiatedShutdownBehavior (shutdown_behavior c).1) = true.
Proof.
  unfold shutdown_behavior.
  destruct (is_empty (InstanceInitiatedShutdownBehavior c)) eqn:Hempty; cbn [fst snd].
  - intros _. fields. split; reflexivity.
  - destruct (reShutdownBehavior_MatchString (InstanceInitiatedShutdownBehavior c))
      eqn:Hmatch; cbn [fst snd negb]; [|discriminate].
    intros _. split; assumption.
Qed.

Lemma later_steps_fields (c : RunConfig Rest) :
  SecurityGroupId (shutdown_behavior (source_cidrs ParseCIDR c).1).1
  = SecurityGroupId (source_cidrs ParseCIDR c).1
  /\ SecurityGroupId (source_cidrs ParseCIDR c).1 = SecurityGroupId c
  /\ TemporarySGSourceCidrs (shutdown_behavior c).1 = TemporarySGSourceCidrs c.
Proof. split_and!; untouched. Qed.

(** An error-free run of [RunConfig.Prepare] leaves a configuration on
    which a second run changes nothing and finds nothing. *)
Lemma Prepare_twice (uuid uuid' : string) (c c' : RunConfig Rest) :
  (forall k k', comm_Prepare k = (k', []) -> comm_Prepare k' = (k', [])) ->
  (forall k, needs_temporary_key_pair k = false ->
             needs_temporary_key_pair (comm_Prepare k).1 = false) ->
  ParseCIDR "0.0.0.0/0" = None ->
  PrepareRun uuid c = (c', []) -> PrepareRun uuid' c' = (c', []).
Proof.
  intros Hidem Hkeys Hany Hrun.
  rewrite Prepare_parts in Hrun. injection Hrun as Hc' Herrs.
  repeat (apply app_eq_nil in Herrs as [? Herrs]).
  unfold after_source_cidrs, after_security_groups, validated in *.
  set (d := defaults uuid c) in *.
  set (v := set_Comm (comm_Prepare (Comm d)).1 d) in *.
  set (s1 := (security_groups v).1) in *.
  set (s2 := (source_cidrs ParseCIDR s1).1) in *.
  destruct (defaults_done uuid c) as (Hkey & Htimeout & Htags). fold d in Hkey, Htimeout, Htags.
  pose proof (steps_frame v) as Hframe. fold s1 s2 in Hframe. rewrite Hc' in Hframe.
  destruct (frame_reads c') as (Hcomm' & Htimeout' & Htags' & Hchecks' & Ht2').
  destruct (frame_reads v) as (Hcommv & Htimeoutv & Htagsv & Hchecksv & Ht2v).
  rewrite Hframe in Hcomm', Htimeout', Htags', Hchecks', Ht2'.
  assert (Comm c' = (comm_Prepare (Comm d)).1) as Hcomm.
  { rewrite <- Hcomm', Hcommv. reflexivity. }
  destruct (source_cidrs_done s1 Hany) as [Hlen Hcidrs]; [assumption|]. fold s2 in Hlen, Hcidrs.
  destruct (shutdown_behavior_done s2) as [Hempty Hmatch]; [assumption|].
  rewrite Hc' in Hempty, Hmatch.
  destruct (later_steps_fields s1) as (Hid3 & Hid2 & _). fold s2 in Hid3, Hid2.
  destruct (later_steps_fields s2) as (_ & _ & Hranges). rewrite Hc' in Hid3, Hranges.
  apply Prepare_fixed_point.
  - rewrite Hcomm. apply Hkeys. exact Hkey.
  - rewrite <- Htimeout', Htimeoutv. exact Htimeout.
  - rewrite <- Htags', Htagsv. exact Htags.
  - rewrite Hcomm. apply (Hidem (Comm d)).
    destruct (comm_Prepare (Comm d)) as [k errs] eqn:E. cbn [fst snd] in *.
    congruence.
  - rewrite <- Hchecks', Hchecksv. assumption.
  - rewrite Hid3, Hid2. apply security_groups_done. assumption.
  - rewrite Hranges. exact Hlen.
  - rewrite Hranges. exact Hcidrs.
  - exact Hempty.
  - exact Hmatch.
  - rewrite <- Hc'. assumption.
Qed.

(** [ShutdownConfig.Prepare] gives on its own result the result again. *)
Lemma Shutdown_Prepare_twice (ParseDuration : string -> Z * option error)
    (s s' : Shutdown.ShutdownConfig) (errs : list error) :
  Shutdown.Prepare ParseDuration s = (s', errs) ->
  Shutdown.Prepare ParseDuration s' = (s', errs).
Proof.
  unfold Shutdown.Prepare. intros H.
  set (raw := if is_empty (Shutdown.RawShutdownTimeout s)
              then "5m" else Shutdown.RawShutdownTimeout s) in *.
  assert (is_empty raw = false) as Hraw.
  { subst raw. destruct (is_empty (Shutdown.RawShutdownTimeout s)) eqn:E;
      [reflexivity | exact E]. }
  destruct (ParseDuration raw) as [dur err] eqn:Hparse.
  injection H as <- <-. cbn [Shutdown.RawShutdownTimeout Shutdown.ShutdownCommand].
  rewrite Hraw, Hparse. reflexivity.
Qed.

(** C8. Resolution is idempotent. When [RunConfig.Prepare] returned no
    error, running it again on the configuration it left changes no field
    and returns no error; the same holds for [ShutdownConfig.Prepare].
    The communicator's own [Prepare] is taken to be idempotent in the same
    sense and to keep the key material it was given, and the default
    source range is taken to parse. *)
Theorem Prepare_idempotent (ParseDuration : string -> Z * option error)
    (uuid uuid' : string) (c c' : RunConfig Rest)
    (s s' : Shutdown.ShutdownConfig) :
  (forall k k', comm_Prepare k = (k', []) -> comm_Prepare k' = (k', [])) ->
  (forall k, needs_temporary_key_pair k = false ->
             needs_temporary_key_pair (comm_Prepare k).1 = false) ->
  ParseCIDR "0.0.0.0/0" = None ->
  (PrepareRun uuid c = (c', []) -> PrepareRun uuid' c' = (c', []))
  /\ (Shutdown.Prepare ParseDuration s = (s', []) ->
      Shutdown.Prepare ParseDuration s' = (s', [])).
Proof.
  intros Hidem Hkeys Hany. split.
  - apply Prepare_twice; assumption.
  - apply Shutdown_Prepare_twice.
Qed.

End Facts.
(** *** The rules on the example configurations *)

(** The example communicator reports nothing but a missing user name. *)
Lemma example_comm_reports (m : error) (k : communicator.Config string) :
  m <> "An ssh_username must be specified" -> m ∉ (Examples.comm_Prepare k).2.
Proof.
  intros Hm. unfold Examples.comm_Prepare. cbn [snd].
  destruct (is_empty (communicator.rest _)).
  - intros H. apply list_elem_of_singleton in H. contradiction.
  - apply not_elem_of_nil.
Qed.

Lemma example_comm_idempotent (k k' : communicator.Config string) :
  Examples.comm_Prepare k = (k', []) -> Examples.comm_Prepare k' = (k', []).
Proof.
  unfold Examples.comm_Prepare.
  destruct (is_empty (communicator.Type_ k)) eqn:Htype.
  - cbn [communicator.rest]. intros H. injection H as <- Hrest.
    cbn [communicator.Type_ communicator.rest is_empty]. rewrite Hrest. reflexivity.
  - intros H. injection H as <- Hrest. rewrite Htype, Hrest. reflexivity.
Qed.

Lemma example_comm_keeps_keys (k : communicator.Config string) :
  needs_temporary_key_pair k = false ->
  needs_temporary_key_pair (Examples.comm_Prepare k).1 = false.
Proof.
  unfold Examples.comm_Prepare. cbn [fst].
  destruct (is_empty (communicator.Type_ k)); intros H; exact H.
Qed.

(** C1, as stated, fails: a configuration with both a source image and a
    filter passes [RunConfig.Prepare] without any error, so without an
    error about the two being given together. *)
Lemma Prepare_accepts_both_sources :
  SourceAmi Examples.run_with_both <> EmptyString
  /\ AmiFilterOptions.Empty (SourceAmiFilter Examples.run_with_both) = false
  /\ (Prepare Examples.comm_Prepare Examples.Stat Examples.ParseCIDR "1"
        Examples.run_with_both).2 = [].
Proof. split_and!; [discriminate | reflexivity | vm_compute; reflexivity]. Qed.

Lemma Prepare_source_ami_witness :
  (Prepare Examples.comm_Prepare Examples.Stat Examples.ParseCIDR "1"
     (set_SourceAmiFilter Examples.owned_filter Examples.run)).2
  = (Prepare Examples.comm_Prepare Examples.Stat Examples.ParseCIDR "1"
       Examples.run).2.
Proof.
  apply (Prepare_source_ami Examples.comm_Prepare Examples.Stat Examples.ParseCIDR
           "1" Examples.run).
  - intros k. apply example_comm_reports. discriminate.
  - discriminate.
Defined.

Lemma Prepare_block_duration_witness :
  count_msg err_block_duration
    (Prepare Examples.comm_Prepare Examples.Stat Examples.ParseCIDR "1"
       Examples.run_90).2 = 1%nat
  /\ count_msg err_block_duration
       (Prepare Examples.comm_Prepare Examples.Stat Examples.ParseCIDR "1"
          Examples.run).2 = 0%nat.
Proof.
  assert (forall k, count_msg err_block_duration (Examples.comm_Prepare k).2 = 0%nat)
    as Hcomm.
  { intros k. apply count_msg_zero, example_comm_reports. discriminate. }
  split.
  - apply (Prepare_block_duration Examples.comm_Prepare Examples.Stat
             Examples.ParseCIDR "1" Examples.run_90 Hcomm). reflexivity.
  - apply (Prepare_block_duration Examples.comm_Prepare Examples.Stat
             Examples.ParseCIDR "1" Examples.run Hcomm). reflexivity.
Defined.

Lemma Prepare_security_group_witness :
  SecurityGroupIds
    (Prepare Examples.comm_Prepare Examples.Stat Examples.ParseCIDR "1"
       Examples.run).1 = ["sg-1"]
  /\ SecurityGroupId
       (Prepare Examples.comm_Prepare Examples.Stat Examples.ParseCIDR "1"
          Examples.run).1 = EmptyString
  /\ (err_security_group_both
      ∉ (Prepare Examples.comm_Prepare Examples.Stat Examples.ParseCIDR "1"
           Examples.run).2).
Proof.
  apply (Prepare_security_group Examples.comm_Prepare Examples.Stat
           Examples.ParseCIDR "1" Examples.run).
  - intros k. apply example_comm_reports. discriminate.
  - discriminate.
  - reflexivity.
Defined.

(** C2, as stated, fails: a device without a name, with a key and with
    encryption switched off breaks both rules of [BlockDevice.Prepare],
    and [BlockDevices.Prepare] returns the error of the first rule only. *)
Lemma Prepare_device_stops_at_first_rule :
  BlockDev.DeviceName Examples.unnamed_keyed_device = EmptyString
  /\ BlockDev.kms_without_encryption Examples.unnamed_keyed_device = true
  /\ BlockDev.Prepare
       {| BlockDev.AMIMappings := [Examples.unnamed_keyed_device];
          BlockDev.LaunchMappings := [] |}
     = [BlockDev.attributed "AMIMapping" BlockDev.err_device_name].
Proof. split_and!; reflexivity. Qed.

Lemma Prepare_evaluates_every_rule_witness :
  (Prepare Examples.comm_Prepare Examples.Stat Examples.ParseCIDR "1"
     Examples.run_two_violations).2
  = [err_instance_type_required; err_block_duration;
     err_t2_no_family EmptyString].
Proof.
  rewrite (proj1 (Prepare_evaluates_every_rule Examples.comm_Prepare
                    Examples.Stat Examples.ParseCIDR "1"
                    Examples.run_two_violations
                    {| BlockDev.AMIMappings := []; BlockDev.LaunchMappings := [] |}
                    Examples.data_volume)).
  vm_compute. reflexivity.
Defined.

Lemma Prepare_idempotent_witness :
  Prepare Examples.comm_Prepare Examples.Stat Examples.ParseCIDR "2"
    (Prepare Examples.comm_Prepare Examples.Stat Examples.ParseCIDR "1"
       Examples.run).1
  = ((Prepare Examples.comm_Prepare Examples.Stat Examples.ParseCIDR "1"
        Examples.run).1, [])
  /\ Shutdown.Prepare Examples.ParseDuration
       (Shutdown.Prepare Examples.ParseDuration Examples.shutdown).1
     = ((Shutdown.Prepare Examples.ParseDuration Examples.shutdown).1, []).
Proof.
  destruct (Prepare_idempotent Examples.comm_Prepare Examples.Stat
              Examples.ParseCIDR Examples.ParseDuration "1" "2" Examples.run
              (Prepare Examples.comm_Prepare Examples.Stat Examples.ParseCIDR "1"
                 Examples.run).1
              Examples.shutdown
              (Shutdown.Prepare Examples.ParseDuration Examples.shutdown).1
              example_comm_idempotent example_comm_keeps_keys eq_refl)
    as [Hrun Hshutdown].
  split.
  - apply Hrun. vm_compute. reflexivity.
  - apply Hshutdown. reflexivity.
Defined.

End RunFacts.

(** ** The VirtualBox OVF builder *)
Module OvfFacts.

Import Ovf.

(** A pointer is live in a store when it is nil or the address of an
    object of the store. [MultiErrorAppend] returns a live pointer to an
    object that holds the errors so far and the new ones. *)
Lemma MultiErrorAppend_live (h h' : packer.store) (p p' : option nat)
    (errs : list error) :
  (forall a, p = Some a -> (a < length h)%nat) ->
  packer.MultiErrorAppend h p errs = (h', p') ->
  exists a, p' = Some a /\ (a < length h')%nat
            /\ packer.Errors h' p' = packer.Errors h p ++ errs
            /\ (forall b, p = Some b -> b = a).
Proof.
  intros Hlive H. unfold packer.MultiErrorAppend in H.
  unfold packer.store, packer.MultiError in *.
  destruct p as [a|]; injection H as <- <-.
  - specialize (Hlive a eq_refl). exists a.
    rewrite length_alter. split_and!; [reflexivity | exact Hlive | | congruence].
    unfold packer.Errors, packer.store, packer.MultiError.
    rewrite list_lookup_alter.
    destruct (lookup_lt_is_Some_2 h a Hlive) as [es Hes].
    rewrite Hes. destruct (decide (a = a)); [reflexivity | congruence].
  - exists (length h). rewrite length_app. simpl.
    split_and!; [reflexivity | lia | | discriminate].
    unfold packer.Errors, packer.store, packer.MultiError.
    rewrite lookup_app_r by lia.
    rewrite Nat.sub_diag. reflexivity.
Qed.

Section Facts.

Context {Raw Embedded : Type}.
Variable env : Collaborators Raw Embedded.

(** After the [Prepare] calls of the embedded configurations the
    accumulator exists, whether or not any of them failed. *)
Lemma prepares_allocate (ps : list (Embedded -> Embedded * list error))
    (e : Embedded) (h : packer.store) (p : option nat) :
  (forall a, p = Some a -> (a < length h)%nat) ->
  (ps <> [] \/ is_Some p) ->
  exists e' h' a,
    fold_left prepare_embedded ps (e, h, p) = (e', h', Some a)
    /\ (a < length h')%nat.
Proof.
  revert e h p. induction ps as [|f ps IH]; intros e h p Hlive Hsome.
  - destruct Hsome as [H|[a ->]]; [congruence|].
    exists e, h, a. split; [reflexivity | apply Hlive; reflexivity].
  - cbn [fold_left]. unfold prepare_embedded at 2.
    destruct (f e) as [e1 es].
    destruct (packer.MultiErrorAppend h p es) as [h1 p1] eqn:Happend.
    destruct (MultiErrorAppend_live h h1 p p1 es Hlive Happend)
      as (a & -> & Ha & _).
    apply IH.
    + intros b Hb. injection Hb as <-. exact Ha.
    + right. eauto.
Qed.

Lemma MultiErrorAppend_shared (h : packer.store) (a : nat) (errs : list error) :
  (a < length h)%nat ->
  exists h',
    packer.MultiErrorAppend h (Some a) errs = (h', Some a)
    /\ (a < length h')%nat
    /\ packer.Errors h' (Some a) = packer.Errors h (Some a) ++ errs.
Proof.
  intros Ha.
  destruct (packer.MultiErrorAppend h (Some a) errs) as [h' p'] eqn:Happend.
  destruct (MultiErrorAppend_live h h' (Some a) p' errs) as (b & -> & Hb & Herrs & Hsame).
  - intros ? [= <-]. exact Ha.
  - exact Happend.
  - rewrite <- (Hsame a eq_refl) in *. exists h'. split_and!; [reflexivity | exact Hb | exact Herrs].
Qed.

(** C4. When [os.Stat] does not find the source path, [NewConfig] returns
    no configuration and the accumulated error, and the error set holds
    the message that names the source file: the call that appends it drops
    the pointer it gets back, but by then the accumulator exists and is
    extended in place. *)
Theorem NewConfig_reports_missing_source (h : packer.store) (raws : list Raw)
    (c : Config Embedded) (err : error) :
  Decode env raws = (c, None) ->
  Stat env (SourcePath c) = Some err ->
  exists h' warnings a,
    NewConfig env h raws = (h', (None, warnings, Accumulated a))
    /\ err_source_file (SourcePath c) err ∈ packer.Errors h' (Some a).
Proof.
  intros Hdecode Hstat. unfold NewConfig. rewrite Hdecode, Hstat.
  destruct (prepares_allocate (prepares env) (embedded c) h None)
    as (e1 & h1 & a & -> & Ha1).
  { intros ? [=]. }
  { left. discriminate. }
  assert (exists h2,
    (if is_empty (SourcePath c)
     then packer.MultiErrorAppend h1 (Some a) ["source_path is required"]
     else (h1, Some a)) = (h2, Some a) /\ (a < length h2)%nat)
    as (h2 & -> & Ha2).
  { destruct (is_empty (SourcePath c)).
    - destruct (MultiErrorAppend_shared h1 a ["source_path is required"] Ha1)
        as (h2 & -> & Ha2 & _). eauto.
    - eauto. }
  destruct (MultiErrorAppend_shared h2 a [err_source_file (SourcePath c) err] Ha2)
    as (h3 & -> & Ha3 & Herrs3).
  cbn [fst].
  assert (err_source_file (SourcePath c) err ∈ packer.Errors h3 (Some a)) as Hin3.
  { rewrite Herrs3, elem_of_app. right. left. }
  match goal with
  | |- context [if negb (validMode env ?mode) then ?x else ?y] =>
      assert (exists h4,
        (if negb (validMode env mode) then x else y) = (h4, Some a)
        /\ err_source_file (SourcePath c) err ∈ packer.Errors h4 (Some a))
        as (h4 & -> & Hin4)
  end.
  { destruct (negb (validMode env _)).
    - match goal with
      | |- context [packer.MultiErrorAppend h3 (Some a) ?es] =>
          destruct (MultiErrorAppend_shared h3 a es Ha3) as (h4 & -> & _ & Herrs4)
      end.
      exists h4. split; [reflexivity|]. rewrite Herrs4, elem_of_app. left. exact Hin3.
    - eauto. }
  destruct (packer.Errors h4 (Some a)) as [|x l] eqn:Herrs; [inversion Hin4|].
  cbn [length Nat.ltb Nat.leb].
  eexists h4, _, a. split; [reflexivity|]. rewrite Herrs. exact Hin4.
Qed.

End Facts.

Lemma NewConfig_reports_missing_source_witness :
  exists h' warnings a,
    NewConfig Examples.ovf_collaborators [] ["/tmp/source.ovf"]
    = (h', (None, warnings, Accumulated a))
    /\ err_source_file "/tmp/source.ovf"
         "stat /tmp/source.ovf: no such file or directory"
       ∈ packer.Errors h' (Some a).
Proof.
  apply (NewConfig_reports_missing_source Examples.ovf_collaborators []
           ["/tmp/source.ovf"] (Examples.ovf_config "/tmp/source.ovf")
           "stat /tmp/source.ovf: no such file or directory");
    reflexivity.
Defined.

End OvfFacts.

(** ** More on block devices *)
Module BlockDevMore.

Import BlockDev.

(** X1. A suppressed device gets a mapping that carries its name and the
    empty no-device marker and nothing else, whatever its other fields
    say. *)
Theorem buildBlockDevices_suppressed (b : list BlockDevice) (i : nat)
    (d : BlockDevice) :
  b !! i = Some d -> NoDevice d = true ->
  buildBlockDevices b !! i
  = Some {| ec2.DeviceName := Some (DeviceName d);
            ec2.Ebs := None;
            ec2.NoDevice := Some EmptyString;
            ec2.VirtualName := None |}.
Proof.
  intros Hi Hn. rewrite BlockDevFacts.buildBlockDevices_lookup, Hi.
  cbn [fmap option_fmap option_map]. unfold mapping. rewrite Hn. reflexivity.
Qed.

Lemma buildBlockDevices_suppressed_witness :
  buildBlockDevices
    [Examples.data_volume; Examples.suppressed_volume] !! 1%nat
  = Some {| ec2.DeviceName := Some "/dev/sdc";
            ec2.Ebs := None;
            ec2.NoDevice := Some EmptyString;
            ec2.VirtualName := None |}.
Proof.
  apply (buildBlockDevices_suppressed
           [Examples.data_volume; Examples.suppressed_volume] 1
           Examples.suppressed_volume); reflexivity.
Defined.

(** X2. A device that is not suppressed and whose virtual name starts
    with [ephemeral] gets a mapping with its name and that virtual name,
    and no volume: size, type, snapshot and key are ignored. *)
Theorem buildBlockDevices_ephemeral (b : list BlockDevice) (i : nat)
    (d : BlockDevice) :
  b !! i = Some d -> NoDevice d = false ->
  String.prefix "ephemeral" (VirtualName d) = true ->
  buildBlockDevices b !! i
  = Some {| ec2.DeviceName := Some (DeviceName d);
            ec2.Ebs := None;
            ec2.NoDevice := None;
            ec2.VirtualName := Some (VirtualName d) |}.
Proof.
  intros Hi Hn Hp. rewrite BlockDevFacts.buildBlockDevices_lookup, Hi.
  cbn [fmap option_fmap option_map]. unfold mapping. rewrite Hn, Hp.
  destruct (VirtualName d); [discriminate Hp | reflexivity].
Qed.

Lemma buildBlockDevices_ephemeral_witness :
  buildBlockDevices [Examples.ephemeral_volume] !! 0%nat
  = Some {| ec2.DeviceName := Some "/dev/sdd";
            ec2.Ebs := None;
            ec2.NoDevice := None;
            ec2.VirtualName := Some "ephemeral0" |}.
Proof.
  apply (buildBlockDevices_ephemeral [Examples.ephemeral_volume] 0
           Examples.ephemeral_volume); reflexivity.
Defined.

Lemma Prepare_device_passes (d : BlockDevice) :
  Prepare_device d = None
  <-> DeviceName d <> EmptyString
      /\ ~ (KmsKeyId d <> EmptyString /\ Encrypted d = Some false).
Proof.
  unfold Prepare_device, kms_without_encryption.
  destruct (DeviceName d) as [|a s]; cbn [is_empty].
  { split; [discriminate | intros [H _]; congruence]. }
  destruct (KmsKeyId d) as [|k ks]; cbn [non_empty is_empty negb andb].
  { split; [|reflexivity]. intros _. split; [discriminate | intros [H _]; congruence]. }
  destruct (Encrypted d) as [[|]|].
  - split; [|reflexivity]. intros _. split; [discriminate | intros [_ H]; discriminate].
  - split; [discriminate|]. intros [_ H]. exfalso. apply H. split; [discriminate | reflexivity].
  - split; [|reflexivity]. intros _. split; [discriminate | intros [_ H]; discriminate].
Qed.

Lemma omap_nil_passes (label : string) (ds : list BlockDevice) :
  omap (fun d => attributed label <$> Prepare_device d) ds = []
  <-> Forall (fun d => Prepare_device d = None) ds.
Proof.
  induction ds as [|d ds IH]; cbn [omap list_omap].
  - split; [constructor | reflexivity].
  - rewrite Forall_cons. destruct (Prepare_device d) as [e|]; cbn [fmap option_fmap option_map].
    + split; [discriminate | intros [H _]; discriminate].
    + rewrite IH. tauto.
Qed.

Lemma Prepare_passes_devices (b : BlockDevices) (d : BlockDevice) :
  Prepare b = [] -> d ∈ AMIMappings b ++ LaunchMappings b ->
  Prepare_device d = None.
Proof.
  unfold Prepare. rewrite !BlockDevFacts.Prepare_mappings_omap. cbn [app].
  rewrite app_nil, !omap_nil_passes, !Forall_forall, elem_of_app.
  intros [Hami Hlaunch] [Hd|Hd]; [apply Hami | apply Hlaunch]; exact Hd.
Qed.

(** X3. [BlockDevices.Prepare] returns no error exactly when every device
    of both lists has a name and none has a key together with encryption
    explicitly switched off. *)
Theorem Prepare_passes_iff (b : BlockDevices) :
  Prepare b = []
  <-> Forall
        (fun d =>
           DeviceName d <> EmptyString
           /\ ~ (KmsKeyId d <> EmptyString /\ Encrypted d = Some false))
        (AMIMappings b ++ LaunchMappings b).
Proof.
  unfold Prepare. rewrite !BlockDevFacts.Prepare_mappings_omap. cbn [app].
  rewrite app_nil, !omap_nil_passes, Forall_app.
  rewrite !Forall_forall.
  split; intros [H1 H2]; split; intros d Hd;
    first [apply Prepare_device_passes; auto | apply Prepare_device_passes; auto].
Qed.

(** X4. Validation protects derivation: when [BlockDevices.Prepare]
    returned no error, every mapping built from either list carries a
    name that is not empty, and no volume request carries a key together
    with encryption switched off. *)
Theorem Prepare_protects_build (b : BlockDevices) (m : ec2.BlockDeviceMapping) :
  Prepare b = [] ->
  m ∈ BuildAMIDevices b ++ BuildLaunchDevices b ->
  (exists name, ec2.DeviceName m = Some name /\ name <> EmptyString)
  /\ (forall ebs, ec2.Ebs m = Some ebs -> is_Some (ec2.KmsKeyId ebs) ->
                  ec2.Encrypted ebs <> Some false).
Proof.
  intros Hok Hm.
  unfold BuildAMIDevices, BuildLaunchDevices in Hm.
  rewrite !BlockDevFacts.buildBlockDevices_map, <- fmap_app in Hm.
  apply list_elem_of_fmap in Hm as (d & -> & Hd).
  destruct (proj1 (Prepare_device_passes d) (Prepare_passes_devices b d Hok Hd))
    as [Hname Hkey].
  split.
  - exists (DeviceName d). split; [|exact Hname].
    unfold mapping. destruct (NoDevice d); [reflexivity|].
    destruct (non_empty (VirtualName d)); [|reflexivity].
    destruct (String.prefix "ephemeral" (VirtualName d)); reflexivity.
  - intros ebs Hebs Hk. unfold mapping in Hebs.
    destruct (NoDevice d); [discriminate|].
    destruct (non_empty (VirtualName d)).
    { destruct (String.prefix "ephemeral" (VirtualName d)); discriminate. }
    cbn [ec2.Ebs] in Hebs. injection Hebs as <-.
    cbn [ebsBlockDevice ec2.KmsKeyId ec2.Encrypted] in *.
    intros Henc. apply Hkey. split; [|exact Henc].
    destruct (KmsKeyId d); [destruct Hk; discriminate | discriminate].
Qed.

Lemma Prepare_protects_build_witness :
  (exists name,
     ec2.DeviceName (mapping Examples.data_volume) = Some name
     /\ name <> EmptyString)
  /\ (forall ebs,
        ec2.Ebs (mapping Examples.data_volume) = Some ebs ->
        is_Some (ec2.KmsKeyId ebs) -> ec2.Encrypted ebs <> Some false).
Proof.
  apply (Prepare_protects_build
           {| AMIMappings := [Examples.data_volume];
              LaunchMappings := [Examples.ephemeral_volume] |}).
  - reflexivity.
  - vm_compute. left.
Defined.

Lemma GetOmissions_loop (ds : list BlockDevice) (omitMap : gmap string bool)
    (name : string) :
  fold_left
    (fun omitMap blockDevice =>
       <[DeviceName blockDevice := OmitFromArtifact blockDevice]> omitMap)
    ds omitMap !! name
  = match last (filter (fun d => DeviceName d = name) ds) with
    | Some d => Some (OmitFromArtifact d)
    | None => omitMap !! name
    end.
Proof.
  revert omitMap. induction ds as [|d ds IH]; intros omitMap; [reflexivity|].
  cbn [fold_left]. rewrite IH, filter_cons.
  destruct (decide (DeviceName d = name)) as [<-|Hne].
  - rewrite last_cons.
    destruct (last (filter _ ds)); [reflexivity | apply lookup_insert_eq].
  - destruct (last (filter _ ds)); [reflexivity|].
    apply lookup_insert_ne. exact Hne.
Qed.

(** X5. [GetOmissions] maps a device name to the omit flag of the last
    launch device that carries the name, and has no entry for a name that
    no launch device carries. *)
Theorem GetOmissions_lookup (b : BlockDevices) (name : string) :
  GetOmissions b !! name
  = OmitFromArtifact
    <$> last (filter (fun d => DeviceName d = name) (LaunchMappings b)).
Proof.
  unfold GetOmissions. rewrite GetOmissions_loop.
  destruct (last _); [reflexivity | apply lookup_empty].
Qed.

End BlockDevMore.

(** ** More on the run configuration *)
Module RunMore.

Import Run.
Import RunFacts.

Ltac kept :=
  unfold security_groups, source_cidrs, shutdown_behavior, validated, defaults;
  steps; reflexivity.

Section Facts.

Context {Rest : Type}.
Variable comm_Prepare :
  communicator.Config Rest -> communicator.Config Rest * list error.
Variable Stat : string -> option error.
Variable ParseCIDR : string -> option error.

Local Notation "'PrepareRun'" := (Run.Prepare comm_Prepare Stat ParseCIDR).
Local Notation "'validatedRun'" := (Run.validated comm_Prepare).

(** The configuration that [Prepare] leaves, as the three steps applied
    to the validated configuration. *)
Lemma Prepare_config (uuid : string) (c : RunConfig Rest) :
  (PrepareRun uuid c).1
  = (shutdown_behavior
       (source_cidrs ParseCIDR (security_groups (validatedRun uuid c)).1).1).1.
Proof. rewrite Prepare_parts. reflexivity. Qed.

(** What the steps before the rules leave alone. *)
Lemma validated_keeps (uuid : string) (c : RunConfig Rest) :
  frame (set_WindowsPasswordTimeout 0 (set_RunTags None (validatedRun uuid c)))
  = frame (set_WindowsPasswordTimeout 0 (set_RunTags None
             (set_Comm (Comm (validatedRun uuid c)) c)))
  /\ SecurityGroupId (validatedRun uuid c) = SecurityGroupId c
  /\ SecurityGroupIds (validatedRun uuid c) = SecurityGroupIds c
  /\ TemporarySGSourceCidrs (validatedRun uuid c) = TemporarySGSourceCidrs c
  /\ InstanceInitiatedShutdownBehavior (validatedRun uuid c)
     = InstanceInitiatedShutdownBehavior c.
Proof.
  split_and!; unfold frame, validated, defaults;
    destruct (needs_temporary_key_pair (Comm c)); fields;
    destruct (WindowsPasswordTimeout c =? 0); fields;
    destruct (RunTags c); fields; reflexivity.
Qed.

(** Each of the three steps after the rules writes its own fields only,
    and writes nothing when its field is given. *)
Lemma security_groups_writes (c : RunConfig Rest) :
  TemporarySGSourceCidrs (security_groups c).1 = TemporarySGSourceCidrs c
  /\ InstanceInitiatedShutdownBehavior (security_groups c).1
     = InstanceInitiatedShutdownBehavior c
  /\ (SecurityGroupId c = EmptyString -> (security_groups c).1 = c)
  /\ (SecurityGroupIds c <> [] -> (security_groups c).1 = c).
Proof.
  unfold security_groups. split_and!.
  - steps; reflexivity.
  - steps; reflexivity.
  - intros ->. reflexivity.
  - intros H. destruct (SecurityGroupIds c); [congruence|].
    cbn [length Nat.ltb Nat.leb]. destruct (non_empty (SecurityGroupId c)); reflexivity.
Qed.

Lemma source_cidrs_writes (c : RunConfig Rest) :
  SecurityGroupId (source_cidrs ParseCIDR c).1 = SecurityGroupId c
  /\ SecurityGroupIds (source_cidrs ParseCIDR c).1 = SecurityGroupIds c
  /\ InstanceInitiatedShutdownBehavior (source_cidrs ParseCIDR c).1
     = InstanceInitiatedShutdownBehavior c
  /\ (TemporarySGSourceCidrs c <> [] -> (source_cidrs ParseCIDR c).1 = c)
  /\ (TemporarySGSourceCidrs c = [] ->
      TemporarySGSourceCidrs (source_cidrs ParseCIDR c).1 = ["0.0.0.0/0"]).
Proof.
  unfold source_cidrs. split_and!.
  - steps; reflexivity.
  - steps; reflexivity.
  - steps; reflexivity.
  - intros H. destruct (TemporarySGSourceCidrs c); [congruence | reflexivity].
  - intros ->. reflexivity.
Qed.

Lemma shutdown_behavior_writes (c : RunConfig Rest) :
  SecurityGroupId (shutdown_behavior c).1 = SecurityGroupId c
  /\ SecurityGroupIds (shutdown_behavior c).1 = SecurityGroupIds c
  /\ TemporarySGSourceCidrs (shutdown_behavior c).1 = TemporarySGSourceCidrs c
  /\ (InstanceInitiatedShutdownBehavior c <> EmptyString ->
      (shutdown_behavior c).1 = c)
  /\ (InstanceInitiatedShutdownBehavior c = EmptyString ->
      InstanceInitiatedShutdownBehavior (shutdown_behavior c).1 = "stop").
Proof.
  unfold shutdown_behavior. split_and!.
  - steps; reflexivity.
  - steps; reflexivity.
  - steps; reflexivity.
  - intros H. apply is_empty_false in H. rewrite H.
    destruct (negb _); reflexivity.
  - intros ->. reflexivity.
Qed.

Lemma defaults_writes (uuid : string) (c : RunConfig Rest) :
  (WindowsPasswordTimeout c <> 0 ->
   WindowsPasswordTimeout (defaults uuid c) = WindowsPasswordTimeout c)
  /\ (WindowsPasswordTimeout c = 0 ->
      WindowsPasswordTimeout (defaults uuid c) = 20 * Minute)
  /\ (RunTags c <> None -> RunTags (defaults uuid c) = RunTags c)
  /\ (RunTags c = None -> RunTags (defaults uuid c) = Some ∅).
Proof.
  unfold defaults. split_and!; intros H.
  - apply Z.eqb_neq in H.
    destruct (needs_temporary_key_pair (Comm c)); fields; rewrite H; fields;
      destruct (RunTags c); fields; reflexivity.
  - destruct (needs_temporary_key_pair (Comm c)); fields; rewrite H;
      cbn [Z.eqb]; fields; destruct (RunTags c); fields; reflexivity.
  - destruct (needs_temporary_key_pair (Comm c)); fields;
      destruct (WindowsPasswordTimeout c =? 0); fields;
      destruct (RunTags c) eqn:E; fields; congruence.
  - destruct (needs_temporary_key_pair (Comm c)); fields;
      destruct (WindowsPasswordTimeout c =? 0); fields;
      rewrite H; fields; reflexivity.
Qed.

(** X6. [RunConfig.Prepare] fills four fields and overrides none of them:
    the password timeout, the run tags, the source ranges of the temporary
    security group and the shutdown behaviour keep a value that was given
    and get 20 minutes, an empty map, the range [0.0.0.0/0] and [stop]
    when it was left out. This holds whether or not errors are returned. *)
Theorem Prepare_defaults (uuid : string) (c : RunConfig Rest) :
  let c' := (PrepareRun uuid c).1 in
  (WindowsPasswordTimeout c <> 0 ->
   WindowsPasswordTimeout c' = WindowsPasswordTimeout c)
  /\ (WindowsPasswordTimeout c = 0 -> WindowsPasswordTimeout c' = 20 * Minute)
  /\ (RunTags c <> None -> RunTags c' = RunTags c)
  /\ (RunTags c = None -> RunTags c' = Some ∅)
  /\ (TemporarySGSourceCidrs c <> [] ->
      TemporarySGSourceCidrs c' = TemporarySGSourceCidrs c)
  /\ (TemporarySGSourceCidrs c = [] -> TemporarySGSourceCidrs c' = ["0.0.0.0/0"])
  /\ (InstanceInitiatedShutdownBehavior c <> EmptyString ->
      InstanceInitiatedShutdownBehavior c' = InstanceInitiatedShutdownBehavior c)
  /\ (InstanceInitiatedShutdownBehavior c = EmptyString ->
      InstanceInitiatedShutdownBehavior c' = "stop").
Proof.
  intros c'. subst c'. rewrite Prepare_config.
  set (v := validatedRun uuid c).
  set (s1 := (security_groups v).1).
  set (s2 := (source_cidrs ParseCIDR s1).1).
  pose proof (steps_frame ParseCIDR v) as Hframe. fold s1 s2 in Hframe.
  destruct (frame_reads Stat (shutdown_behavior s2).1) as (_ & Htimeout & Htags & _).
  destruct (frame_reads Stat v) as (_ & Htimeoutv & Htagsv & _).
  rewrite Hframe in Htimeout, Htags.
  destruct (defaults_writes uuid c) as (Ht1 & Ht2 & Hr1 & Hr2).
  destruct (validated_keeps uuid c) as (_ & _ & _ & Hcv & Hbv). fold v in Hcv, Hbv.
  destruct (security_groups_writes v) as (Hc1 & Hb1 & _). fold s1 in Hc1, Hb1.
  destruct (source_cidrs_writes s1) as (_ & _ & Hb2 & Hc2 & Hc2'). fold s2 in Hb2, Hc2, Hc2'.
  destruct (shutdown_behavior_writes s2) as (_ & _ & Hc3 & Hb3 & Hb3').
  split_and!.
  - intros H. rewrite <- Htimeout, Htimeoutv. exact (Ht1 H).
  - intros H. rewrite <- Htimeout, Htimeoutv. exact (Ht2 H).
  - intros H. rewrite <- Htags, Htagsv. exact (Hr1 H).
  - intros H. rewrite <- Htags, Htagsv. exact (Hr2 H).
  - intros H. rewrite Hc3, Hc2; [congruence|]. congruence.
  - intros H. rewrite Hc3. apply Hc2'. congruence.
  - intros H. rewrite Hb3; congruence.
  - intros H. apply Hb3'. congruence.
Qed.

(** X7. [RunConfig.Prepare] writes only the communicator, the four
    defaulted fields and the two security group fields: every other field
    of the configuration it leaves is the one it was given. *)
Theorem Prepare_keeps_inputs (uuid : string) (c : RunConfig Rest) :
  let c' := (PrepareRun uuid c).1 in
  AssociatePublicIpAddress c' = AssociatePublicIpAddress c
  /\ AvailabilityZone c' = AvailabilityZone c
  /\ BlockDurationMinutes c' = BlockDurationMinutes c
  /\ DisableStopInstance c' = DisableStopInstance c
  /\ EbsOptimized c' = EbsOptimized c
  /\ EnableT2Unlimited c' = EnableT2Unlimited c
  /\ IamInstanceProfile c' = IamInstanceProfile c
  /\ InstanceType c' = InstanceType c
  /\ SecurityGroupFilter c' = SecurityGroupFilter c
  /\ SourceAmi c' = SourceAmi c
  /\ SourceAmiFilter c' = SourceAmiFilter c
  /\ SpotInstanceTypes c' = SpotInstanceTypes c
  /\ SpotPrice c' = SpotPrice c
  /\ SpotPriceAutoProduct c' = SpotPriceAutoProduct c
  /\ SpotTags c' = SpotTags c
  /\ SubnetFilter c' = SubnetFilter c
  /\ SubnetId c' = SubnetId c
  /\ TemporaryKeyPairName c' = TemporaryKeyPairName c
  /\ UserData c' = UserData c
  /\ UserDataFile c' = UserDataFile c
  /\ VpcFilter c' = VpcFilter c
  /\ VpcId c' = VpcId c.
Proof.
  intros c'. subst c'. rewrite Prepare_config.
  pose proof (steps_frame ParseCIDR (validatedRun uuid c)) as Hsteps.
  destruct (validated_keeps uuid c) as (Hvalidated & _).
  revert Hsteps Hvalidated.
  generalize (shutdown_behavior
                (source_cidrs ParseCIDR
                   (security_groups (validatedRun uuid c)).1).1).1.
  generalize (validatedRun uuid c).
  intros v c' Hsteps Hvalidated.
  split_and!;
    match goal with
    | |- ?F _ = ?F _ =>
        exact (eq_trans (f_equal F Hsteps) (f_equal F Hvalidated))
    end.
Qed.

(** *** What an error-free run establishes *)

Lemma Prepare_success (uuid : string) (c c' : RunConfig Rest) :
  PrepareRun uuid c = (c', []) ->
  c' = (PrepareRun uuid c).1
  /\ check_source_ami c = [] /\ check_instance_type c = []
  /\ check_block_duration c = [] /\ check_spot c = []
  /\ check_user_data Stat c = [] /\ (security_groups c).2 = []
  /\ (source_cidrs ParseCIDR c).2 = [] /\ (shutdown_behavior c).2 = []
  /\ check_t2_unlimited c = [].
Proof.
  intros H. pose proof (Prepare_errors comm_Prepare Stat ParseCIDR uuid c) as Herrs.
  rewrite H in Herrs. cbn [snd] in Herrs. symmetry in Herrs.
  repeat (apply app_eq_nil in Herrs as [? Herrs]).
  rewrite H. split_and!; try assumption. reflexivity.
Qed.

Lemma source_ami_passes (c : RunConfig Rest) :
  check_source_ami c = [] ->
  SourceAmi c <> EmptyString \/ AmiFilterOptions.Owners (SourceAmiFilter c) <> [].
Proof.
  unfold check_source_ami, AmiFilterOptions.Empty, AmiFilterOptions.NoOwner.
  destruct (SourceAmi c); [|intros _; left; discriminate].
  destruct (AmiFilterOptions.Owners (SourceAmiFilter c)); [|intros _; right; discriminate].
  cbn [is_empty length Nat.eqb andb].
  destruct (length _ =? 0)%nat; discriminate.
Qed.

Lemma instance_type_passes (c : RunConfig Rest) :
  check_instance_type c = [] ->
  (InstanceType c = EmptyString <-> SpotInstanceTypes c <> []).
Proof.
  unfold check_instance_type.
  destruct (InstanceType c); destruct (SpotInstanceTypes c);
    cbn [is_empty non_empty negb length Nat.eqb Nat.ltb Nat.leb andb app];
    intros H; try discriminate H; split; intros H'; congruence.
Qed.

Lemma block_duration_passes (c : RunConfig Rest) :
  check_block_duration c = [] <-> (60 | BlockDurationMinutes c).
Proof.
  unfold check_block_duration. rewrite <- Z.rem_divide by lia.
  destruct (Z.eqb_spec (Z.rem (BlockDurationMinutes c) 60) 0) as [E|E];
    cbn [negb]; split; intros H; try congruence; try reflexivity;
    try discriminate.
Qed.

Lemma spot_passes (c : RunConfig Rest) :
  check_spot c = [] ->
  (SpotPriceAutoProduct c <> EmptyString <-> SpotPrice c = "auto")
  /\ (SpotTags c <> None ->
      SpotPrice c <> EmptyString /\ SpotPrice c <> "0").
Proof.
  unfold check_spot. intros H.
  apply app_eq_nil in H as [H1 H]. apply app_eq_nil in H as [H2 H3]. split.
  - destruct (String.eqb_spec (SpotPrice c) "auto") as [E|E];
      destruct (SpotPriceAutoProduct c);
      cbn [is_empty non_empty negb] in *; try discriminate;
      split; intros H'; congruence.
  - intros Htags. destruct (SpotTags c); [|congruence].
    destruct (SpotPrice c) as [|a p] eqn:E; [discriminate|].
    cbn [is_empty orb] in H3.
    destruct (String.eqb_spec (String a p) "0"); [discriminate|].
    split; [discriminate | assumption].
Qed.

Lemma user_data_passes (c : RunConfig Rest) :
  check_user_data Stat c = [] ->
  ~ (UserData c <> EmptyString /\ UserDataFile c <> EmptyString)
  /\ (UserDataFile c <> EmptyString -> Stat (UserDataFile c) = None).
Proof.
  unfold check_user_data.
  destruct (UserData c); destruct (UserDataFile c) as [|x f] eqn:E;
    cbn [is_empty non_empty negb andb]; intros H; try discriminate H.
  - split; [intros [H' _]; congruence | congruence].
  - split; [intros [H' _]; congruence|]. intros _.
    destruct (Stat (String x f)); [discriminate | reflexivity].
  - split; [intros [_ H']; congruence | congruence].
Qed.

Lemma security_groups_passes (c : RunConfig Rest) :
  (security_groups c).2 = [] ->
  ~ (SecurityGroupId c <> EmptyString /\ SecurityGroupIds c <> []).
Proof.
  unfold security_groups.
  destruct (SecurityGroupId c); destruct (SecurityGroupIds c);
    cbn [is_empty non_empty negb length Nat.ltb Nat.leb snd];
    intros H [H1 H2]; congruence.
Qed.

Lemma source_cidrs_passes (c : RunConfig Rest) :
  (source_cidrs ParseCIDR c).2 = [] ->
  Forall (fun cidr => ParseCIDR cidr = None) (TemporarySGSourceCidrs c).
Proof.
  unfold source_cidrs. intros H. apply Forall_forall. intros cidr Hin.
  destruct (TemporarySGSourceCidrs c) as [|x l] eqn:E; [inversion Hin|].
  cbn [length Nat.eqb snd] in H.
  destruct (ParseCIDR cidr) as [err|] eqn:Hparse; [|reflexivity].
  assert (err_cidr err ∈ check_cidrs ParseCIDR (x :: l)) as Herr.
  { apply elem_of_check_cidrs. eauto. }
  rewrite H in Herr. inversion Herr.
Qed.

Lemma shutdown_behavior_passes (c : RunConfig Rest) :
  (shutdown_behavior c).2 = [] ->
  InstanceInitiatedShutdownBehavior (shutdown_behavior c).1 = "stop"
  \/ InstanceInitiatedShutdownBehavior (shutdown_behavior c).1 = "terminate".
Proof.
  unfold shutdown_behavior, reShutdownBehavior_MatchString.
  destruct (InstanceInitiatedShutdownBehavior c) as [|a b] eqn:E;
    cbn [is_empty fst snd]; [intros _; left; reflexivity|].
  destruct (String.eqb_spec (String a b) "stop") as [E1|E1];
    [cbn [orb negb fst snd]; rewrite E; intros _; left; exact E1|].
  destruct (String.eqb_spec (String a b) "terminate") as [E2|E2];
    cbn [orb negb fst snd]; [rewrite E; intros _; right; exact E2 | discriminate].
Qed.

(** The text before the first dot is [t2] only for a type that starts
    with [t2.]. *)
Lemma t2_family (s : string) (firstDotIndex : nat) :
  String.index 0 "." s = Some firstDotIndex ->
  String.substring 0 firstDotIndex s = "t2" ->
  String.prefix "t2." s = true.
Proof.
  destruct s as [|a [|b [|d s]]];
    destruct firstDotIndex as [|[|[|n]]]; cbn [String.substring];
    intros Hindex Hsub; try discriminate Hsub.
  - injection Hsub as -> ->. cbn in Hindex. discriminate.
  - injection Hsub as -> ->. cbn in Hindex. discriminate.
  - injection Hsub as -> ->.
    cbn [String.index String.prefix] in Hindex.
    destruct (ascii_dec "." "t"); [discriminate|].
    destruct (ascii_dec "." "2"); [discriminate|].
    cbn [String.prefix].
    destruct (ascii_dec "t" "t"); [|congruence].
    destruct (ascii_dec "2" "2"); [|congruence].
    destruct (ascii_dec "." d); [destruct s; reflexivity|].
    destruct (String.index 0 "." s); discriminate.
Qed.

Lemma t2_unlimited_passes (c : RunConfig Rest) :
  check_t2_unlimited c = [] -> EnableT2Unlimited c = true ->
  SpotPrice c = EmptyString /\ String.prefix "t2." (InstanceType c) = true.
Proof.
  unfold check_t2_unlimited. intros H Ht2. rewrite Ht2 in H.
  apply app_eq_nil in H as [H1 H2]. split.
  - destruct (SpotPrice c); [reflexivity | discriminate].
  - destruct (String.index 0 "." (InstanceType c)) as [i|] eqn:Hindex; [|discriminate].
    destruct (String.eqb_spec (String.substring 0 i (InstanceType c)) "t2") as [E|E];
      [|discriminate].
    exact (t2_family _ i Hindex E).
Qed.

(** X8. When [RunConfig.Prepare] returns no error, the configuration it
    was given names a source image or a filter with an owner, names either
    an instance type or spot instance types and not both, has a block
    duration that 60 divides, has an automatic spot price exactly when it
    names a product for it, does not give user data twice, names only a
    user data file that [os.Stat] finds, does not give both the security
    group id and the list of ids, and has only source ranges that parse. *)
Theorem Prepare_success_inputs (uuid : string) (c c' : RunConfig Rest) :
  PrepareRun uuid c = (c', []) ->
  (SourceAmi c <> EmptyString
   \/ AmiFilterOptions.Owners (SourceAmiFilter c) <> [])
  /\ (InstanceType c = EmptyString <-> SpotInstanceTypes c <> [])
  /\ (60 | BlockDurationMinutes c)
  /\ (SpotPriceAutoProduct c <> EmptyString <-> SpotPrice c = "auto")
  /\ ~ (UserData c <> EmptyString /\ UserDataFile c <> EmptyString)
  /\ (UserDataFile c <> EmptyString -> Stat (UserDataFile c) = None)
  /\ ~ (SecurityGroupId c <> EmptyString /\ SecurityGroupIds c <> [])
  /\ Forall (fun cidr => ParseCIDR cidr = None) (TemporarySGSourceCidrs c).
Proof.
  intros H. apply Prepare_success in H
    as (_ & Hami & Htype & Hduration & Hspot & Hdata & Hgroups & Hcidrs & _).
  split_and!.
  - exact (source_ami_passes c Hami).
  - exact (instance_type_passes c Htype).
  - apply block_duration_passes. exact Hduration.
  - exact (proj1 (spot_passes c Hspot)).
  - exact (proj1 (user_data_passes c Hdata)).
  - exact (proj2 (user_data_passes c Hdata)).
  - exact (security_groups_passes c Hgroups).
  - exact (source_cidrs_passes c Hcidrs).
Qed.

(** X9. When [RunConfig.Prepare] returns no error, the configuration it
    leaves has no single security group id any more, and its shutdown
    behaviour is [stop] or [terminate]. *)
Theorem Prepare_success_resolved (uuid : string) (c c' : RunConfig Rest) :
  PrepareRun uuid c = (c', []) ->
  SecurityGroupId c' = EmptyString
  /\ (InstanceInitiatedShutdownBehavior c' = "stop"
      \/ InstanceInitiatedShutdownBehavior c' = "terminate").
Proof.
  intros H. apply Prepare_success in H as (-> & _ & _ & _ & _ & _ & Hgroups & _ & Hshutdown & _).
  rewrite Prepare_config.
  destruct (rules_on_input comm_Prepare Stat ParseCIDR uuid c)
    as (_ & _ & _ & _ & _ & Hg & _ & Hs & _).
  unfold after_source_cidrs, after_security_groups in Hs.
  rewrite Hgroups in Hg. rewrite Hshutdown in Hs.
  set (v := validatedRun uuid c) in *.
  set (s1 := (security_groups v).1) in *.
  set (s2 := (source_cidrs ParseCIDR s1).1) in *.
  split.
  - destruct (shutdown_behavior_writes s2) as (-> & _).
    destruct (source_cidrs_writes s1) as (Hid & _). fold s2 in Hid. rewrite Hid.
    apply security_groups_done. exact Hg.
  - apply shutdown_behavior_passes. exact Hs.
Qed.

(** X10. When [RunConfig.Prepare] returns no error for a configuration
    with T2 Unlimited enabled, no spot price is set and the instance type
    starts with [t2.]. *)
Theorem Prepare_success_t2 (uuid : string) (c c' : RunConfig Rest) :
  PrepareRun uuid c = (c', []) -> EnableT2Unlimited c = true ->
  SpotPrice c = EmptyString /\ String.prefix "t2." (InstanceType c) = true.
Proof.
  intros H. apply Prepare_success in H as (_ & _ & _ & _ & _ & _ & _ & _ & _ & Ht2).
  exact (t2_unlimited_passes c Ht2).
Qed.

(** X11. When [RunConfig.Prepare] returns no error for a configuration
    with spot tags, [IsSpotInstance] holds of the configuration it leaves:
    spot tags are accepted for spot instances only. *)
Theorem Prepare_success_spot_tags (uuid : string) (c c' : RunConfig Rest) :
  PrepareRun uuid c = (c', []) -> SpotTags c <> None ->
  IsSpotInstance c' = true.
Proof.
  intros H Htags.
  apply Prepare_success in H as (-> & _ & _ & _ & Hspot & _).
  destruct (proj2 (spot_passes c Hspot) Htags) as [Hprice Hzero].
  assert (SpotPrice (PrepareRun uuid c).1 = SpotPrice c) as Hkept.
  { rewrite Prepare_config.
    pose proof (steps_frame ParseCIDR (validatedRun uuid c)) as Hsteps.
    destruct (validated_keeps uuid c) as (Hvalidated & _).
    revert Hsteps Hvalidated.
    generalize (shutdown_behavior
                  (source_cidrs ParseCIDR
                     (security_groups (validatedRun uuid c)).1).1).1.
    generalize (validatedRun uuid c).
    intros v c' Hsteps Hvalidated.
    exact (eq_trans (f_equal SpotPrice Hsteps) (f_equal SpotPrice Hvalidated)). }
  unfold IsSpotInstance. rewrite Hkept.
  apply non_empty_true in Hprice. apply String.eqb_neq in Hzero.
  rewrite Hprice, Hzero. reflexivity.
Qed.

Lemma reported_count (m : error) (errs : list error) :
  m ∈ errs <-> count_msg m errs <> 0%nat.
Proof.
  rewrite count_msg_zero. split; [tauto|].
  intros H. destruct (decide (m ∈ errs)); [assumption | contradiction].
Qed.

(** X12. [RunConfig.Prepare] returns the multiple-of-60 error exactly
    when 60 does not divide the block duration; zero and negative
    multiples pass. The communicator's own [Prepare] is taken not to use
    that message. *)
Theorem Prepare_block_duration_iff (uuid : string) (c : RunConfig Rest) :
  (forall k, err_block_duration ∉ (comm_Prepare k).2) ->
  err_block_duration ∈ (PrepareRun uuid c).2
  <-> ~ (60 | BlockDurationMinutes c).
Proof.
  intros Hcomm.
  rewrite reported_count, block_duration_elsewhere.
  rewrite (proj2 (count_msg_zero _ _) (Hcomm _)). cbn [Nat.add].
  rewrite <- reported_count, <- block_duration_passes.
  unfold check_block_duration.
  destruct (negb _); split; intros H; try congruence;
    first [left | inversion H | exfalso; apply H; reflexivity].
Qed.

Lemma source_ami_owner_other_rules (c : RunConfig Rest) :
  (err_source_ami_owner ∉ check_instance_type c)
  /\ (err_source_ami_owner ∉ check_block_duration c)
  /\ (err_source_ami_owner ∉ check_spot c)
  /\ (err_source_ami_owner ∉ check_user_data Stat c)
  /\ (err_source_ami_owner ∉ (security_groups c).2)
  /\ (err_source_ami_owner ∉ (source_cidrs ParseCIDR c).2)
  /\ (err_source_ami_owner ∉ (shutdown_behavior c).2)
  /\ (err_source_ami_owner ∉ check_t2_unlimited c)
  /\ (err_source_ami_owner ∉ check_ssh_interface c)
  /\ (err_source_ami_owner ∉ check_ssh_keypair c).
Proof.
  split_and!;
    first
      [ apply not_in_source_cidrs; intros err Hc; cbv in Hc; discriminate Hc
      | let H := fresh "H" in
        unfold check_ssh_interface, check_ssh_keypair, check_instance_type,
          check_block_duration, check_spot, check_user_data, security_groups,
          shutdown_behavior, check_t2_unlimited;
        split_rule; cbn [snd]; intros H; absent H ].
Qed.

(** X13. [RunConfig.Prepare] returns the must-declare-an-owner error
    exactly when no source image is given and the filter names no owner,
    whatever else the filter holds. The communicator's own [Prepare] is
    taken not to use that message. *)
Theorem Prepare_source_ami_owner (uuid : string) (c : RunConfig Rest) :
  (forall k, err_source_ami_owner ∉ (comm_Prepare k).2) ->
  err_source_ami_owner ∈ (PrepareRun uuid c).2
  <-> SourceAmi c = EmptyString
      /\ AmiFilterOptions.Owners (SourceAmiFilter c) = [].
Proof.
  intros Hcomm. rewrite Prepare_errors, !elem_of_app.
  destruct (source_ami_owner_other_rules c)
    as (H1 & H2 & H3 & H4 & H5 & H6 & H7 & H8 & _).
  destruct (source_ami_owner_other_rules (validatedRun uuid c))
    as (_ & _ & _ & _ & _ & _ & _ & _ & H9 & H10).
  pose proof (Hcomm (Comm (defaults uuid c))) as H0.
  assert (err_source_ami_owner ∈ check_source_ami c
          <-> SourceAmi c = EmptyString
              /\ AmiFilterOptions.Owners (SourceAmiFilter c) = []) as Hown.
  { unfold check_source_ami, AmiFilterOptions.Empty, AmiFilterOptions.NoOwner.
    destruct (SourceAmi c); cbn [is_empty andb app].
    - destruct (AmiFilterOptions.Owners (SourceAmiFilter c));
        cbn [length Nat.eqb andb app].
      + split; [tauto|]. intros _.
        destruct (length _ =? 0)%nat; [right; left | left].
      + split; [intros H; absent H | intros [_ H]; discriminate].
    - split; [intros H; absent H | intros [H _]; discriminate]. }
  tauto.
Qed.

End Facts.
Lemma Prepare_success_inputs_witness :
  (60 | BlockDurationMinutes Examples.run)
  /\ (InstanceType Examples.run = EmptyString
      <-> SpotInstanceTypes Examples.run <> []).
Proof.
  destruct (Prepare_success_inputs Examples.comm_Prepare Examples.Stat
              Examples.ParseCIDR "1" Examples.run
              (Prepare Examples.comm_Prepare Examples.Stat Examples.ParseCIDR "1"
                 Examples.run).1)
    as (_ & Htype & Hduration & _).
  - vm_compute. reflexivity.
  - split; assumption.
Defined.

Lemma Prepare_success_resolved_witness :
  SecurityGroupId
    (Prepare Examples.comm_Prepare Examples.Stat Examples.ParseCIDR "1"
       Examples.run).1 = EmptyString
  /\ (InstanceInitiatedShutdownBehavior
        (Prepare Examples.comm_Prepare Examples.Stat Examples.ParseCIDR "1"
           Examples.run).1 = "stop"
      \/ InstanceInitiatedShutdownBehavior
           (Prepare Examples.comm_Prepare Examples.Stat Examples.ParseCIDR "1"
              Examples.run).1 = "terminate").
Proof.
  apply (Prepare_success_resolved Examples.comm_Prepare Examples.Stat
           Examples.ParseCIDR "1" Examples.run).
  vm_compute. reflexivity.
Defined.

Lemma Prepare_success_t2_witness :
  SpotPrice Examples.run = EmptyString
  /\ String.prefix "t2." (InstanceType Examples.run) = true.
Proof.
  apply (Prepare_success_t2 Examples.comm_Prepare Examples.Stat
           Examples.ParseCIDR "1" Examples.run
           (Prepare Examples.comm_Prepare Examples.Stat Examples.ParseCIDR "1"
              Examples.run).1).
  - vm_compute. reflexivity.
  - reflexivity.
Defined.

Lemma Prepare_success_spot_tags_witness :
  IsSpotInstance
    (Prepare Examples.comm_Prepare Examples.Stat Examples.ParseCIDR "1"
       Examples.run_spot).1 = true.
Proof.
  apply (Prepare_success_spot_tags Examples.comm_Prepare Examples.Stat
           Examples.ParseCIDR "1" Examples.run_spot).
  - vm_compute. reflexivity.
  - discriminate.
Defined.

Lemma Prepare_block_duration_iff_witness :
  err_block_duration
  ∈ (Prepare Examples.comm_Prepare Examples.Stat Examples.ParseCIDR "1"
       (set_BlockDurationMinutes (-90) Examples.run)).2.
Proof.
  apply (Prepare_block_duration_iff Examples.comm_Prepare Examples.Stat
           Examples.ParseCIDR "1" (set_BlockDurationMinutes (-90) Examples.run)).
  - intros k. apply example_comm_reports. discriminate.
  - cbn [BlockDurationMinutes set_BlockDurationMinutes].
    intros [x Hx]. lia.
Defined.

Lemma Prepare_source_ami_owner_witness :
  err_source_ami_owner
  ∈ (Prepare Examples.comm_Prepare Examples.Stat Examples.ParseCIDR "1"
       (set_SourceAmi EmptyString
          (set_SourceAmiFilter Examples.unowned_filter Examples.run))).2.
Proof.
  apply (Prepare_source_ami_owner Examples.comm_Prepare Examples.Stat
           Examples.ParseCIDR "1"
           (set_SourceAmi EmptyString
              (set_SourceAmiFilter Examples.unowned_filter Examples.run))).
  - intros k. apply example_comm_reports. discriminate.
  - split; reflexivity.
Defined.

End RunMore.

(** ** More on the VirtualBox OVF builder *)
Module OvfMore.

Import Ovf.
Import OvfFacts.

Section Facts.

Context {Raw Embedded : Type}.
Variable env : Collaborators Raw Embedded.

(** The accumulator after the [Prepare] calls holds what the calls
    returned, in their order. *)
Lemma prepares_accumulate (ps : list (Embedded -> Embedded * list error))
    (e : Embedded) (h : packer.store) (p : option nat) (acc : list error) :
  (forall a, p = Some a -> (a < length h)%nat) ->
  packer.Errors h p = acc ->
  (ps <> [] \/ is_Some p) ->
  exists h' a,
    fold_left prepare_embedded ps (e, h, p)
    = ((fold_left
          (fun (st : Embedded * list error)
               (prepare : Embedded -> Embedded * list error) =>
             let (e', es) := prepare st.1 in (e', st.2 ++ es))
          ps (e, acc)).1, h', Some a)
    /\ (a < length h')%nat
    /\ packer.Errors h' (Some a)
       = (fold_left
            (fun (st : Embedded * list error)
                 (prepare : Embedded -> Embedded * list error) =>
               let (e', es) := prepare st.1 in (e', st.2 ++ es))
            ps (e, acc)).2.
Proof.
  revert e h p acc. induction ps as [|f ps IH]; intros e h p acc Hlive Hacc Hsome.
  - destruct Hsome as [H|[a ->]]; [congruence|].
    exists h, a. cbn [fold_left fst snd]. split_and!; [reflexivity | auto | exact Hacc].
  - cbn [fold_left fst snd]. unfold prepare_embedded at 2.
    destruct (f e) as [e1 es].
    destruct (packer.MultiErrorAppend h p es) as [h1 p1] eqn:Happend.
    destruct (MultiErrorAppend_live h h1 p p1 es Hlive Happend)
      as (a & -> & Ha & Herrs & _).
    apply IH.
    + intros b [= <-]. exact Ha.
    + rewrite Herrs, Hacc. reflexivity.
    + right. eauto.
Qed.

(** What [NewConfig] returns after a successful decode, in terms of the
    flattened errors. *)
Lemma NewConfig_outcome (h : packer.store) (raws : list Raw)
    (c : Config Embedded) :
  Decode env raws = (c, None) ->
  exists h' a warnings,
    packer.Errors h' (Some a) = flattened_errors env c
    /\ NewConfig env h raws
       = (h',
          (if decide (flattened_errors env c = []) then
             Some
               {| embedded := (embedded_errors (prepares env) (embedded c)).1;
                  Checksum := ToLower env (Checksum c);
                  ChecksumType := ToLower env (ChecksumType c);
                  GuestAdditionsMode :=
                    if is_empty (GuestAdditionsMode c)
                    then "upload" else GuestAdditionsMode c;
                  GuestAdditionsPath :=
                    if is_empty (GuestAdditionsPath c)
                    then "VBoxGuestAdditions.iso" else GuestAdditionsPath c;
                  GuestAdditionsInterface :=
                    if is_empty (GuestAdditionsInterface c)
                    then "ide" else GuestAdditionsInterface c;
                  GuestAdditionsSHA256 :=
                    if non_empty (GuestAdditionsSHA256 c)
                    then ToLower env (GuestAdditionsSHA256 c)
                    else GuestAdditionsSHA256 c;
                  GuestAdditionsURL := GuestAdditionsURL c;
                  ImportFlags :=
                    if non_empty (ImportOpts c)
                    then ImportFlags c ++ ["--options"; ImportOpts c]
                    else ImportFlags c;
                  ImportOpts := ImportOpts c;
                  SourcePath := SourcePath c;
                  TargetPath := TargetPath c;
                  VMName :=
                    if is_empty (VMName c)
                    then "packer-" +:+ PackerBuildName env (embedded c) +:+ "-"
                         +:+ format_int (InitTime_Unix env)
                    else VMName c;
                  KeepRegistered := KeepRegistered c;
                  SkipExport := SkipExport c |}
           else None,
           warnings,
           if decide (flattened_errors env c = []) then Nil else Accumulated a)).
Proof.
  intros Hdecode. unfold NewConfig. rewrite Hdecode.
  destruct (prepares_accumulate (prepares env) (embedded c) h None [])
    as (h1 & a & Hfold & Ha1 & Herrs1).
  { intros ? [=]. }
  { reflexivity. }
  { left. discriminate. }
  fold (embedded_errors (prepares env) (embedded c)) in Hfold, Herrs1.
  rewrite Hfold.
  unfold flattened_errors, own_errors.
  set (E := (embedded_errors (prepares env) (embedded c)).2) in *.
  set (o1 := if is_empty (SourcePath c) then ["source_path is required"] else []).
  assert (exists h2,
    (if is_empty (SourcePath c)
     then packer.MultiErrorAppend h1 (Some a) ["source_path is required"]
     else (h1, Some a)) = (h2, Some a)
    /\ (a < length h2)%nat /\ packer.Errors h2 (Some a) = E ++ o1)
    as (h2 & -> & Ha2 & Herrs2).
  { subst o1. destruct (is_empty (SourcePath c)).
    - destruct (MultiErrorAppend_shared h1 a ["source_path is required"] Ha1)
        as (h2 & -> & Ha2 & Herrs2).
      exists h2. rewrite Herrs2, Herrs1. auto.
    - exists h1. rewrite app_nil_r. auto. }
  set (o2 := match Stat env (SourcePath c) with
             | Some err => [err_source_file (SourcePath c) err]
             | None => []
             end).
  assert (exists h3,
    match Stat env (SourcePath c) with
    | Some err =>
        (packer.MultiErrorAppend h2 (Some a)
           [err_source_file (SourcePath c) err]).1
    | None => h2
    end = h3
    /\ (a < length h3)%nat /\ packer.Errors h3 (Some a) = E ++ o1 ++ o2)
    as (h3 & -> & Ha3 & Herrs3).
  { subst o2. destruct (Stat env (SourcePath c)) as [err|].
    - destruct (MultiErrorAppend_shared h2 a [err_source_file (SourcePath c) err] Ha2)
        as (h3 & -> & Ha3 & Herrs3).
      exists h3. rewrite Herrs3, Herrs2, <- app_assoc. auto.
    - exists h2. rewrite app_nil_r. auto. }
  set (mode := if is_empty (GuestAdditionsMode c)
               then "upload" else GuestAdditionsMode c).
  set (o3 := if negb (validMode env mode)
             then ["guest_additions_mode is invalid. Must be one of: "
                   +:+ format_strings (validModes env)]
             else []).
  assert (exists h4,
    (if negb (validMode env mode)
     then packer.MultiErrorAppend h3 (Some a)
            ["guest_additions_mode is invalid. Must be one of: "
             +:+ format_strings (validModes env)]
     else (h3, Some a)) = (h4, Some a)
    /\ packer.Errors h4 (Some a) = E ++ o1 ++ o2 ++ o3)
    as (h4 & -> & Herrs4).
  { subst o3. destruct (negb (validMode env mode)).
    - match goal with
      | |- context [packer.MultiErrorAppend h3 (Some a) ?es] =>
          destruct (MultiErrorAppend_shared h3 a es Ha3) as (h4 & -> & _ & Herrs4)
      end.
      exists h4. rewrite Herrs4, Herrs3, <- !app_assoc. auto.
    - exists h3. rewrite !app_nil_r. auto. }
  eexists h4, a, _. split; [exact Herrs4|].
  rewrite Herrs4.
  match goal with
  | |- context [decide (?L = [])] => change L with (E ++ o1 ++ o2 ++ o3)
  end.
  destruct (E ++ o1 ++ o2 ++ o3) as [|x l] eqn:Hall.
  - cbn [length Nat.ltb Nat.leb].
    destruct (decide (@nil error = [])) as [_|H]; [reflexivity | congruence].
  - cbn [length Nat.ltb Nat.leb].
    destruct (decide (x :: l = [])) as [H|_]; [discriminate | reflexivity].
Qed.

(** X14. The shared accumulator of [NewConfig] agrees with plain
    concatenation. After a successful decode, [NewConfig] returns a
    configuration and no error exactly when the flattened list of errors
    (those of the embedded configurations in the order of their [Prepare]
    calls, then those of its own rules) is empty; otherwise it returns no
    configuration and an error set that is exactly that list. *)
Theorem NewConfig_error_set (h : packer.store) (raws : list Raw)
    (c : Config Embedded) :
  Decode env raws = (c, None) ->
  exists h' warnings,
    (flattened_errors env c = []
     /\ exists c', NewConfig env h raws = (h', (Some c', warnings, Nil)))
    \/ (flattened_errors env c <> []
        /\ exists a,
             NewConfig env h raws = (h', (None, warnings, Accumulated a))
             /\ packer.Errors h' (Some a) = flattened_errors env c).
Proof.
  intros Hdecode.
  destruct (NewConfig_outcome h raws c Hdecode) as (h' & a & warnings & Herrs & ->).
  exists h', warnings.
  destruct (decide (flattened_errors env c = [])) as [Hnil|Hne].
  - left. split; [exact Hnil|]. eauto.
  - right. split; [exact Hne|]. exists a. split; [reflexivity | exact Herrs].
Qed.

(** X15. A configuration that [NewConfig] returns comes without an error,
    has a source path that is not empty and that [os.Stat] finds, a guest
    additions mode that is one of the valid modes, and a guest additions
    path, a guest additions interface and a machine name that are not
    empty. *)
Theorem NewConfig_returned_config (h h' : packer.store) (raws : list Raw)
    (c' : Config Embedded) (warnings : list string) (err : returned_error) :
  NewConfig env h raws = (h', (Some c', warnings, err)) ->
  err = Nil
  /\ SourcePath c' <> EmptyString
  /\ Stat env (SourcePath c') = None
  /\ validMode env (GuestAdditionsMode c') = true
  /\ GuestAdditionsPath c' <> EmptyString
  /\ GuestAdditionsInterface c' <> EmptyString
  /\ VMName c' <> EmptyString.
Proof.
  intros H. destruct (Decode env raws) as [c [e|]] eqn:Hdecode.
  { unfold NewConfig in H. rewrite Hdecode in H. discriminate H. }
  destruct (NewConfig_outcome h raws c Hdecode) as (h2 & a & w & _ & Hout).
  rewrite Hout in H.
  destruct (decide (flattened_errors env c = [])) as [Hnil|Hne]; [|discriminate H].
  injection H as _ <- _ <-.
  cbn [SourcePath GuestAdditionsMode GuestAdditionsPath GuestAdditionsInterface VMName].
  unfold flattened_errors, own_errors in Hnil.
  apply app_eq_nil in Hnil as [_ Hnil].
  apply app_eq_nil in Hnil as [Hpath Hnil].
  apply app_eq_nil in Hnil as [Hstat Hmode].
  split_and!.
  - reflexivity.
  - destruct (SourcePath c); [discriminate Hpath | discriminate].
  - destruct (Stat env (SourcePath c)); [discriminate Hstat | reflexivity].
  - destruct (validMode env _); [reflexivity | discriminate Hmode].
  - destruct (GuestAdditionsPath c); discriminate.
  - destruct (GuestAdditionsInterface c); discriminate.
  - destruct (VMName c); discriminate.
Qed.

(** X16. [NewConfig] returns a configuration exactly when it returns no
    error; an accumulated error it returns is never empty; and a decoder
    error comes without warnings and leaves the store as it was. *)
Theorem NewConfig_result (h h' : packer.store) (raws : list Raw)
    (oc : option (Config Embedded)) (warnings : list string)
    (err : returned_error) :
  NewConfig env h raws = (h', (oc, warnings, err)) ->
  (oc = None <-> err <> Nil)
  /\ (forall a, err = Accumulated a -> packer.Errors h' (Some a) <> [])
  /\ (forall e, err = DecodeError e -> h' = h /\ warnings = []).
Proof.
  intros H. destruct (Decode env raws) as [c [e|]] eqn:Hdecode.
  { unfold NewConfig in H. rewrite Hdecode in H. injection H as <- <- <- <-.
    split_and!; [split; [discriminate | reflexivity] | discriminate | auto]. }
  destruct (NewConfig_outcome h raws c Hdecode) as (h2 & a & w & Herrs & Hout).
  rewrite Hout in H.
  destruct (decide (flattened_errors env c = [])) as [Hnil|Hne];
    injection H as <- <- <- <-.
  - split_and!; [split; [discriminate | congruence] | discriminate | discriminate].
  - split_and!; [split; [discriminate | reflexivity] | | discriminate].
    intros b [= <-]. rewrite Herrs. exact Hne.
Qed.

End Facts.

Lemma NewConfig_error_set_witness :
  exists h' warnings,
    (flattened_errors Examples.ovf_collaborators
       (Examples.ovf_config "/tmp/user-data") = []
     /\ exists c',
          NewConfig Examples.ovf_collaborators [] ["/tmp/"; "user-data"]
          = (h', (Some c', warnings, Nil)))
    \/ (flattened_errors Examples.ovf_collaborators
          (Examples.ovf_config "/tmp/user-data") <> []
        /\ exists a,
             NewConfig Examples.ovf_collaborators [] ["/tmp/"; "user-data"]
             = (h', (None, warnings, Accumulated a))
             /\ packer.Errors h' (Some a)
                = flattened_errors Examples.ovf_collaborators
                    (Examples.ovf_config "/tmp/user-data")).
Proof.
  apply (NewConfig_error_set Examples.ovf_collaborators []
           ["/tmp/"; "user-data"] (Examples.ovf_config "/tmp/user-data")).
  reflexivity.
Defined.

Lemma NewConfig_returned_config_witness :
  exists c',
    (NewConfig Examples.ovf_collaborators [] ["/tmp/user-data"]).2.1.1 = Some c'
    /\ SourcePath c' = "/tmp/user-data"
    /\ validMode Examples.ovf_collaborators (GuestAdditionsMode c') = true
    /\ VMName c' <> EmptyString.
Proof.
  destruct (NewConfig Examples.ovf_collaborators [] ["/tmp/user-data"])
    as [h' [[[c'|] warnings] err]] eqn:Hnew; [|vm_compute in Hnew; discriminate Hnew].
  destruct (NewConfig_returned_config Examples.ovf_collaborators [] h'
              ["/tmp/user-data"] c' warnings err Hnew)
    as (_ & _ & _ & Hmode & _ & _ & Hname).
  exists c'. split_and!; [reflexivity | | exact Hmode | exact Hname].
  vm_compute in Hnew. injection Hnew as _ <- _ _. reflexivity.
Defined.

Lemma NewConfig_result_witness :
  packer.Errors (NewConfig Examples.ovf_collaborators [] ["/tmp/source.ovf"]).1
    (Some 0%nat) <> [].
Proof.
  apply (NewConfig_result Examples.ovf_collaborators []
           (NewConfig Examples.ovf_collaborators [] ["/tmp/source.ovf"]).1
           ["/tmp/source.ovf"]
           (NewConfig Examples.ovf_collaborators [] ["/tmp/source.ovf"]).2.1.1
           (NewConfig Examples.ovf_collaborators [] ["/tmp/source.ovf"]).2.1.2
           (NewConfig Examples.ovf_collaborators [] ["/tmp/source.ovf"]).2.2).
  - vm_compute. reflexivity.
  - vm_compute. reflexivity.
Defined.

End OvfMore.

(** ** The error accumulator and plain concatenation *)
Module PackerMore.

Import packer.

Lemma append_when_errors (cond : bool) (err : error) (h : store)
    (p : option nat) :
  (forall a, p = Some a -> (a < length h)%nat) ->
  (forall a, (append_when cond err (h, p)).2 = Some a ->
             (a < length (append_when cond err (h, p)).1)%nat)
  /\ Errors (append_when cond err (h, p)).1 (append_when cond err (h, p)).2
     = Errors h p ++ (if cond then [err] else []).
Proof.
  intros Hlive. unfold append_when. destruct cond; cbn [fst snd].
  - destruct (MultiErrorAppend h p [err]) as [h' p'] eqn:Happend.
    destruct (OvfFacts.MultiErrorAppend_live h h' p p' [err] Hlive Happend)
      as (a & -> & Ha & Herrs & _).
    cbn [fst snd]. split; [intros b [= <-]; exact Ha | exact Herrs].
  - split; [exact Hlive | symmetry; apply app_nil_r].
Qed.

(** A run of rules leaves in the accumulator what was there and then the
    errors of the violated rules, in the order of the rules. *)
Lemma append_rules_errors (rules : list (bool * error)) (h : store)
    (p : option nat) :
  (forall a, p = Some a -> (a < length h)%nat) ->
  (forall a, (append_rules rules (h, p)).2 = Some a ->
             (a < length (append_rules rules (h, p)).1)%nat)
  /\ Errors (append_rules rules (h, p)).1 (append_rules rules (h, p)).2
     = Errors h p ++ violations rules.
Proof.
  revert h p. induction rules as [|[cond err] rules IH]; intros h p Hlive.
  - split; [exact Hlive | symmetry; apply app_nil_r].
  - unfold append_rules, violations. cbn [fold_left flat_map fst snd].
    destruct (append_when_errors cond err h p Hlive) as [Hlive' Herrs].
    destruct (append_when cond err (h, p)) as [h' p'].
    cbn [fst snd] in Hlive', Herrs.
    destruct (IH h' p' Hlive') as [Hlive2 Herrs2].
    split; [exact Hlive2|].
    unfold append_rules, violations in Herrs2. rewrite Herrs2, Herrs, <- app_assoc.
    reflexivity.
Qed.

Lemma failed_errors (h : store) (p : option nat) :
  failed h p = true <-> Errors h p <> [].
Proof.
  unfold failed. destruct p as [a|]; cbn [Errors].
  - destruct (default [] (h !! a)); cbn [length Nat.ltb Nat.leb];
      split; intros H; congruence.
  - split; [discriminate | congruence].
Qed.

Lemma failed_pointer (h : store) (p : option nat) :
  failed h p = true -> is_Some p.
Proof. destruct p; [eauto | discriminate]. Qed.

End PackerMore.

(** ** The LXD and LXC builders *)
Module LxdFacts.

Import Lxd.

Section Facts.

Context {Raw Embedded : Type}.
Variable Decode : list Raw -> Config Embedded * option error.
Variable PackerBuildName : Embedded -> string.

(** X17. After a successful decode, the LXD [NewConfig] fails exactly
    when no image is given, and then its error set is the one message
    about the image. Otherwise it returns a configuration, allocates
    nothing, and the configuration has a container name, an output image,
    a command wrapper, a profile and an init sleep that are not empty.
    Every value that was given is kept: the image, the embedded
    configuration, the two maps, and a container name, output image,
    command wrapper, profile and init sleep that are not empty. Left out,
    the container name is [packer-] and the build name, the output image
    is the resolved container name, the command wrapper is
    [{{.Command}}], the profile is [default] and the init sleep is [3]. *)
Theorem NewConfig_image (h : packer.store) (raws : list Raw)
    (c : Config Embedded) :
  Decode raws = (c, None) ->
  (Image c = EmptyString ->
   exists h' a,
     NewConfig Decode PackerBuildName h raws = (h', (None, Ovf.Accumulated a))
     /\ packer.Errors h' (Some a) = [err_image])
  /\ (Image c <> EmptyString ->
      exists c',
        NewConfig Decode PackerBuildName h raws = (h, (Some c', Ovf.Nil))
        /\ Image c' = Image c
        /\ ContainerName c' <> EmptyString
        /\ OutputImage c' <> EmptyString
        /\ CommandWrapper c' <> EmptyString
        /\ Profile c' <> EmptyString
        /\ InitSleep c' <> EmptyString
        /\ (ContainerName c <> EmptyString -> ContainerName c' = ContainerName c)
        /\ (OutputImage c <> EmptyString -> OutputImage c' = OutputImage c)
        /\ (OutputImage c = EmptyString -> OutputImage c' = ContainerName c')
        /\ (ContainerName c = EmptyString ->
            ContainerName c' = "packer-" +:+ PackerBuildName (PackerConfig c))
        /\ (CommandWrapper c <> EmptyString ->
            CommandWrapper c' = CommandWrapper c)
        /\ (CommandWrapper c = EmptyString -> CommandWrapper c' = "{{.Command}}")
        /\ (Profile c <> EmptyString -> Profile c' = Profile c)
        /\ (Profile c = EmptyString -> Profile c' = "default")
        /\ (InitSleep c <> EmptyString -> InitSleep c' = InitSleep c)
        /\ (InitSleep c = EmptyString -> InitSleep c' = "3")
        /\ PackerConfig c' = PackerConfig c
        /\ PublishProperties c' = PublishProperties c
        /\ LaunchConfig c' = LaunchConfig c).
Proof.
  intros Hdecode. unfold NewConfig. rewrite Hdecode. split.
  - intros ->. cbn [is_empty].
    destruct (PackerMore.append_when_errors true err_image h None)
      as [Hlive Herrs]; [intros ? [=]|].
    destruct (packer.append_when true err_image (h, None)) as [h' p] eqn:Happend.
    cbn [fst snd packer.Errors app] in Hlive, Herrs.
    assert (packer.failed h' p = true) as Hfailed.
    { apply PackerMore.failed_errors. rewrite Herrs. discriminate. }
    rewrite Hfailed.
    destruct (PackerMore.failed_pointer h' p Hfailed) as [a ->].
    exists h', a. split; [reflexivity | exact Herrs].
  - intros Himage. apply is_empty_false in Himage. rewrite Himage.
    unfold packer.append_when. cbn [packer.failed].
    eexists. split; [reflexivity|].
    cbn [Image ContainerName OutputImage CommandWrapper Profile InitSleep
         PackerConfig PublishProperties LaunchConfig].
    split_and!.
    + reflexivity.
    + destruct (ContainerName c); discriminate.
    + destruct (OutputImage c); [destruct (ContainerName c)|]; discriminate.
    + destruct (CommandWrapper c); discriminate.
    + destruct (Profile c); discriminate.
    + destruct (InitSleep c); discriminate.
    + intros H. apply is_empty_false in H. rewrite H. reflexivity.
    + intros H. apply is_empty_false in H. rewrite H. reflexivity.
    + intros ->. reflexivity.
    + intros ->. reflexivity.
    + intros H. apply is_empty_false in H. rewrite H. reflexivity.
    + intros ->. reflexivity.
    + intros H. apply is_empty_false in H. rewrite H. reflexivity.
    + intros ->. reflexivity.
    + intros H. apply is_empty_false in H. rewrite H. reflexivity.
    + intros ->. reflexivity.
    + reflexivity.
    + reflexivity.
    + reflexivity.
Qed.

End Facts.

Lemma NewConfig_image_witness :
  (exists h' a,
     NewConfig Examples.lxd_Decode id [] [] = (h', (None, Ovf.Accumulated a))
     /\ packer.Errors h' (Some a) = [err_image])
  /\ (exists c',
        NewConfig Examples.lxd_Decode id [] ["ubuntu-daily:x"]
        = ([], (Some c', Ovf.Nil))
        /\ OutputImage c' = "packer-web"
        /\ Profile c' = "default"
        /\ InitSleep c' = "5").
Proof.
  split.
  - apply (NewConfig_image Examples.lxd_Decode id [] []
             (Examples.lxd_Decode []).1); reflexivity.
  - destruct (proj2 (NewConfig_image Examples.lxd_Decode id []
                       ["ubuntu-daily:x"]
                       (Examples.lxd_Decode ["ubuntu-daily:x"]).1 eq_refl))
      as (c' & Hnew & _ & _ & _ & _ & _ & _ & _ & _ & Houtput & Hname & _ & _
          & _ & Hprofile & Hsleep & _).
    + discriminate.
    + exists c'. split; [exact Hnew|].
      rewrite (Houtput eq_refl), (Hname eq_refl), (Hprofile eq_refl), Hsleep;
        [split_and!; reflexivity | discriminate].
Defined.

End LxdFacts.

Module LxcFacts.

Import Lxc.

Section Facts.

Context {Raw Embedded : Type}.
Variable Decode : list Raw -> Config Embedded * option error.
Variable PackerBuildName : Embedded -> string.
Variable ParseDuration : string -> Z * option error.
Variable Stat : string -> option stat_error.

(** X18. After a successful decode, the LXC [NewConfig] reports an init
    timeout that does not parse (the given one, or [20s] when none is
    given) and a configuration file that [os.Stat] says does not exist, in
    this order, and fails exactly when one of the two is reported. A
    failure of [os.Stat] of any other kind is not reported. A returned
    configuration carries the parsed timeout and a run level that is not
    zero. *)
Theorem NewConfig_lxc (h : packer.store) (raws : list Raw)
    (c : Config Embedded) :
  Decode raws = (c, None) ->
  let raw := if is_empty (RawInitTimeout c) then "20s" else RawInitTimeout c in
  let errors :=
    match (ParseDuration raw).2 with
    | Some err => [err_init_timeout err]
    | None => []
    end
    ++ (if IsNotExist (Stat (ConfigFile c))
        then [err_config_file (ConfigFile c)] else []) in
  (errors <> [] ->
   exists h' a,
     NewConfig Decode PackerBuildName ParseDuration Stat h raws
     = (h', (None, Ovf.Accumulated a))
     /\ packer.Errors h' (Some a) = errors)
  /\ (errors = [] ->
      exists c',
        NewConfig Decode PackerBuildName ParseDuration Stat h raws
        = (h, (Some c', Ovf.Nil))
        /\ RawInitTimeout c' = raw
        /\ InitTimeout c' = (ParseDuration raw).1
        /\ TargetRunlevel c' <> 0
        /\ ConfigFile c' = ConfigFile c)
  /\ (Stat (ConfigFile c) = Some ErrOther -> (ParseDuration raw).2 = None ->
      errors = []).
Proof.
  intros Hdecode raw errors. unfold NewConfig. rewrite Hdecode.
  fold raw. destruct (ParseDuration raw) as [d perr] eqn:Hparse.
  cbn [fst snd] in errors.
  set (st := match perr with
             | Some err => packer.MultiErrorAppend h None [err_init_timeout err]
             | None => (h, None)
             end).
  assert ((forall a, st.2 = Some a -> (a < length st.1)%nat)
          /\ packer.Errors st.1 st.2
             = match perr with Some err => [err_init_timeout err] | None => [] end
          /\ (perr = None -> st = (h, None)))
    as (Hlive & Herrs & Hnone).
  { subst st. destruct perr as [err|].
    - destruct (packer.MultiErrorAppend h None [err_init_timeout err])
        as [h' p'] eqn:Happend.
      destruct (OvfFacts.MultiErrorAppend_live h h' None p' [err_init_timeout err])
        as (a & -> & Ha & Herrs & _); [intros ? [=] | exact Happend |].
      cbn [fst snd]. split_and!; [intros ? [= <-]; exact Ha | exact Herrs | discriminate].
    - cbn [fst snd]. split_and!; [intros ? [=] | reflexivity | reflexivity]. }
  destruct st as [h1 p1] eqn:Hst. cbn [fst snd] in Hlive, Herrs.
  destruct (PackerMore.append_when_errors (IsNotExist (Stat (ConfigFile c)))
              (err_config_file (ConfigFile c)) h1 p1 Hlive) as [Hlive2 Herrs2].
  rewrite Herrs in Herrs2. fold errors in Herrs2.
  split_and!.
  - intros Hne.
    destruct (packer.append_when _ _ (h1, p1)) as [h2 p2]. cbn [fst snd] in Herrs2.
    assert (packer.failed h2 p2 = true) as Hfailed.
    { apply PackerMore.failed_errors. rewrite Herrs2. exact Hne. }
    rewrite Hfailed. destruct (PackerMore.failed_pointer h2 p2 Hfailed) as [a ->].
    exists h2, a. split; [reflexivity | exact Herrs2].
  - intros Hnil. subst errors. apply app_eq_nil in Hnil as [Hp Hs].
    destruct perr; [discriminate Hp|]. injection (Hnone eq_refl) as -> ->.
    destruct (IsNotExist (Stat (ConfigFile c))); [discriminate Hs|].
    unfold packer.append_when. cbn [packer.failed].
    eexists. split; [reflexivity|].
    cbn [RawInitTimeout InitTimeout TargetRunlevel ConfigFile].
    split_and!; try reflexivity.
    destruct (Z.eqb_spec (TargetRunlevel c) 0); [discriminate | assumption].
  - intros Hstat Hperr. subst errors. cbn [snd] in Hperr. rewrite Hstat, Hperr.
    reflexivity.
Qed.

End Facts.

Lemma NewConfig_lxc_witness :
  (exists h' a,
     NewConfig Examples.lxc_Decode id Examples.ParseDuration Examples.lxc_Stat
       [] ["/tmp/lxc.conf"] = (h', (None, Ovf.Accumulated a))
     /\ packer.Errors h' (Some a) = [err_config_file "/tmp/lxc.conf"])
  /\ (exists c',
        NewConfig Examples.lxc_Decode id Examples.ParseDuration Examples.lxc_Stat
          [] ["/root/lxc.conf"] = ([], (Some c', Ovf.Nil))
        /\ InitTimeout c' = 20 * 1000000000).
Proof.
  split.
  - apply (NewConfig_lxc Examples.lxc_Decode id Examples.ParseDuration
             Examples.lxc_Stat [] ["/tmp/lxc.conf"]
             (Examples.lxc_Decode ["/tmp/lxc.conf"]).1 eq_refl).
    discriminate.
  - destruct (NewConfig_lxc Examples.lxc_Decode id Examples.ParseDuration
                Examples.lxc_Stat [] ["/root/lxc.conf"]
                (Examples.lxc_Decode ["/root/lxc.conf"]).1 eq_refl)
      as (_ & Hok & Hother).
    destruct (Hok (Hother eq_refl eq_refl)) as (c' & Hnew & _ & Htimeout & _).
    exists c'. split; [exact Hnew | exact Htimeout].
Defined.

End LxcFacts.

(** ** The Alicloud image configuration *)
Module AlicloudFacts.

Import Alicloud.

(** The loop keeps the set of the regions it has appended. *)
Lemma unique_regions_loop (regions : list string) (seen : gset string)
    (acc : list string) :
  seen = list_to_set acc -> NoDup acc ->
  let st :=
    fold_left
      (fun (st : gset string * list string) region =>
         if decide (region ∈ st.1) then st
         else ({[region]} ∪ st.1, st.2 ++ [region]))
      regions (seen, acc) in
  NoDup st.2
  /\ (forall region, region ∈ st.2 <-> region ∈ acc \/ region ∈ regions)
  /\ exists kept, st.2 = acc ++ kept /\ sublist kept regions.
Proof.
  revert seen acc. induction regions as [|r regions IH]; intros seen acc Hseen Hdup.
  - cbn [fold_left snd]. split_and!; [exact Hdup | | exists []; split].
    + intros region. rewrite elem_of_nil. tauto.
    + symmetry. apply app_nil_r.
    + constructor.
  - cbn [fold_left fst snd]. destruct (decide (r ∈ seen)) as [Hin|Hnotin].
    + destruct (IH seen acc Hseen Hdup) as (Hd & Hmem & kept & Hkept & Hsub).
      split_and!; [exact Hd | | exists kept; split; [exact Hkept|]].
      * intros region. rewrite Hmem, elem_of_cons.
        split; [tauto|]. intros [H|[->|H]]; [tauto | | tauto].
        left. rewrite Hseen in Hin. apply elem_of_list_to_set in Hin. exact Hin.
      * apply sublist_cons. exact Hsub.
    + assert (r ∉ acc) as Hacc.
      { intros H. apply Hnotin. rewrite Hseen. apply elem_of_list_to_set. exact H. }
      destruct (IH ({[r]} ∪ seen) (acc ++ [r])) as (Hd & Hmem & kept & Hkept & Hsub).
      * rewrite Hseen, list_to_set_app_L. cbn [list_to_set].
        rewrite (right_id_L ∅ (∪)). apply (comm_L (∪)).
      * apply NoDup_app. split_and!; [exact Hdup | | apply NoDup_singleton].
        intros x Hx Hx'. apply list_elem_of_singleton in Hx'. subst x. contradiction.
      * split_and!; [exact Hd | | exists (r :: kept); split].
        -- intros region. rewrite Hmem, elem_of_app, list_elem_of_singleton, elem_of_cons.
           tauto.
        -- rewrite Hkept, <- app_assoc. reflexivity.
        -- apply sublist_skip. exact Hsub.
Qed.

Lemma unique_regions_spec (regions : list string) :
  NoDup (unique_regions regions)
  /\ (forall region, region ∈ unique_regions regions <-> region ∈ regions)
  /\ sublist (unique_regions regions) regions.
Proof.
  destruct (unique_regions_loop regions ∅ []) as (Hd & Hmem & kept & Hkept & Hsub);
    [reflexivity | constructor |].
  fold (unique_regions regions) in Hd, Hmem, Hkept.
  split_and!; [exact Hd | | rewrite Hkept; exact Hsub].
  intros region. rewrite Hmem, elem_of_nil. tauto.
Qed.

(** The loop keeps an entry exactly when its region does not occur among
    the entries before it; [before] holds the entries already visited. *)
Lemma unique_regions_first (regions before : list string) (seen : gset string)
    (acc : list string) :
  (forall region, region ∈ seen <-> region ∈ before) ->
  (fold_left
     (fun (st : gset string * list string) region =>
        if decide (region ∈ st.1) then st
        else ({[region]} ∪ st.1, st.2 ++ [region]))
     regions (seen, acc)).2
  = acc
    ++ concat
         (imap
            (fun i region =>
               if decide (region ∈ before ++ take i regions)
               then [] else [region])
            regions).
Proof.
  revert before seen acc.
  induction regions as [|r regions IH]; intros before seen acc Hseen.
  - cbn [fold_left snd imap concat]. symmetry. apply app_nil_r.
  - cbn [fold_left fst snd]. rewrite imap_cons. cbn [concat take].
    rewrite app_nil_r.
    assert (imap
              ((fun i region =>
                  if decide (region ∈ before ++ take i (r :: regions))
                  then [] else [region]) ∘ S) regions
            = imap
                (fun i region =>
                   if decide (region ∈ (before ++ [r]) ++ take i regions)
                   then [] else [region]) regions) as ->.
    { apply imap_ext. intros i region _. unfold compose. cbn [take].
      rewrite <- app_assoc. reflexivity. }
    destruct (decide (r ∈ seen)) as [Hin|Hnotin];
      destruct (decide (r ∈ before)) as [Hin'|Hnotin'];
      try (apply Hseen in Hin; contradiction);
      try (apply Hseen in Hin'; contradiction).
    + cbn [app]. apply IH. intros region.
      rewrite elem_of_app, list_elem_of_singleton, Hseen.
      split; [tauto | intros [H | ->]; [exact H | exact Hin']].
    + rewrite (IH (before ++ [r]) ({[r]} ∪ seen) (acc ++ [r])).
      * rewrite <- app_assoc. reflexivity.
      * intros region.
        rewrite elem_of_union, elem_of_singleton, elem_of_app,
          list_elem_of_singleton, Hseen.
        tauto.
Qed.

(** X19. After [AlicloudImageConfig.Prepare] the destination regions hold
    every region that was given, each once, in the order of their first
    occurrences: an entry of the given list is kept exactly when the same
    region does not occur before it. So the list has no duplicates, has
    the same members as the given list and is a sublist of it. Errors do
    not prevent this. *)
Theorem Prepare_unique_regions (c : AlicloudImageConfig) :
  let given := AlicloudImageDestinationRegions c in
  let regions := AlicloudImageDestinationRegions (Prepare c).1 in
  regions
  = concat
      (imap
         (fun i region =>
            if decide (region ∈ take i given) then [] else [region])
         given)
  /\ NoDup regions
  /\ (forall region, region ∈ regions <-> region ∈ given)
  /\ sublist regions given.
Proof.
  intros given regions.
  assert (regions = unique_regions given) as ->.
  { subst regions given. unfold Prepare. cbv zeta.
    match goal with |- context [if ?b then (_, _) else (_, [])] => destruct b end;
      cbn [fst];
      (destruct (AlicloudImageDestinationRegions c) as [|r l] eqn:E;
       [cbn [length Nat.ltb Nat.leb]; rewrite E; reflexivity
       |cbn [length Nat.ltb Nat.leb]; reflexivity]). }
  split; [|apply unique_regions_spec].
  unfold unique_regions. rewrite (unique_regions_first given [] ∅ []).
  - reflexivity.
  - intros region. rewrite elem_of_nil, elem_of_empty. tauto.
Qed.

(** No space of the class is found exactly when the string holds none. *)
Lemma leading_spaces_none (s : string) :
  FindString_spaces s = EmptyString <->
  forallb (fun a => negb (is_space a)) (list_ascii_of_string s) = true.
Proof.
  induction s as [|a s IH]; [split; reflexivity|].
  cbn [FindString_spaces list_ascii_of_string forallb].
  destruct (is_space a); cbn [negb andb]; [split; discriminate | exact IH].
Qed.

(** X20. [AlicloudImageConfig.Prepare] reports no error exactly when
    the image name has between 2 and 128 bytes, starts with neither
    [http://] nor [https://], and holds no tab, line feed, form feed,
    carriage return or space. *)
Theorem Prepare_name_ok_iff (c : AlicloudImageConfig) :
  (Prepare c).2 = [] <->
  (2 <= String.length (AlicloudImageName c) <= 128)%nat
  /\ String.prefix "http://" (AlicloudImageName c) = false
  /\ String.prefix "https://" (AlicloudImageName c) = false
  /\ forallb (fun a => negb (is_space a))
       (list_ascii_of_string (AlicloudImageName c)) = true.
Proof.
  rewrite <- leading_spaces_none. unfold Prepare. cbv zeta.
  set (c' := if (0 <? length (AlicloudImageDestinationRegions c))%nat then _ else c).
  clearbody c'. unfold non_empty, is_empty.
  destruct (AlicloudImageName c) as [|a name] eqn:Hname.
  - cbn. split; [discriminate | intros [[H _] _]; lia].
  - cbn [String.eqb].
    assert ((if Ascii.eqb a a then false else false) = false) as _ by (destruct (Ascii.eqb a a); reflexivity).
    cbn [app].
    destruct ((String.length (String a name) <? 2)%nat) eqn:Hlow;
      [cbn [orb app length Nat.ltb Nat.leb];
       apply Nat.ltb_lt in Hlow;
       split; [destruct (negb _); discriminate | intros [[H _] _]; lia]|].
    apply Nat.ltb_ge in Hlow.
    destruct ((128 <? String.length (String a name))%nat) eqn:Hhigh;
      [cbn [orb app length Nat.ltb Nat.leb];
       apply Nat.ltb_lt in Hhigh;
       split; [destruct (negb _); discriminate | intros [[_ H] _]; lia]|].
    apply Nat.ltb_ge in Hhigh. cbn [orb].
    destruct (String.prefix "http://" (String a name)) eqn:Hhttp;
      [cbn [orb app];
       split; [destruct (negb _); discriminate | intros (_ & H & _); discriminate]|].
    destruct (String.prefix "https://" (String a name)) eqn:Hhttps;
      [cbn [orb app];
       split; [destruct (negb _); discriminate | intros (_ & _ & H & _); discriminate]|].
    cbn [orb].
    destruct (FindString_spaces (String a name)) as [|b rest] eqn:Hfind.
    + cbn [negb app length Nat.ltb Nat.leb snd].
      split; [intros _; split_and!; [lia | lia | reflexivity..] | reflexivity].
    + cbn. split; [discriminate | intros (_ & _ & _ & H); discriminate].
Qed.

End AlicloudFacts.

(** ** The Triton source machine configuration *)
Module TritonFacts.

Import Triton.

(** X21. [SourceMachineConfig.Prepare] leaves no collection nil: the
    networks, the metadata and the tags are present afterwards, and those
    that were given are kept. A second run changes nothing and reports
    the same errors. *)
Theorem SourceMachineConfig_Prepare_again (c : SourceMachineConfig) :
  let c' := (SourceMachineConfig_Prepare c).1 in
  MachineNetworks c' = Some (default [] (MachineNetworks c))
  /\ MachineMetadata c' = Some (default ∅ (MachineMetadata c))
  /\ MachineTags c' = Some (default ∅ (MachineTags c))
  /\ SourceMachineConfig_Prepare c' = (c', (SourceMachineConfig_Prepare c).2).
Proof.
  destruct c as [name package image networks metadata tags firewall filters].
  unfold SourceMachineConfig_Prepare. cbv zeta.
  cbn [MachineName MachinePackage MachineImage MachineNetworks MachineMetadata
       MachineTags MachineFirewallEnabled MachineImageFilters].
  destruct (is_empty package) eqn:Hpackage,
    (non_empty image && non_empty (Name filters)) eqn:Himage;
    cbn [app length Nat.ltb Nat.leb fst snd
         MachineName MachinePackage MachineImage MachineNetworks MachineMetadata
         MachineTags MachineFirewallEnabled MachineImageFilters];
    rewrite ?Hpackage, ?Himage;
    cbn [app length Nat.ltb Nat.leb];
    destruct networks, metadata, tags; cbn [default];
    split_and!; reflexivity.
Qed.

End TritonFacts.

(** ** The CloudStack builder *)
Module CloudstackFacts.

Import Cloudstack.

Section Facts.

Context {Raw Embedded Rest : Type}.
Variable Decode : list Raw -> Config Embedded Rest * option error.
Variable Getenv : string -> string.
Variable uuid_instance : string.
Variable uuid_keypair : string.
Variable Render : string -> string * option error.
Variable Stat : string -> option error.
Variable comm_Prepare :
  communicator.Config Rest -> communicator.Config Rest * list error.

Local Notation "'NewConfig'" :=
  (Cloudstack.NewConfig Decode Getenv uuid_instance uuid_keypair Render Stat
     comm_Prepare).
Local Notation "'flattened_errors'" :=
  (Cloudstack.flattened_errors Getenv uuid_keypair Render Stat comm_Prepare).
Local Notation "'defaulted'" := (Cloudstack.defaulted Getenv uuid_instance Render).
Local Notation "'rules'" := (Cloudstack.rules Getenv Stat).
Local Notation "'keyed'" := (Cloudstack.keyed uuid_keypair).

Lemma append_rules_none (rs : list (bool * error)) (st : packer.store * option nat) :
  packer.violations rs = [] -> packer.append_rules rs st = st.
Proof.
  revert st. induction rs as [|[cond err] rs IH]; intros st Hnone; [reflexivity|].
  unfold packer.violations in Hnone. cbn [flat_map fst snd] in Hnone.
  apply app_eq_nil in Hnone as [Hcond Hrest].
  destruct cond; [discriminate|].
  unfold packer.append_rules. cbn [fold_left packer.append_when fst].
  apply IH. exact Hrest.
Qed.

(** The two outcomes of [NewConfig] after a successful decode. *)
Lemma NewConfig_cloudstack_outcome (h : packer.store) (raws : list Raw)
    (c : Config Embedded Rest) :
  Decode raws = (c, None) ->
  (flattened_errors c = []
   /\ NewConfig h raws
      = (h, (Some (defaulted c (comm_Prepare (keyed c)).1), Ovf.Nil)))
  \/ (flattened_errors c <> []
      /\ exists h' a,
           NewConfig h raws = (h', (None, Ovf.Accumulated a))
           /\ packer.Errors h' (Some a) = flattened_errors c).
Proof.
  intros Hdecode. unfold Cloudstack.NewConfig. rewrite Hdecode. cbv zeta.
  unfold Cloudstack.flattened_errors.
  destruct (comm_Prepare (keyed c)) as [comm es] eqn:Hcomm. cbn [fst snd].
  destruct (PackerMore.append_rules_errors (render_rule Render c) h None)
    as [Hlive1 Herrs1]; [intros ? [=]|].
  destruct (packer.append_rules (render_rule Render c) (h, None)) as [h1 p1] eqn:Hst1.
  cbn [fst snd packer.Errors app] in Hlive1, Herrs1.
  destruct (PackerMore.append_rules_errors (rules c) h1 p1 Hlive1)
    as [Hlive2 Herrs2].
  destruct (packer.append_rules (rules c) (h1, p1)) as [h2 p2] eqn:Hst2.
  cbn [fst snd] in Hlive2, Herrs2. rewrite Herrs1 in Herrs2.
  destruct (decide (packer.violations (render_rule Render c)
                    ++ packer.violations (rules c) ++ es = [])) as [Hnone|Hsome].
  - left. split; [exact Hnone|].
    apply app_eq_nil in Hnone as [Hrender Hrest].
    apply app_eq_nil in Hrest as [Hrules ->].
    rewrite append_rules_none in Hst1 by exact Hrender. injection Hst1 as <- <-.
    rewrite append_rules_none in Hst2 by exact Hrules. injection Hst2 as <- <-.
    reflexivity.
  - right. split; [exact Hsome|]. cbn [fst snd].
    assert (exists h' p',
              (if (0 <? length es)%nat
               then packer.MultiErrorAppend h2 p2 es else (h2, p2)) = (h', p')
              /\ packer.Errors h' p'
                 = packer.violations (render_rule Render c)
                   ++ packer.violations (rules c) ++ es) as (h' & p' & -> & Herrs).
    { destruct es as [|e es]; cbn [length Nat.ltb Nat.leb].
      - exists h2, p2. split; [reflexivity|]. rewrite Herrs2, app_nil_r. reflexivity.
      - destruct (packer.MultiErrorAppend h2 p2 (e :: es)) as [h' p'] eqn:Happend.
        destruct (OvfFacts.MultiErrorAppend_live h2 h' p2 p' (e :: es) Hlive2 Happend)
          as (a & -> & _ & Happended & _).
        exists h', (Some a). split; [reflexivity|].
        rewrite Happended, Herrs2, <- app_assoc. reflexivity. }
    assert (packer.failed h' p' = true) as Hfailed.
    { apply PackerMore.failed_errors. rewrite Herrs. exact Hsome. }
    rewrite Hfailed. destruct (PackerMore.failed_pointer h' p' Hfailed) as [a ->].
    exists h', a. split; [reflexivity | exact Herrs].
Qed.

Lemma violations_none (rs : list (bool * error)) :
  packer.violations rs = [] -> Forall (fun rule => rule.1 = false) rs.
Proof.
  induction rs as [|[cond err] rs IH]; intros Hnone; [constructor|].
  unfold packer.violations in Hnone. cbn [flat_map fst snd] in Hnone.
  apply app_eq_nil in Hnone as [Hcond Hrest].
  constructor; [destruct cond; [discriminate | reflexivity] | exact (IH Hrest)].
Qed.

(** A configuration is returned only for an input without errors, and it
    is the defaulted input. *)
Lemma NewConfig_returns (h h' : packer.store) (raws : list Raw)
    (c' : Config Embedded Rest) (e : Ovf.returned_error) :
  NewConfig h raws = (h', (Some c', e)) ->
  exists c,
    Decode raws = (c, None)
    /\ flattened_errors c = []
    /\ h' = h /\ e = Ovf.Nil
    /\ c' = defaulted c (comm_Prepare (keyed c)).1.
Proof.
  intros Hreturn. destruct (Decode raws) as [c [err|]] eqn:Hdecode.
  - unfold Cloudstack.NewConfig in Hreturn. rewrite Hdecode in Hreturn. discriminate.
  - exists c. split; [reflexivity|].
    destruct (NewConfig_cloudstack_outcome h raws c Hdecode)
      as [[Hnone Hrun] | [_ (h2 & a & Hrun & _)]];
      rewrite Hrun in Hreturn; [|discriminate].
    injection Hreturn as <- <- <-. split_and!; [exact Hnone | reflexivity..].
Qed.

(** X22. After a successful decode, the CloudStack [NewConfig] returns
    no configuration exactly when a rule is violated or the communicator
    reports an error; the returned error then holds the message of every
    violated rule, in the order of the checks, followed by the errors of
    the communicator, none of them lost and nothing else added. *)
Theorem NewConfig_reports_all (h : packer.store) (raws : list Raw)
    (c : Config Embedded Rest) :
  Decode raws = (c, None) ->
  ((NewConfig h raws).2.1 = None <-> flattened_errors c <> [])
  /\ (flattened_errors c <> [] ->
      exists h' a,
        NewConfig h raws = (h', (None, Ovf.Accumulated a))
        /\ packer.Errors h' (Some a)
           = packer.violations (render_rule Render c)
             ++ packer.violations (rules c)
             ++ (comm_Prepare (keyed c)).2).
Proof.
  intros Hdecode.
  destruct (NewConfig_cloudstack_outcome h raws c Hdecode)
    as [[Hnone Hrun] | [Hsome (h' & a & Hrun & Herrs)]]; rewrite Hrun; cbn [fst snd].
  - split; [split; [discriminate | intros H; contradiction] | intros H; contradiction].
  - split; [split; [intros _; exact Hsome | reflexivity]|].
    intros _. exists h', a. split; [reflexivity | exact Herrs].
Qed.

(** X23. A configuration returned by the CloudStack [NewConfig] is
    complete: URL, key, secret, network, service offering, template
    operating system and zone are present; exactly one of source ISO and
    source template is given, and an ISO comes with a disk offering and a
    hypervisor; a created security group comes with expunge; at most one
    of user data and user data file is given, and a given file exists;
    the timeout is not zero, and the CIDR list and the instance name are
    not empty. The store of errors is untouched and no error is
    returned. *)
Theorem NewConfig_complete (h h' : packer.store) (raws : list Raw)
    (c' : Config Embedded Rest) (e : Ovf.returned_error) :
  NewConfig h raws = (h', (Some c', e)) ->
  h' = h /\ e = Ovf.Nil
  /\ APIURL c' <> EmptyString /\ APIKey c' <> EmptyString
  /\ SecretKey c' <> EmptyString /\ Network c' <> EmptyString
  /\ ServiceOffering c' <> EmptyString /\ TemplateOS c' <> EmptyString
  /\ Zone c' <> EmptyString
  /\ (SourceISO c' = EmptyString <-> SourceTemplate c' <> EmptyString)
  /\ (SourceISO c' <> EmptyString ->
      DiskOffering c' <> EmptyString /\ Hypervisor c' <> EmptyString)
  /\ (CreateSecurityGroup c' = true -> Expunge c' = true)
  /\ (UserData c' = EmptyString \/ UserDataFile c' = EmptyString)
  /\ (UserDataFile c' <> EmptyString -> Stat (UserDataFile c') = None)
  /\ AsyncTimeout c' <> 0 /\ CIDRList c' <> [] /\ InstanceName c' <> EmptyString.
Proof.
  intros Hreturn.
  destruct (NewConfig_returns h h' raws c' e Hreturn)
    as (c & _ & Hnone & -> & -> & ->).
  unfold Cloudstack.flattened_errors in Hnone.
  apply app_eq_nil in Hnone as [_ Hnone]. apply app_eq_nil in Hnone as [Hrules _].
  apply violations_none in Hrules. unfold Cloudstack.rules in Hrules.
  repeat match goal with
         | H : Forall _ (_ :: _) |- _ => apply Forall_cons in H as [? H]
         end.
  clear Hrules. cbn [fst] in *.
  unfold Cloudstack.defaulted.
  cbn [APIURL APIKey SecretKey Network ServiceOffering TemplateOS Zone SourceISO
       SourceTemplate DiskOffering Hypervisor CreateSecurityGroup Expunge UserData
       UserDataFile AsyncTimeout CIDRList InstanceName].
  unfold non_empty in *.
  repeat match goal with
         | H : is_empty _ = false |- _ => apply is_empty_false in H
         end.
  split_and!; try reflexivity; try assumption.
  - destruct (SourceISO c), (SourceTemplate c); cbn in *;
      split; intros; congruence.
  - intros Hiso. apply is_empty_false in Hiso. rewrite Hiso in *. cbn [negb andb] in *.
    split; apply is_empty_false; assumption.
  - intros Hgroup. rewrite Hgroup in *. destruct (Expunge c); [reflexivity | discriminate].
  - destruct (UserData c), (UserDataFile c); cbn in *; try (left; reflexivity);
      try (right; reflexivity); discriminate.
  - intros Hfile. apply is_empty_false in Hfile. rewrite Hfile in *. cbn [negb andb] in *.
    destruct (Stat (UserDataFile c)); [discriminate | reflexivity].
  - unfold asyncTimeout. destruct (AsyncTimeout c =? 0) eqn:Hzero;
      [unfold Run.Minute; lia | apply Z.eqb_neq; exact Hzero].
  - unfold cidrList. destruct (CIDRList c); cbn; discriminate.
  - unfold instanceName. destruct (InstanceName c); cbn; discriminate.
Qed.

(** X24. In a configuration returned by the CloudStack [NewConfig], a
    URL, key or secret that was given is kept and one that was left out
    is the value of its environment variable; a timeout, CIDR list,
    instance name, template name and display text that were given are
    kept; left out, they are 30 minutes, the range [0.0.0.0/0], [packer-]
    and the generated identifier, the rendered name, and the resolved
    template name. *)
Theorem NewConfig_defaults (h h' : packer.store) (raws : list Raw)
    (c' : Config Embedded Rest) (e : Ovf.returned_error) :
  NewConfig h raws = (h', (Some c', e)) ->
  exists c,
    Decode raws = (c, None)
    /\ APIURL c' = (if decide (APIURL c = EmptyString)
                    then Getenv "CLOUDSTACK_API_URL" else APIURL c)
    /\ APIKey c' = (if decide (APIKey c = EmptyString)
                    then Getenv "CLOUDSTACK_API_KEY" else APIKey c)
    /\ SecretKey c' = (if decide (SecretKey c = EmptyString)
                       then Getenv "CLOUDSTACK_SECRET_KEY" else SecretKey c)
    /\ AsyncTimeout c' = (if decide (AsyncTimeout c = 0)
                          then 1800 * 1000000000 else AsyncTimeout c)
    /\ CIDRList c' = (if decide (CIDRList c = [])
                      then ["0.0.0.0/0"] else CIDRList c)
    /\ InstanceName c' = (if decide (InstanceName c = EmptyString)
                          then "packer-" +:+ uuid_instance else InstanceName c)
    /\ TemplateName c' = (if decide (TemplateName c = EmptyString)
                          then (Render "packer-{{timestamp}}").1
                          else TemplateName c)
    /\ TemplateDisplayText c' = (if decide (TemplateDisplayText c = EmptyString)
                                 then TemplateName c' else TemplateDisplayText c)
    /\ Comm c' = (comm_Prepare (keyed c)).1.
Proof.
  intros Hreturn.
  destruct (NewConfig_returns h h' raws c' e Hreturn)
    as (c & Hdecode & _ & _ & _ & ->).
  exists c. split; [exact Hdecode|].
  unfold Cloudstack.defaulted.
  cbn [APIURL APIKey SecretKey AsyncTimeout CIDRList InstanceName TemplateName
       TemplateDisplayText Comm].
  unfold apiURL, apiKey, secretKey, asyncTimeout, cidrList, instanceName,
    templateDisplayText, templateName.
  split_and!.
  - destruct (APIURL c); reflexivity.
  - destruct (APIKey c); reflexivity.
  - destruct (SecretKey c); reflexivity.
  - destruct (decide (AsyncTimeout c = 0)) as [->|Hzero]; [reflexivity|].
    apply Z.eqb_neq in Hzero. rewrite Hzero. reflexivity.
  - destruct (CIDRList c); reflexivity.
  - destruct (InstanceName c); reflexivity.
  - destruct (TemplateName c); reflexivity.
  - destruct (TemplateDisplayText c); reflexivity.
  - reflexivity.
Qed.

End Facts.

Lemma NewConfig_reports_all_witness :
  exists h' a,
    Cloudstack.NewConfig Examples.cloudstack_Decode Examples.cloudstack_Getenv
      "i-1" "k-1" Examples.cloudstack_Render Examples.Stat Examples.comm_Prepare
      [] [] = (h', (None, Ovf.Accumulated a))
    /\ packer.Errors h' (Some a) = ["a zone must be specified"].
Proof.
  apply (NewConfig_reports_all Examples.cloudstack_Decode
           Examples.cloudstack_Getenv "i-1" "k-1" Examples.cloudstack_Render
           Examples.Stat Examples.comm_Prepare [] []
           (Examples.cloudstack_Decode []).1 eq_refl).
  vm_compute. discriminate.
Defined.

Lemma NewConfig_complete_witness :
  exists c',
    Cloudstack.NewConfig Examples.cloudstack_Decode Examples.cloudstack_Getenv
      "i-1" "k-1" Examples.cloudstack_Render Examples.Stat Examples.comm_Prepare
      [] ["zone-1"] = ([], (Some c', Ovf.Nil))
    /\ Zone c' <> EmptyString
    /\ (SourceISO c' = EmptyString <-> SourceTemplate c' <> EmptyString)
    /\ CIDRList c' <> [].
Proof.
  destruct (Cloudstack.NewConfig Examples.cloudstack_Decode
              Examples.cloudstack_Getenv "i-1" "k-1" Examples.cloudstack_Render
              Examples.Stat Examples.comm_Prepare [] ["zone-1"])
    as [h' [[c'|] e]] eqn:Hrun.
  - destruct (NewConfig_complete _ _ _ _ _ _ _ _ _ _ _ _ Hrun)
      as (-> & -> & _ & _ & _ & _ & _ & _ & Hzone & Hsource & _ & _ & _ & _ & _
          & Hcidr & _).
    exists c'. split_and!; [reflexivity | exact Hzone | exact Hsource | exact Hcidr].
  - vm_compute in Hrun. discriminate.
Defined.

Lemma NewConfig_defaults_witness :
  exists c',
    Cloudstack.NewConfig Examples.cloudstack_Decode Examples.cloudstack_Getenv
      "i-1" "k-1" Examples.cloudstack_Render Examples.Stat Examples.comm_Prepare
      [] ["zone-1"] = ([], (Some c', Ovf.Nil))
    /\ APIURL c' = "https://cloud.example/api"
    /\ APIKey c' = "key"
    /\ InstanceName c' = "packer-i-1"
    /\ TemplateDisplayText c' = "packer-1572480000".
Proof.
  destruct (Cloudstack.NewConfig Examples.cloudstack_Decode
              Examples.cloudstack_Getenv "i-1" "k-1" Examples.cloudstack_Render
              Examples.Stat Examples.comm_Prepare [] ["zone-1"])
    as [h' [[c'|] e]] eqn:Hrun.
  - destruct (NewConfig_defaults _ _ _ _ _ _ _ _ _ _ _ _ Hrun)
      as (c & Hdecode & Hurl & Hkey & _ & _ & _ & Hinstance & Hname & Htext & _).
    unfold Examples.cloudstack_Decode in Hdecode. injection Hdecode as <-.
    rewrite Hname in Htext.
    destruct (NewConfig_returns _ _ _ _ _ _ _ _ _ _ _ _ Hrun)
      as (_ & _ & _ & -> & -> & _).
    exists c'. split_and!; [reflexivity | exact Hurl | exact Hkey
                           | exact Hinstance | exact Htext].
  - vm_compute in Hrun. discriminate.
Defined.

End CloudstackFacts.
